(** * haxor-news: the session-indexed item browser of [hncli/hacker_news.py]

    A shallow embedding of the [HackerNews] class (Python 2) and the
    properties of its relative-time labels, comment traversal, listing and
    persisted index. *)

From Stdlib Require Import ZArith List Bool Ascii String Lia.
From Stdlib Require Import Numbers.DecimalString.
Import ListNotations.

Set Warnings "-register-all".

Local Open Scope string_scope.
Local Open Scope Z_scope.

(** ** Python built-ins used by the program *)

Module Py.

(** [str(n)] for an int: the decimal numeral. *)
Definition str_int (n : Z) : string :=
  NilEmpty.string_of_int (Z.to_int n).

(** [c.isspace()] for an ASCII character: space, \t, \n, \v, \f, \r. *)
Definition isspace (c : ascii) : bool :=
  let n := nat_of_ascii c in
  (Nat.eqb n 32 || (Nat.leb 9 n && Nat.leb n 13))%bool.

Definition newline : ascii := ascii_of_nat 10.
Definition tab : ascii := ascii_of_nat 9.
Definition nl : string := String newline EmptyString.

Fixpoint lstrip (s : string) : string :=
  match s with
  | String c s' => if isspace c then lstrip s' else s
  | EmptyString => EmptyString
  end.

Fixpoint rstrip (s : string) : string :=
  match s with
  | String c s' =>
      let r := rstrip s' in
      if (String.eqb r EmptyString && isspace c)%bool then EmptyString
      else String c r
  | EmptyString => EmptyString
  end.

(** [s.strip()] *)
Definition strip (s : string) : string := rstrip (lstrip s).

(** Drop the first [n] characters: the slice [s[n:]]. *)
Fixpoint drop (n : nat) (s : string) : string :=
  match n, s with
  | S k, String _ s' => drop k s'
  | _, _ => s
  end.

(** [s.replace(old, new)] for a non-empty [old]: the leftmost
    non-overlapping occurrences are replaced.  [skip] counts the
    characters of an occurrence still to be passed over. *)
Fixpoint replace_from (old new : string) (skip : nat) (s : string) : string :=
  match s with
  | EmptyString => EmptyString
  | String c s' =>
      match skip with
      | S k => replace_from old new k s'
      | O =>
          if String.prefix old s
          then new ++ replace_from old new (String.length old - 1) s'
          else String c (replace_from old new O s')
      end
  end.

Definition replace (s old new : string) : string := replace_from old new O s.

(** [s.split(sep)] for a non-empty [sep]; the head of the result is the
    field being read. *)
Fixpoint split_from (sep : string) (skip : nat) (s : string) : list string :=
  match s with
  | EmptyString => [EmptyString]
  | String c s' =>
      match skip with
      | S k => split_from sep k s'
      | O =>
          if String.prefix sep s
          then EmptyString :: split_from sep (String.length sep - 1) s'
          else
            match split_from sep O s' with
            | field :: fields => String c field :: fields
            | [] => [String c EmptyString]
            end
      end
  end.

Definition split (s sep : string) : list string := split_from sep O s.

(** [sep.join(l)] *)
Fixpoint join (sep : string) (l : list string) : string :=
  match l with
  | [] => EmptyString
  | [x] => x
  | x :: l' => x ++ sep ++ join sep l'
  end.

(** [s * n]: repetition, empty for [n <= 0]. *)
Definition repeat_str (s : string) (n : Z) : string :=
  String.concat EmptyString (List.repeat s (Z.to_nat n)).

(** [c in s] for a character. *)
Fixpoint contains (c : ascii) (s : string) : bool :=
  match s with
  | EmptyString => false
  | String d s' => (Ascii.eqb c d || contains c s')%bool
  end.

(** Truth value of a string: non-empty. *)
Definition truthy (s : string) : bool := negb (String.eqb s EmptyString).

End Py.

(** ** [datetime]: naive instants and [timedelta] normalisation

    A naive [datetime] is its number of microseconds on the local time line;
    the difference of two of them is a [timedelta], whose [days] and
    [seconds] attributes are the floor quotient by one day and the whole
    seconds of the non-negative remainder. *)

Module Datetime.

Definition us_per_second : Z := 1000000.
Definition us_per_day : Z := 86400 * us_per_second.

Definition days (diff : Z) : Z := diff / us_per_day.
Definition seconds (diff : Z) : Z := (diff mod us_per_day) / us_per_second.

End Datetime.

(** The values [pretty_date_time] distinguishes: an [int] epoch timestamp,
    a [datetime], or a false value such as [None]. *)
Inductive date_time_arg : Type :=
| DtInt (timestamp : Z)
| DtDatetime (instant : Z)
| DtNone.

(** ** [HackerNews.pretty_date_time] *)

Section PrettyDateTime.

(** [datetime.now()] and [datetime.fromtimestamp], both on the local
    time line. *)
Variable now : Z.
Variable fromtimestamp : Z -> Z.

Definition pretty_date_time (date_time : date_time_arg) : string :=
  let diff :=
    match date_time with
    | DtInt t => now - fromtimestamp t
    | DtDatetime d => now - d
    | DtNone => now - now
    end in
  let second_diff := Datetime.seconds diff in
  let day_diff := Datetime.days diff in
  if day_diff <? 0 then EmptyString
  else
    let same_day :=
      if day_diff =? 0 then
        if second_diff <? 10 then Some "just now"
        else if second_diff <? 60 then
          Some (Py.str_int second_diff ++ " seconds ago")
        else if second_diff <? 120 then Some "1 minute ago"
        else if second_diff <? 3600 then
          Some (Py.str_int (second_diff / 60) ++ " minutes ago")
        else if second_diff <? 7200 then Some "1 hour ago"
        else if second_diff <? 86400 then
          Some (Py.str_int (second_diff / 3600) ++ " hours ago")
        else None
      else None in
    match same_day with
    | Some label => label
    | None =>
        if day_diff =? 1 then "Yesterday"
        else if day_diff <? 7 then Py.str_int day_diff ++ " days ago"
        else if day_diff <? 31 then Py.str_int (day_diff / 7) ++ " weeks ago"
        else if day_diff <? 365 then
          Py.str_int (day_diff / 30) ++ " months ago"
        else Py.str_int (day_diff / 365) ++ " years ago"
    end.

End PrettyDateTime.

(** ** Exceptions and results *)

Inductive exc_type : Type :=
| TypeError | AttributeError | IndexError | ValueError | IOError
| NoSectionError | NoOptionError | MissingSectionHeaderError | ParsingError
| ReError
| CollaboratorError.

(** An exception with its message, [str(e)]. *)
Record exception : Type := Exc { exc_kind : exc_type; exc_msg : string }.

(** What a call yields: a value, a raised exception, or nothing yet because
    the recursion bound of the model was reached. *)
Inductive outcome (A : Type) : Type :=
| Ok (a : A)
| Raise (e : exception)
| OutOfFuel.
Arguments Ok {A} a.
Arguments Raise {A} e.
Arguments OutOfFuel {A}.

(** An item identifier as the program holds it: the [int] of a fetched
    record, or the [str] read back from the configuration file. *)
Inductive ident : Type :=
| IdInt (n : Z)
| IdStr (s : string).

Module PyList.

(** [l[i]]: a negative [i] counts from the end. *)
Definition getitem {A : Type} (l : list A) (i : Z) : outcome A :=
  let n := Z.of_nat (List.length l) in
  let j := if i <? 0 then i + n else i in
  if ((0 <=? j) && (j <? n))%bool then
    match nth_error l (Z.to_nat j) with
    | Some x => Ok x
    | None => Raise (Exc IndexError "list index out of range")
    end
  else Raise (Exc IndexError "list index out of range").

Definition dquote : ascii := ascii_of_nat 34.

Definition hex_digit (n : nat) : ascii :=
  if Nat.ltb n 10 then ascii_of_nat (48 + n) else ascii_of_nat (87 + n).

(** [repr(s)] for a [str]. *)
Definition repr_char (quote c : ascii) : string :=
  let n := nat_of_ascii c in
  if (Ascii.eqb c quote || Ascii.eqb c "\")%bool
  then String "\" (String c EmptyString)
  else if Nat.eqb n 9 then "\t"
  else if Nat.eqb n 10 then "\n"
  else if Nat.eqb n 13 then "\r"
  else if (Nat.ltb n 32 || Nat.leb 127 n)%bool then
    String "\" (String "x" (String (hex_digit (Nat.div n 16))
                   (String (hex_digit (Nat.modulo n 16)) EmptyString)))
  else String c EmptyString.

Fixpoint repr_chars (quote : ascii) (s : string) : string :=
  match s with
  | EmptyString => EmptyString
  | String c s' => repr_char quote c ++ repr_chars quote s'
  end.

Definition repr_str (s : string) : string :=
  let quote : ascii :=
    if (Py.contains "'" s && negb (Py.contains dquote s))%bool
    then dquote else "'"%char in
  String quote (repr_chars quote s ++ String quote EmptyString).

Definition repr_ident (i : ident) : string :=
  match i with
  | IdInt n => Py.str_int n
  | IdStr s => repr_str s
  end.

(** [str(l)] for a list of identifiers. *)
Definition str_list (l : list ident) : string :=
  "[" ++ Py.join ", " (List.map repr_ident l) ++ "]".

End PyList.

(** ** [re.sub('www.', '', netloc)]

    The pattern is the three letters followed by any character but a
    newline; every leftmost non-overlapping match is deleted. *)
Fixpoint re_sub_www (s : string) : string :=
  match s with
  | EmptyString => EmptyString
  | String c0 s1 =>
      match s1 with
      | String c1 (String c2 (String c3 s4)) =>
          if (Ascii.eqb c0 "w" && Ascii.eqb c1 "w" && Ascii.eqb c2 "w"
              && negb (Ascii.eqb c3 Py.newline))%bool
          then re_sub_www s4
          else String c0 (re_sub_www s1)
      | _ => String c0 (re_sub_www s1)
      end
  end.

(** ** [RawConfigParser]: the configuration file format

    The file is a sequence of [[section]] headers, each followed by its
    [name = value] lines; blank lines and comment lines are skipped and an
    indented line continues the value above it. *)

Module ConfigParser.

Definition DEFAULTSECT : string := "DEFAULT".

Definition dict (V : Type) : Type := list (string * V).

Fixpoint lookup {V : Type} (k : string) (d : dict V) : option V :=
  match d with
  | [] => None
  | (k', v) :: d' => if String.eqb k k' then Some v else lookup k d'
  end.

Fixpoint store {V : Type} (k : string) (v : V) (d : dict V) : dict V :=
  match d with
  | [] => [(k, v)]
  | (k', v') :: d' =>
      if String.eqb k k' then (k, v) :: d' else (k', v') :: store k v d'
  end.

(** [write]: every section, its options as [name = value], with the
    newlines of a value followed by a tab, and an empty line after it. *)
Definition write_option (kv : string * string) : string :=
  fst kv ++ " = "
      ++ Py.replace (snd kv) Py.nl (String Py.newline (String Py.tab EmptyString))
      ++ Py.nl.

Definition write_section (sec : string * dict string) : string :=
  "[" ++ fst sec ++ "]" ++ Py.nl
      ++ String.concat EmptyString (List.map write_option (snd sec)) ++ Py.nl.

Definition write (secs : dict (dict string)) : string :=
  String.concat EmptyString (List.map write_section secs).

(** The lines of a file, each with its terminating newline. *)
Fixpoint readlines (s : string) : list string :=
  match s with
  | EmptyString => []
  | String c s' =>
      if Ascii.eqb c Py.newline then String c EmptyString :: readlines s'
      else
        match readlines s' with
        | l :: ls => String c l :: ls
        | [] => [String c EmptyString]
        end
  end.

Definition lower_char (c : ascii) : ascii :=
  let n := nat_of_ascii c in
  if (Nat.leb 65 n && Nat.leb n 90)%bool then ascii_of_nat (n + 32) else c.

Fixpoint lower (s : string) : string :=
  match s with
  | EmptyString => EmptyString
  | String c s' => String (lower_char c) (lower s')
  end.

Definition head_char (s : string) : option ascii :=
  match s with String c _ => Some c | EmptyString => None end.

Definition head_in (s : string) (chars : string) : bool :=
  match head_char s with Some c => Py.contains c chars | None => false end.

(** The characters before the first one satisfying [stop], that
    character, and the rest. *)
Fixpoint break_at (stop : ascii -> bool) (s : string)
  : option (string * ascii * string) :=
  match s with
  | EmptyString => None
  | String c s' =>
      if stop c then Some (EmptyString, c, s')
      else
        match break_at stop s' with
        | Some (pre, d, post) => Some (String c pre, d, post)
        | None => None
        end
  end.

(** A line whose first word is [rem], in any case. *)
Definition is_rem (line : string) : bool :=
  match break_at Py.isspace (line ++ " ") with
  | Some (word, _, _) =>
      (String.eqb (lower word) "rem" && head_in line "rR")%bool
  | None => false
  end.

(** [SECTCRE]: an opening bracket, one or more characters other than a
    closing bracket, a closing bracket. *)
Definition match_header (line : string) : option string :=
  match line with
  | String "[" rest =>
      match break_at (Ascii.eqb "]") rest with
      | Some (header, _, _) =>
          if String.eqb header EmptyString then None else Some header
      | None => None
      end
  | _ => None
  end.

Fixpoint chomp (s : string) : string :=
  match s with
  | EmptyString => EmptyString
  | String c s' =>
      if (Ascii.eqb c Py.newline && String.eqb s' EmptyString)%bool
      then EmptyString else String c (chomp s')
  end.

(** [OPTCRE]: a name that starts with neither a delimiter nor a space and
    runs to the first [:] or [=], then the value after any spaces. *)
Definition is_delim (c : ascii) : bool :=
  (Ascii.eqb c ":" || Ascii.eqb c "=")%bool.

Definition match_option (line : string) : option (string * ascii * string) :=
  match head_char line with
  | Some c =>
      if (is_delim c || Py.isspace c)%bool then None
      else
        match break_at is_delim line with
        | Some (name, vi, rest) => Some (name, vi, chomp (Py.lstrip rest))
        | None => None
        end
  | None => None
  end.

Fixpoint last_char (prev : ascii) (s : string) : ascii :=
  match s with
  | EmptyString => prev
  | String c s' => last_char c s'
  end.

(** A [;] that follows a space starts a comment. *)
Definition cut_comment (optval : string) : string :=
  match break_at (Ascii.eqb ";") optval with
  | Some (pre, _, _) =>
      if Py.isspace (last_char (last_char ";" optval) pre) then pre else optval
  | None => optval
  end.

Record reader : Type := Reader {
  sects : dict (dict (list string));
  cursect : option string;
  optname : option string;
  errors : list (nat * string)
}.

Definition empty_reader : reader := Reader [] None None [].

(** An indented line under an option continues its value. *)
Definition continues (st : reader) (line : string) : option (string * string) :=
  match head_char line, cursect st, optname st with
  | Some c, Some sec, Some name =>
      if (Py.isspace c && Py.truthy name)%bool then Some (sec, name) else None
  | _, _, _ => None
  end.

Definition options_of (st : reader) (sec : string) : dict (list string) :=
  match lookup sec (sects st) with Some d => d | None => [] end.

Definition read_line (fpname : string) (st : reader) (lineno : nat)
           (line : string) : outcome reader :=
  if (String.eqb (Py.strip line) EmptyString || head_in line "#;")%bool
  then Ok st
  else if is_rem line then Ok st
  else
    match continues st line with
    | Some (sec, name) =>
        let value := Py.strip line in
        if Py.truthy value then
          let d := options_of st sec in
          let old := match lookup name d with Some v => v | None => [] end in
          Ok (Reader (store sec (store name (old ++ [value])%list d) (sects st))
                     (cursect st) (optname st) (errors st))
        else Ok st
    | None =>
        match match_header line with
        | Some sectname =>
            let sects' :=
              match lookup sectname (sects st) with
              | Some _ => sects st
              | None => store sectname [] (sects st)
              end in
            Ok (Reader sects' (Some sectname) None (errors st))
        | None =>
            match cursect st with
            | None =>
                Raise (Exc MissingSectionHeaderError
                         ("File contains no section headers." ++ Py.nl
                            ++ "file: " ++ fpname ++ ", line: "
                            ++ Py.str_int (Z.of_nat lineno) ++ Py.nl
                            ++ PyList.repr_str line))
            | Some sec =>
                match match_option line with
                | Some (name, vi, optval) =>
                    let name := lower (Py.rstrip name) in
                    let optval :=
                      if Py.contains ";" optval then cut_comment optval
                      else optval in
                    let optval := Py.strip optval in
                    let optval :=
                      if String.eqb optval (String PyList.dquote (String PyList.dquote EmptyString))
                      then EmptyString else optval in
                    Ok (Reader (store sec (store name [optval] (options_of st sec))
                                      (sects st))
                               (cursect st) (Some name) (errors st))
                | None =>
                    Ok (Reader (sects st) (cursect st) (optname st)
                               (errors st ++ [(lineno, PyList.repr_str line)])%list)
                end
            end
        end
    end.

Fixpoint read_lines (fpname : string) (st : reader) (lineno : nat)
         (ls : list string) : outcome reader :=
  match ls with
  | [] => Ok st
  | line :: ls' =>
      match read_line fpname st (S lineno) line with
      | Ok st' => read_lines fpname st' (S lineno) ls'
      | Raise e => Raise e
      | OutOfFuel => OutOfFuel
      end
  end.

Definition pad2 (n : nat) : string :=
  let s := Py.str_int (Z.of_nat n) in
  if Nat.ltb n 10 then " " ++ s else s.

Definition parsing_error (fpname : string) (errs : list (nat * string))
  : exception :=
  Exc ParsingError
      ("File contains parsing errors: " ++ fpname
         ++ String.concat EmptyString
              (List.map (fun e => String Py.newline (String Py.tab EmptyString)
                                    ++ "[line " ++ pad2 (fst e) ++ "]: " ++ snd e)
                        errs)).

(** [readfp]: the sections of a file, multi-line values joined. *)
Definition readfp (fpname : string) (content : string)
  : outcome (dict (dict string)) :=
  match read_lines fpname empty_reader O (readlines content) with
  | Ok st =>
      match errors st with
      | [] =>
          Ok (List.map (fun sec =>
                          (fst sec,
                           List.map (fun kv => (fst kv, Py.join Py.nl (snd kv)))
                                    (snd sec)))
                       (sects st))
      | errs => Raise (parsing_error fpname errs)
      end
  | Raise e => Raise e
  | OutOfFuel => OutOfFuel
  end.

(** [get(section, option)] *)
Definition get (cfg : dict (dict string)) (section option : string)
  : outcome string :=
  let opt := lower option in
  let defaults :=
    match lookup DEFAULTSECT cfg with Some d => d | None => [] end in
  let no_option :=
    Raise (Exc NoOptionError
             ("No option " ++ PyList.repr_str option ++ " in section: "
                ++ PyList.repr_str section)) in
  if String.eqb section DEFAULTSECT then
    match lookup opt defaults with
    | Some v => Ok v
    | None => no_option
    end
  else
    match lookup section cfg with
    | None =>
        Raise (Exc NoSectionError ("No section: " ++ PyList.repr_str section))
    | Some d =>
        match lookup opt d with
        | Some v => Ok v
        | None =>
            match lookup opt defaults with
            | Some v => Ok v
            | None => no_option
            end
        end
    end.

End ConfigParser.

(** ** Items and collaborators *)

(** Modelled from the spec: the item record of the remote source (the
    [Item] class of [hncli/haxor/haxor.py] is not part of the sources at
    hand), with the attributes of the data model: identifier, author handle
    (possibly absent), optional title, link and body markup, score, optional
    comment count, submission time and ordered child identifiers. *)
Record Item : Type := mkItem {
  item_id : Z;
  by_ : option string;
  title : option string;
  url : option string;
  text : option string;
  score : Z;
  descendants : option Z;
  submission_time : date_time_arg;
  kids : option (list Z)
}.

(** What the class calls outside itself: the clock, the remote item source,
    the regular-expression engine, the markup and wrapping functions, the
    URL functions, the HTTP client and the home directory. *)
Record Env : Type := mkEnv {
  now : Z;
  fromtimestamp : Z -> Z;
  (** [HackerNewsApi.get_item] *)
  get_item : ident -> exception + Item;
  (** [re.search(pattern, s)]: the error of a pattern that does not
      compile, and whether a pattern that does is found in [s] *)
  re_error : string -> option exception;
  re_found : string -> string -> bool;
  (** [HTML2Text().handle] with [body_width = 0] *)
  html_to_text : string -> string;
  (** [click.wrap_text(text, initial_indent, subsequent_indent)] *)
  wrap_text : string -> string -> string -> string;
  (** [urlparse(url).netloc] *)
  netloc : string -> exception + string;
  (** [urllib.quote(url, safe='')] *)
  quote : string -> string;
  (** [requests.get(url).text] *)
  requests_get : string -> exception + string;
  (** [os.path.abspath(os.environ.get('HOME', ''))] *)
  home : string
}.

(** A call of [click]. *)
Inductive click_call : Type :=
| Secho (message : string) (nl : bool) (fg : string)
| Echo (message : string)
| EchoViaPager (message : string).

(** The [HackerNews] object ([item_ids]) and the world around it: the
    configuration file, the terminal and the requests made to the remote
    source. *)
Record State : Type := mkState {
  item_ids : list ident;
  config_file : option string;
  terminal : list click_call;
  requests : list ident
}.

(** ** A state and exception monad *)

Definition M (A : Type) : Type := State -> outcome A * State.

Definition ret {A : Type} (a : A) : M A := fun s => (Ok a, s).

Definition raise {A : Type} (e : exception) : M A := fun s => (Raise e, s).

Definition bind {A B : Type} (m : M A) (f : A -> M B) : M B :=
  fun s =>
    match m s with
    | (Ok a, s') => f a s'
    | (Raise e, s') => (Raise e, s')
    | (OutOfFuel, s') => (OutOfFuel, s')
    end.

Declare Scope monad_scope.
Delimit Scope monad_scope with monad.
Notation "x <- m ;; k" := (bind m (fun x => k))
  (at level 61, m at next level, right associativity) : monad_scope.
Notation "m ;;; k" := (bind m (fun _ => k))
  (at level 61, right associativity) : monad_scope.
Local Open Scope monad_scope.

Definition lift {A : Type} (r : exception + A) : M A :=
  match r with
  | inr a => ret a
  | inl e => raise e
  end.

Definition lift_outcome {A : Type} (r : outcome A) : M A := fun s => (r, s).

(** [try: m except Exception as e: handler(e)] *)
Definition try_except {A : Type} (m : M A) (handler : exception -> M A) : M A :=
  fun s =>
    match m s with
    | (Raise e, s') => handler e s'
    | r => r
    end.

(** A [for] loop that carries the local variable [acc]. *)
Fixpoint for_each {A S : Type} (l : list A) (acc : S) (body : A -> S -> M S)
  : M S :=
  match l with
  | [] => ret acc
  | x :: l' => acc' <- body x acc ;; for_each l' acc' body
  end.

Definition click_secho (message : string) (nl : bool) (fg : string) : M unit :=
  fun s => (Ok tt, mkState (item_ids s) (config_file s)
                           (terminal s ++ [Secho message nl fg]) (requests s)).

Definition click_echo (message : string) : M unit :=
  fun s => (Ok tt, mkState (item_ids s) (config_file s)
                           (terminal s ++ [Echo message]) (requests s)).

Definition click_echo_via_pager (message : string) : M unit :=
  fun s => (Ok tt, mkState (item_ids s) (config_file s)
                           (terminal s ++ [EchoViaPager message]) (requests s)).

(** ['literal' + x] where [x] may be [None]. *)
Definition str_plus (x : option string) : M string :=
  match x with
  | Some s => ret s
  | None =>
      raise (Exc TypeError "cannot concatenate 'str' and 'NoneType' objects")
  end.

(** [x + 'literal'] where [x] may be [None]. *)
Definition plus_str (x : option string) : M string :=
  match x with
  | Some s => ret s
  | None =>
      raise (Exc TypeError
                 "unsupported operand type(s) for +: 'NoneType' and 'str'")
  end.

(** ** The [HackerNews] class *)

Module HackerNews.

Definition COMMENT_INDENT : string := "    ".
Definition CONFIG : string := ".hncliconfig".
Definition CONFIG_SECTION : string := "hncli".
Definition CONFIG_INDEX : string := "item_ids".
Definition TIP : string :=
  "Tip: View the page or comments in your terminal with the "
    ++ "following command:" ++ Py.nl
    ++ "    hn view [#] [-c/--comments]".
Definition URL_POST : string := "https://news.ycombinator.com/item?id=".
Definition URL_W3_HTML_TEXT : string :=
  "https://www.w3.org/services/html2txt?url=".

(** [__init__]: a new object in a world whose configuration file is
    [file]. *)
Definition init (file : option string) : State := mkState [] file [] [].

Section Methods.

Variable env : Env.

(** [self.hacker_news_api.get_item(item_id)] *)
Definition api_get_item (id : ident) : M Item :=
  fun s =>
    lift (get_item env id)
         (mkState (item_ids s) (config_file s) (terminal s)
                  (requests s ++ [id])).

(** [os.path.join(home, config_file_name)] *)
Definition _config (config_file_name : string) : string :=
  if (String.eqb (home env) EmptyString
      || String.eqb (Py.drop (Nat.pred (String.length (home env))) (home env))
                    "/")%bool
  then home env ++ config_file_name
  else home env ++ "/" ++ config_file_name.

Definition age (item : Item) : string :=
  pretty_date_time (now env) (fromtimestamp env) (submission_time item).

(** [re.search(regex_query, s)], as a truth value. *)
Definition re_search (regex_query : string) (s : option string) : M bool :=
  match re_error env regex_query with
  | Some e => raise e
  | None =>
      match s with
      | Some s => ret (re_found env regex_query s)
      | None => raise (Exc TypeError "expected string or buffer")
      end
  end.

Definition regex_match (item : Item) (regex_query : string) : M bool :=
  match_time <- re_search regex_query (Some (age item)) ;;
  match_user <- re_search regex_query (by_ item) ;;
  match_text <- re_search regex_query (text item) ;;
  if (negb match_text && negb match_user && negb match_time)%bool
  then ret false
  else ret true.

Definition print_formatted_comment (item : Item) (depth : Z) : M unit :=
  let indent := Py.repeat_str COMMENT_INDENT depth in
  author <- str_plus (by_ item) ;;
  click_secho (Py.nl ++ indent ++ author ++ " - " ++ age item) true "yellow" ;;;
  body <- match text item with
          | Some t => ret t
          | None =>
              raise (Exc AttributeError
                         "'NoneType' object has no attribute 'replace'")
          end ;;
  let markdown := html_to_text env body in
  let markdown :=
    Py.replace markdown (Py.nl ++ Py.nl) (Py.nl ++ Py.nl ++ indent) in
  let wrapped_markdown := wrap_text env markdown indent indent in
  click_echo wrapped_markdown.

Fixpoint print_comments (fuel : nat) (item : Item) (regex_query : string)
         (depth : Z) : M unit :=
  match fuel with
  | O => lift_outcome OutOfFuel
  | S fuel' =>
      let comment_ids := kids item in
      match text item with
      | Some _ =>
          print_comment <-
            (if Py.truthy regex_query then
               matched <- regex_match item regex_query ;;
               if negb matched then ret false else ret true
             else ret true) ;;
          if print_comment : bool then print_formatted_comment item depth
          else ret tt
      | None => ret tt
      end ;;;
      match comment_ids with
      | None | Some [] => ret tt
      | Some comment_ids =>
          for_each comment_ids depth
            (fun comment_id depth =>
               comment <- api_get_item (IdInt comment_id) ;;
               let depth := depth + 1 in
               print_comments fuel' comment regex_query depth ;;;
               let depth := depth - 1 in
               ret depth) ;;;
          ret tt
      end
  end.

Definition append_item_id (id : ident) : M unit :=
  fun s => (Ok tt, mkState (item_ids s ++ [id]) (config_file s)
                           (terminal s) (requests s)).

Definition print_formatted_item (item : Item) (index : Z) : M unit :=
  click_secho ("  " ++ Py.str_int index ++ ". ") false "magenta" ;;;
  heading <- plus_str (title item) ;;
  click_secho (heading ++ ". ") false "blue" ;;;
  match url item with
  | Some link =>
      host <- lift (netloc env link) ;;
      let host := re_sub_www host in
      click_secho ("(" ++ host ++ ")") true "magenta"
  | None => click_echo EmptyString
  end ;;;
  click_secho ("     " ++ Py.str_int (score item) ++ " points ") false
              "green" ;;;
  author <- str_plus (by_ item) ;;
  click_secho ("by " ++ author ++ " ") false "yellow" ;;;
  click_secho (age item ++ " ") false "cyan" ;;;
  let num_comments :=
    match descendants item with
    | Some n => if n =? 0 then "0" else Py.str_int n
    | None => "0"
    end in
  click_secho ("| " ++ num_comments ++ " comments" ++ Py.nl) true "green" ;;;
  append_item_id (IdInt (item_id item)).

Definition save_item_ids : M unit :=
  fun s =>
    let parser :=
      [(CONFIG_SECTION,
        [(ConfigParser.lower CONFIG_INDEX, PyList.str_list (item_ids s))])] in
    (Ok tt, mkState (item_ids s) (Some (ConfigParser.write parser))
                    (terminal s) (requests s)).

Definition has_title (item : Item) : bool :=
  match title item with
  | Some t => Py.truthy t
  | None => false
  end.

Definition print_items (message : string) (ids : list ident) : M unit :=
  click_secho (Py.nl ++ message ++ Py.nl) true "blue" ;;;
  for_each ids 1
    (fun item_id index =>
       item <- api_get_item item_id ;;
       if has_title item then
         print_formatted_item item index ;;;
         ret (index + 1)
       else ret index) ;;;
  save_item_ids ;;;
  click_secho TIP true "blue" ;;;
  click_echo EmptyString.

Definition print_url_contents (item : Item) : M unit :=
  link <- match url item with
          | Some u => ret u
          | None =>
              raise (Exc TypeError "None object cannot be quoted")
          end ;;
  let url_encoded := URL_W3_HTML_TEXT ++ quote env link in
  response <- lift (requests_get env url_encoded) ;;
  click_echo_via_pager response.

(** [open(config)] and the two parser calls of [view]. *)
Definition read_item_ids : M string :=
  fun s =>
    let config := _config CONFIG in
    match config_file s with
    | None =>
        (Raise (Exc IOError ("[Errno 2] No such file or directory: "
                               ++ PyList.repr_str config)), s)
    | Some content =>
        match ConfigParser.readfp config content with
        | Ok parser =>
            (ConfigParser.get parser CONFIG_SECTION CONFIG_INDEX, s)
        | Raise e => (Raise e, s)
        | OutOfFuel => (OutOfFuel, s)
        end
    end.

Definition excludes : list string := ["["; "]"; "'"].

(** The identifiers in the stored text: lines 325 to 329 of [view]. *)
Definition parse_item_ids (items_ids : string) : list ident :=
  let items_ids := Py.strip items_ids in
  let items_ids :=
    List.fold_left (fun acc exclude => Py.replace acc exclude EmptyString)
                   excludes items_ids in
  List.map IdStr (Py.split items_ids ", ").

Definition set_item_ids (ids : list ident) : M unit :=
  fun s => (Ok tt, mkState ids (config_file s) (terminal s) (requests s)).

Definition get_item_ids : M (list ident) := fun s => (Ok (item_ids s), s).

Definition view (fuel : nat) (index : Z) (comments_query : string)
           (comments : bool) : M unit :=
  try_except
    (items_ids <- read_item_ids ;;
     set_item_ids (parse_item_ids items_ids) ;;;
     ids <- get_item_ids ;;
     id <- lift_outcome (PyList.getitem ids (index - 1)) ;;
     item <- api_get_item id ;;
     if comments then
       let comments_url := URL_POST ++ Py.str_int (item_id item) in
       click_secho ("Fetching Comments from " ++ comments_url) true "blue" ;;;
       print_comments fuel item comments_query 0
     else
       link <- str_plus (url item) ;;
       click_secho ("Opening " ++ link ++ "...") true "blue" ;;;
       print_url_contents item)
    (fun e => click_secho ("Error: " ++ exc_msg e) true "red").

End Methods.

End HackerNews.

(** ** Specification-side definitions *)

(** The instant an argument of [pretty_date_time] denotes, when it denotes
    one. *)
Definition instant_of (fromtimestamp : Z -> Z) (date_time : date_time_arg)
  : option Z :=
  match date_time with
  | DtInt t => Some (fromtimestamp t)
  | DtDatetime d => Some d
  | DtNone => None
  end.

(** The table of relative-age labels as the specification words it, for a
    non-negative elapsed time of [n] whole seconds, [n / 86400] being the
    floor of the elapsed time in days. *)
Definition age_label_table (n : Z) : string :=
  let d := n / 86400 in
  if n <? 10 then "just now"
  else if n <? 60 then Py.str_int n ++ " seconds ago"
  else if n <? 120 then "1 minute ago"
  else if n <? 3600 then Py.str_int (n / 60) ++ " minutes ago"
  else if n <? 7200 then "1 hour ago"
  else if n <? 86400 then Py.str_int (n / 3600) ++ " hours ago"
  else if d =? 1 then "Yesterday"
  else if d <=? 6 then Py.str_int d ++ " days ago"
  else if d <=? 30 then Py.str_int (d / 7) ++ " weeks ago"
  else if d <=? 364 then Py.str_int (d / 30) ++ " months ago"
  else Py.str_int (d / 365) ++ " years ago".

(** The boundary values of the table: elapsed seconds within the first
    day, and whole days after it. *)
Definition seconds_table : list (Z * string) :=
  [ (0, "just now"); (9, "just now"); (10, "10 seconds ago");
    (59, "59 seconds ago"); (60, "1 minute ago"); (119, "1 minute ago");
    (120, "2 minutes ago"); (3599, "59 minutes ago"); (3600, "1 hour ago");
    (7199, "1 hour ago"); (7200, "2 hours ago") ].

Definition days_table : list (Z * string) :=
  [ (1, "Yesterday"); (2, "2 days ago"); (6, "6 days ago");
    (7, "1 weeks ago"); (8, "1 weeks ago"); (30, "4 weeks ago");
    (31, "1 months ago"); (364, "12 months ago"); (365, "1 years ago") ].

(** An elapsed time of [d] days, [s] seconds and [u] microseconds. *)
Definition elapsed (d s u : Z) : Z :=
  d * Datetime.us_per_day + s * Datetime.us_per_second + u.

(** A comment tree: an item and the trees of its children, in order. *)
Inductive tree : Type :=
| Node (item : Item) (children : list tree).

Definition root (t : tree) : Item :=
  match t with Node item _ => item end.

Definition children_of (t : tree) : list tree :=
  match t with Node _ children => children end.

(** The nodes in pre-order, each with its distance from the root added to
    [depth]. *)
Fixpoint preorder (depth : Z) (t : tree) : list (Item * Z) :=
  match t with
  | Node item children =>
      (item, depth) :: List.flat_map (preorder (depth + 1)) children
  end.

Fixpoint height (t : tree) : nat :=
  match t with
  | Node _ children => S (List.list_max (List.map height children))
  end.

(** The [kids] of an item list the children of its node. *)
Definition kids_are (item : Item) (children : list tree) : Prop :=
  match kids item with
  | Some ids => ids = List.map (fun c => item_id (root c)) children
  | None => children = []
  end.

(** The remote source serves the tree: fetching a child identifier yields
    the child. *)
Inductive served (env : Env) : tree -> Prop :=
| served_node item children :
    kids_are item children ->
    Forall (fun c => get_item env (IdInt (item_id (root c))) = inr (root c))
           children ->
    Forall (served env) children ->
    served env (Node item children).

(** A comment that can be rendered carries an author whenever it carries
    a body. *)
Definition signed (item : Item) : Prop :=
  text item <> None -> by_ item <> None.

Definition has_text (item : Item) : bool :=
  match text item with Some _ => true | None => false end.

(** Whether the pattern is found in one of the three fields. *)
Definition found_in_any (env : Env) (regex_query : string) (item : Item)
  : bool :=
  (match text item with
   | Some body => re_found env regex_query body
   | None => false
   end
   || match by_ item with
      | Some author => re_found env regex_query author
      | None => false
      end
   || re_found env regex_query (HackerNews.age env item))%bool.

(** The nodes a traversal shows: those with a body that pass the filter. *)
Definition shown (env : Env) (regex_query : string) (node : Item * Z) : bool :=
  (has_text (fst node)
   && (negb (Py.truthy regex_query)
       || found_in_any env regex_query (fst node)))%bool.

(** What [print_formatted_comment] writes for an item at a depth. *)
Definition rendering (env : Env) (node : Item * Z) : list click_call :=
  terminal (snd (HackerNews.print_formatted_comment env (fst node) (snd node)
                   (HackerNews.init None))).

(** What [print_formatted_item] writes for an item under an index. *)
Definition row (env : Env) (entry : Z * Item) : list click_call :=
  terminal (snd (HackerNews.print_formatted_item env (snd entry) (fst entry)
                   (HackerNews.init None))).

(** Items numbered from [start]. *)
Fixpoint numbered (start : Z) (items : list Item) : list (Z * Item) :=
  match items with
  | [] => []
  | item :: items' => (start, item) :: numbered (start + 1) items'
  end.

(** An item that [print_formatted_item] can render: it has an author, and
    the host of its link, if any, can be extracted. *)
Definition renderable (env : Env) (item : Item) : Prop :=
  by_ item <> None /\
  forall link, url item = Some link -> exists host, netloc env link = inr host.

(** Every character of a string satisfies a test. *)
Fixpoint every (P : ascii -> bool) (s : string) : bool :=
  match s with
  | EmptyString => true
  | String c s' => (P c && every P s')%bool
  end.

(** The characters of a decimal numeral: the digits and the sign. *)
Definition numeral_char (c : ascii) : bool :=
  let n := nat_of_ascii c in
  ((Nat.leb 48 n && Nat.leb n 57) || Nat.eqb n 45)%bool.

(** The persisted form of the identifiers of fetched records. *)
Definition persisted (ids : list Z) : list ident :=
  List.map (fun n => IdStr (Py.str_int n)) ids.

(** A computation only adds to the record of requests. *)
Definition grows {A : Type} (m : M A) : Prop :=
  forall s, exists rest, requests (snd (m s)) = (requests s ++ rest)%list.

(** The object once [view] has parsed the stored text [content]. *)
Definition loaded (s : State) (content : string) : State :=
  mkState (HackerNews.parse_item_ids content) (config_file s) (terminal s)
          (requests s).

(** The identifier a listing records for an item. *)
Definition id_of (item : Item) : ident := IdInt (item_id item).

(** The state after more calls of [click] and more requests. *)
Definition logged (s : State) (out : list click_call) (reqs : list ident)
  : State :=
  mkState (item_ids s) (config_file s) (terminal s ++ out) (requests s ++ reqs).

(** The text [save_item_ids] writes for a sequence of identifiers. *)
Definition saved_text (ids : list ident) : string :=
  ConfigParser.write
    [(HackerNews.CONFIG_SECTION,
      [(HackerNews.CONFIG_INDEX, PyList.str_list ids)])].


(** The parts of [print_comments] and [print_items], and the lists the
    traversal is stated with. *)
Section TraversalParts.

Variable env : Env.

(** The first half of [print_comments]: the node itself. *)
Definition visit (item : Item) (regex_query : string) (depth : Z) : M unit :=
  match text item with
  | Some _ =>
      print_comment <-
        (if Py.truthy regex_query then
           matched <- HackerNews.regex_match env item regex_query ;;
           if negb matched then ret false else ret true
         else ret true) ;;
      if print_comment : bool
      then HackerNews.print_formatted_comment env item depth
      else ret tt
  | None => ret tt
  end.

(** The body of the loop over the children. *)
Definition descend (fuel : nat) (regex_query : string)
           (comment_id : Z) (depth : Z) : M Z :=
  comment <- HackerNews.api_get_item env (IdInt comment_id) ;;
  let depth := depth + 1 in
  HackerNews.print_comments env fuel comment regex_query depth ;;;
  let depth := depth - 1 in
  ret depth.

Definition valid_query (q : string) : Prop :=
  Py.truthy q = true -> re_error env q = None.

Definition request_of (node : Item * Z) : ident := IdInt (item_id (fst node)).

Definition shown_of (q : string) (nodes : list (Item * Z)) : list click_call :=
  List.flat_map (rendering env) (List.filter (shown env q) nodes).

Definition well_signed (nodes : list (Item * Z)) : Prop :=
  Forall (fun node => signed (fst node)) nodes.

(** The loop of [print_items]. *)
Definition list_item (item_id : ident) (index : Z) : M Z :=
  item <- HackerNews.api_get_item env item_id ;;
  if HackerNews.has_title item then
    HackerNews.print_formatted_item env item index ;;;
    ret (index + 1)
  else ret index.

(** The second half of [view]: the item behind an identifier, then its
    comments or its page. *)
Definition open_item (fuel : nat) (comments_query : string)
           (comments : bool) (id : ident) : M unit :=
  item <- HackerNews.api_get_item env id ;;
  if comments then
    let comments_url :=
      HackerNews.URL_POST ++ Py.str_int (item_id item) in
    click_secho ("Fetching Comments from " ++ comments_url) true "blue" ;;;
    HackerNews.print_comments env fuel item comments_query 0
  else
    link <- str_plus (url item) ;;
    click_secho ("Opening " ++ link ++ "...") true "blue" ;;;
    HackerNews.print_url_contents env item.

(** The handler of [view]. *)
Definition report (e : exception) : M unit :=
  click_secho ("Error: " ++ exc_msg e) true "red".

End TraversalParts.

(** ** A small world for examples

    A remote source with three stories (the second without a title) and a
    comment tree under the first; a pattern is found where it occurs as a
    substring. *)

Module Demo.

Fixpoint occurs (pattern s : string) : bool :=
  (String.prefix pattern s
   || match s with
      | String _ s' => occurs pattern s'
      | EmptyString => false
      end)%bool.

(** The part of [scheme://host/path] between the slashes. *)
Fixpoint until_slash (s : string) : string :=
  match s with
  | String c s' =>
      if Ascii.eqb c "/" then EmptyString else String c (until_slash s')
  | EmptyString => EmptyString
  end.

Fixpoint host_of (s : string) : string :=
  match s with
  | String c s' =>
      if String.prefix "//" s then until_slash (Py.drop 1 s') else host_of s'
  | EmptyString => EmptyString
  end.

Definition clock : Z := 1000000 * 1000000.

Definition minutes_ago (m : Z) : date_time_arg :=
  DtDatetime (clock - m * 60 * 1000000).

Definition story42 : Item :=
  mkItem 42 (Some "alice") (Some "Show HN: A prover")
         (Some "http://www.example.com/a")
         (Some "root text") 120 (Some 3) (minutes_ago 90) (Some [100; 101]).

Definition untitled99 : Item :=
  mkItem 99 None None None None 0 None (minutes_ago 5) None.

Definition story7 : Item :=
  mkItem 7 (Some "bob") (Some "Ask HN: Tactics") None (Some "Which ones?")
         8 None (minutes_ago 30) None.

Definition story8 : Item :=
  mkItem 8 (Some "carol") (Some "Mirrors") (Some "http://www2.example.com/")
         None 1 (Some 0) (minutes_ago 1) None.

(** The tree A -> [B, C], B -> [D]. *)
Definition commentA : Item := story42.
Definition commentB : Item :=
  mkItem 100 (Some "bob") None None (Some "first reply") 0 None
         (minutes_ago 80) (Some [102]).
Definition commentC : Item :=
  mkItem 101 (Some "carol") None None (Some "second reply") 0 None
         (minutes_ago 70) None.
Definition commentD : Item :=
  mkItem 102 (Some "dave") None None (Some "nested reply") 0 None
         (minutes_ago 60) (Some []).

Definition treeA : tree :=
  Node commentA [Node commentB [Node commentD []]; Node commentC []].

Definition catalogue : list Item :=
  [story42; untitled99; story7; story8; commentB; commentC; commentD].

Definition key (id : ident) : string :=
  match id with
  | IdInt n => Py.str_int n
  | IdStr s => s
  end.

Fixpoint find_item (k : string) (l : list Item) : exception + Item :=
  match l with
  | [] => inl (Exc CollaboratorError ("no such item: " ++ k))
  | item :: l' =>
      if String.eqb (Py.str_int (item_id item)) k then inr item
      else find_item k l'
  end.

Definition env : Env :=
  mkEnv clock (fun t => t * 1000000)
        (fun id => find_item (key id) catalogue)
        (fun _ => None) occurs
        (fun markup => markup)
        (fun body initial _ => initial ++ body)
        (fun link => inr (host_of link))
        (fun link => link)
        (fun link => inr ("text of " ++ link))
        "/home/user".

End Demo.

(** ** Definitions for the properties of the class as a whole *)

(** [pattern in s], for strings. *)
Fixpoint occurs_in (pattern s : string) : bool :=
  (String.prefix pattern s
   || match s with
      | String _ s' => occurs_in pattern s'
      | EmptyString => false
      end)%bool.

(** A relation between the state before a computation and the state after
    it, held from every state. *)
Definition keeps {A : Type} (R : State -> State -> Prop) (m : M A) : Prop :=
  forall s, R s (snd (m s)).

(** The index and the configuration file are as they were. *)
Definition same_index (s s' : State) : Prop :=
  item_ids s' = item_ids s /\ config_file s' = config_file s.

(** The configuration file is as it was. *)
Definition same_file (s s' : State) : Prop :=
  config_file s' = config_file s.

(** What was written to the terminal and requested from the remote source
    is still there, with more after it. *)
Definition log_grows (s s' : State) : Prop :=
  (exists out, terminal s' = (terminal s ++ out)%list)
  /\ (exists reqs, requests s' = (requests s ++ reqs)%list).

(** The index has only been appended to. *)
Definition index_grows (s s' : State) : Prop :=
  exists ids, item_ids s' = (item_ids s ++ ids)%list.

(** The text of an identifier in the index. *)
Definition text_of (id : ident) : string :=
  match id with
  | IdInt n => Py.str_int n
  | IdStr s => s
  end.

(** An identifier that is an int or the decimal text of one. *)
Definition numeric (id : ident) : Prop :=
  match id with
  | IdInt _ => True
  | IdStr s => exists n, s = Py.str_int n
  end.

(** The line [view] writes for an exception. *)
Definition error_line (e : exception) : click_call :=
  Secho ("Error: " ++ exc_msg e) true "red".

(** The first line of a listing. *)
Definition heading_line (message : string) : click_call :=
  Secho (Py.nl ++ message ++ Py.nl) true "blue".

(** Whether one of the nodes carries a body. *)
Definition any_body (nodes : list (Item * Z)) : bool :=
  List.existsb (fun node => has_text (fst node)) nodes.

(** The nodes up to and including the first that carries a body. *)
Fixpoint up_to_first_body (nodes : list (Item * Z)) : list (Item * Z) :=
  match nodes with
  | [] => []
  | node :: nodes' =>
      if has_text (fst node) then [node] else node :: up_to_first_body nodes'
  end.

(** What a row shows for the link of an item. *)
Definition link_call (env : Env) (item : Item) : list click_call :=
  match url item with
  | Some link =>
      match netloc env link with
      | inr host => [Secho ("(" ++ re_sub_www host ++ ")") true "magenta"]
      | inl _ => []
      end
  | None => [Echo EmptyString]
  end.

(** More worlds for examples: a comment with a child the remote source
    does not have, a story without an author, a story without a body over
    three children, and engines that fail. *)

Module Worlds.

Definition link_story : Item :=
  mkItem 500 (Some "frank") (Some "A link") (Some "http://example.com/") None
         5 (Some 3) (Demo.minutes_ago 9) (Some [8; 101; 100]).

(** The first child has no body either, the second and the third have
    one. *)
Definition link_tree : tree :=
  Node link_story
       [Node Demo.story8 []; Node Demo.commentC [];
        Node Demo.commentB [Node Demo.commentD []]].

(** Its first child is served, its second is missing. *)
Definition orphaned : Item :=
  mkItem 300 (Some "erin") None None (Some "lost") 0 None
         (Demo.minutes_ago 3) (Some [100; 999; 101]).

Definition anonymous : Item :=
  mkItem 55 None (Some "Untold") None None 3 None (Demo.minutes_ago 4) None.

(** The pattern of a lone parenthesis does not compile; no page can be
    fetched. *)
Definition strict : Env :=
  mkEnv Demo.clock (fun t => t * 1000000)
        (fun id => Demo.find_item (Demo.key id) (anonymous :: Demo.catalogue))
        (fun q => if String.eqb q "("
                  then Some (Exc ReError "unbalanced parenthesis")
                  else None)
        Demo.occurs
        (fun markup => markup)
        (fun body initial _ => initial ++ body)
        (fun link => inr (Demo.host_of link))
        (fun link => link)
        (fun link => inl (Exc CollaboratorError "connection refused"))
        "/home/user".

End Worlds.

(** * Properties *)

(** ** The built-ins on small inputs *)

Example split_two : Py.split "42, 7" ", " = ["42"; "7"].
Proof. reflexivity. Qed.

Example split_empty : Py.split EmptyString ", " = [EmptyString].
Proof. reflexivity. Qed.

Example strip_both_ends : Py.strip ("  a b " ++ Py.nl) = "a b".
Proof. reflexivity. Qed.

Example replace_every_bracket : Py.replace "[a[b" "[" EmptyString = "ab".
Proof. reflexivity. Qed.

Example replace_paragraphs :
  Py.replace ("a" ++ Py.nl ++ Py.nl ++ Py.nl ++ "b") (Py.nl ++ Py.nl)
             (Py.nl ++ Py.nl ++ "  ")
  = "a" ++ Py.nl ++ Py.nl ++ "  " ++ Py.nl ++ "b".
Proof. reflexivity. Qed.

Example str_of_ints : PyList.str_list [IdInt 42; IdInt (-7)] = "[42, -7]".
Proof. reflexivity. Qed.

Example str_of_strs : PyList.str_list [IdStr "42"; IdStr "7"] = "['42', '7']".
Proof. reflexivity. Qed.

Example getitem_last : PyList.getitem [10; 20; 30] (-1) = Ok 30.
Proof. reflexivity. Qed.

Example getitem_past_end :
  PyList.getitem [10; 20; 30] 3
  = Raise (Exc IndexError "list index out of range").
Proof. reflexivity. Qed.

Example saved_two :
  saved_text [IdInt 42; IdInt 7]
  = "[hncli]" ++ Py.nl ++ "item_ids = [42, 7]" ++ Py.nl ++ Py.nl.
Proof. reflexivity. Qed.

(** A file edited by hand: a comment, another case of the name, a value
    continued on the next line. *)
Example readfp_edited :
  ConfigParser.readfp
    "cfg"
    ("# last listing" ++ Py.nl ++ "[hncli]" ++ Py.nl
       ++ "Item_IDs: [1," ++ Py.nl ++ "   2]" ++ Py.nl)
  = Ok [("hncli", [("item_ids", "[1," ++ Py.nl ++ "2]")])].
Proof. reflexivity. Qed.

Example readfp_no_header :
  exists msg,
    ConfigParser.readfp "cfg" ("item_ids = [1]" ++ Py.nl)
    = Raise (Exc MissingSectionHeaderError msg).
Proof. eexists. reflexivity. Qed.

Example sub_www_leading : re_sub_www "www.python.org" = "python.org".
Proof. reflexivity. Qed.

(** ** Elapsed time *)

Module DatetimeFacts.
Import Datetime.

Lemma seconds_range diff : 0 <= seconds diff < 86400.
Proof.
  unfold seconds, us_per_day, us_per_second.
  pose proof (Z.mod_pos_bound diff (86400 * 1000000) ltac:(lia)) as Hm.
  split.
  - apply Z.div_pos; lia.
  - apply Z.div_lt_upper_bound; lia.
Qed.

Lemma days_neg diff : diff < 0 -> days diff < 0.
Proof.
  intros H. unfold days, us_per_day, us_per_second.
  apply Z.div_lt_upper_bound; lia.
Qed.

Lemma days_nonneg diff : 0 <= diff -> 0 <= days diff.
Proof.
  intros H. unfold days, us_per_day, us_per_second.
  apply Z.div_pos; lia.
Qed.

(** An elapsed time of [d] days, [s] seconds and [u] microseconds. *)
Lemma days_seconds_of d s u :
  0 <= s < 86400 -> 0 <= u < 1000000 ->
  let diff := d * us_per_day + s * us_per_second + u in
  days diff = d /\ seconds diff = s.
Proof.
  intros Hs Hu diff. subst diff.
  unfold days, seconds, us_per_day, us_per_second.
  assert (Hr : 0 <= s * 1000000 + u < 86400 * 1000000) by lia.
  split.
  - symmetry. apply (Z.div_unique _ _ d (s * 1000000 + u)); lia.
  - replace ((d * (86400 * 1000000) + s * 1000000 + u) mod (86400 * 1000000))
      with (s * 1000000 + u).
    + symmetry. apply (Z.div_unique _ _ s u); lia.
    + apply (Z.mod_unique _ _ d); lia.
Qed.

(** The whole seconds of a non-negative elapsed time. *)
Lemma whole_seconds diff :
  diff / us_per_second = days diff * 86400 + seconds diff.
Proof.
  unfold days, seconds, us_per_day, us_per_second.
  pose proof (Z.div_mod diff (86400 * 1000000) ltac:(lia)) as Hd.
  pose proof (Z.mod_pos_bound diff (86400 * 1000000) ltac:(lia)) as Hm.
  set (q := diff / (86400 * 1000000)) in *.
  set (r := diff mod (86400 * 1000000)) in *.
  rewrite Hd at 1.
  replace (86400 * 1000000 * q + r) with (r + (q * 86400) * 1000000) by lia.
  rewrite Z.div_add by lia. lia.
Qed.

End DatetimeFacts.

(** ** Relative-age labels *)

Ltac split_if :=
  match goal with
  | |- context [if ?a <? ?b then _ else _] =>
      destruct (Z.ltb_spec a b); try lia
  | |- context [if ?a <=? ?b then _ else _] =>
      destruct (Z.leb_spec a b); try lia
  | |- context [if ?a =? ?b then _ else _] =>
      destruct (Z.eqb_spec a b); try lia
  end.

(** The label is a function of the [days] and [seconds] of the elapsed
    time; on a non-negative one it is the entry of the table. *)
Lemma label_of_elapsed now ft dt t :
  instant_of ft dt = Some t ->
  0 <= now - t ->
  pretty_date_time now ft dt
  = age_label_table (Datetime.days (now - t) * 86400 + Datetime.seconds (now - t)).
Proof.
  intros Ht Hpos.
  assert (Hdiff : match dt with
                  | DtInt t0 => now - ft t0
                  | DtDatetime d => now - d
                  | DtNone => now - now
                  end = now - t)
    by (destruct dt; simpl in Ht; inversion Ht; reflexivity).
  unfold pretty_date_time. rewrite Hdiff. clear Hdiff Ht.
  pose proof (DatetimeFacts.seconds_range (now - t)) as Hs.
  pose proof (DatetimeFacts.days_nonneg (now - t) Hpos) as Hd.
  set (s := Datetime.seconds (now - t)) in *.
  set (d := Datetime.days (now - t)) in *.
  cbv zeta. unfold age_label_table.
  destruct (Z.eq_dec d 0) as [Hz | Hnz].
  - rewrite Hz. simpl (0 * 86400 + s). cbv zeta.
    replace (s / 86400) with 0 by (symmetry; apply Z.div_small; lia).
    simpl (0 <? 0). simpl (0 =? 0).
    repeat (split_if; try reflexivity).
  - assert (Hq : (d * 86400 + s) / 86400 = d).
    { rewrite Z.add_comm, Z.div_add by lia.
      rewrite (Z.div_small s) by lia. lia. }
    cbv zeta. rewrite Hq.
    repeat (split_if; try reflexivity).
Qed.

Lemma label_of_negative now ft dt t :
  instant_of ft dt = Some t ->
  now - t < 0 ->
  pretty_date_time now ft dt = EmptyString.
Proof.
  intros Ht Hneg.
  assert (Hdiff : match dt with
                  | DtInt t0 => now - ft t0
                  | DtDatetime d => now - d
                  | DtNone => now - now
                  end = now - t)
    by (destruct dt; simpl in Ht; inversion Ht; reflexivity).
  unfold pretty_date_time. rewrite Hdiff.
  pose proof (DatetimeFacts.days_neg (now - t) Hneg) as Hd.
  cbv zeta. split_if. reflexivity.
Qed.

Lemma label_of_none now ft : pretty_date_time now ft DtNone = "just now".
Proof.
  unfold pretty_date_time. replace (now - now) with 0 by lia. reflexivity.
Qed.

(** The label after [d] days, [s] seconds and [u] microseconds. *)
Lemma label_of_parts now ft d s u :
  0 <= d -> 0 <= s < 86400 -> 0 <= u < 1000000 ->
  pretty_date_time now ft (DtDatetime (now - elapsed d s u))
  = age_label_table (d * 86400 + s).
Proof.
  intros Hd Hs Hu.
  destruct (DatetimeFacts.days_seconds_of d s u Hs Hu) as [Ed Es].
  cbv zeta in Ed, Es. fold (elapsed d s u) in Ed, Es.
  rewrite (label_of_elapsed now ft (DtDatetime (now - elapsed d s u)) _ eq_refl).
  - replace (now - (now - elapsed d s u)) with (elapsed d s u) by lia.
    rewrite Ed, Es. reflexivity.
  - replace (now - (now - elapsed d s u)) with (elapsed d s u) by lia.
    unfold elapsed, Datetime.us_per_day, Datetime.us_per_second. nia.
Qed.

(** C4: for every non-negative elapsed time [pretty_date_time] returns
    the label of the piecewise table of relative ages; at the elapsed
    seconds 0, 9, 10, 59, 60, 119, 120, 3599, 3600, 7199 and 7200 of the
    first day, and at the floor-day differences 1, 2, 6, 7, 8, 30, 31, 364
    and 365, the labels are the ones listed in [seconds_table] and
    [days_table]. *)
Theorem age_label_boundary_table :
  (forall now ft dt t,
      instant_of ft dt = Some t ->
      0 <= now - t ->
      pretty_date_time now ft dt
      = age_label_table ((now - t) / Datetime.us_per_second))
  /\ (forall now ft s label u,
         In (s, label) seconds_table ->
         0 <= u < 1000000 ->
         pretty_date_time now ft (DtDatetime (now - elapsed 0 s u)) = label)
  /\ (forall now ft d label s u,
         In (d, label) days_table ->
         0 <= s < 86400 ->
         0 <= u < 1000000 ->
         pretty_date_time now ft (DtDatetime (now - elapsed d s u)) = label).
Proof.
  split; [| split].
  - intros now ft dt t Ht Hpos.
    rewrite DatetimeFacts.whole_seconds.
    apply label_of_elapsed; assumption.
  - intros now ft s label u Hin Hu.
    simpl in Hin.
    repeat (destruct Hin as [Hin | Hin];
            [ inversion Hin; subst; rewrite label_of_parts by lia; reflexivity
            | ]).
    contradiction.
  - intros now ft d label s u Hin Hs Hu.
    simpl in Hin.
    repeat (destruct Hin as [Hin | Hin];
            [ inversion Hin; subst; rewrite label_of_parts by lia;
              unfold age_label_table;
              match goal with
              | |- context [(?k * 86400 + s) / 86400] =>
                  replace ((k * 86400 + s) / 86400) with k
                    by (rewrite Z.add_comm, Z.div_add by lia;
                        rewrite (Z.div_small s) by lia; lia)
              end;
              cbv zeta; repeat (split_if; try reflexivity)
            | ]).
    contradiction.
Qed.

Lemma age_label_boundary_table_witness :
  pretty_date_time Demo.clock (fun t => t * 1000000) (DtInt 999910)
  = "1 minute ago"
  /\ pretty_date_time Demo.clock (fun t => t * 1000000)
       (DtDatetime (Demo.clock - elapsed 0 3599 250000)) = "59 minutes ago"
  /\ pretty_date_time Demo.clock (fun t => t * 1000000)
       (DtDatetime (Demo.clock - elapsed 30 4000 0)) = "4 weeks ago".
Proof.
  destruct age_label_boundary_table as [Hgen [Hsec Hday]].
  split; [| split].
  - rewrite (Hgen Demo.clock (fun t => t * 1000000) (DtInt 999910)
                  999910000000 eq_refl).
    + reflexivity.
    + unfold Demo.clock. lia.
  - apply Hsec.
    + simpl. do 7 right. left. reflexivity.
    + lia.
  - apply Hday.
    + simpl. do 5 right. left. reflexivity.
    + lia.
    + lia.
Defined.

(** C5, as the program has it: [pretty_date_time] returns the empty string
    for every negative elapsed time, a submission time in the future; when
    the submission time is absent the elapsed time is taken as zero and the
    label is "just now". *)
Theorem age_label_empty_rule :
  (forall now ft dt t,
      instant_of ft dt = Some t ->
      now - t < 0 ->
      pretty_date_time now ft dt = EmptyString)
  /\ (forall now ft, pretty_date_time now ft DtNone = "just now").
Proof.
  split.
  - apply label_of_negative.
  - apply label_of_none.
Qed.

Lemma age_label_empty_rule_witness :
  pretty_date_time Demo.clock (fun t => t * 1000000) (DtInt 1000001)
  = EmptyString.
Proof.
  apply (proj1 age_label_empty_rule Demo.clock (fun t => t * 1000000)
               (DtInt 1000001) 1000001000000 eq_refl).
  unfold Demo.clock. lia.
Defined.

(** C5 as stated fails: an absent submission time is labelled "just now",
    not with the empty string. *)
Lemma age_label_absent_counterexample :
  pretty_date_time Demo.clock (fun t => t * 1000000) DtNone = "just now"
  /\ pretty_date_time Demo.clock (fun t => t * 1000000) DtNone <> EmptyString.
Proof.
  split.
  - reflexivity.
  - discriminate.
Qed.

(** ** The monad *)

Lemma bind_ok {A B : Type} (m : M A) (f : A -> M B) s a s' :
  m s = (Ok a, s') -> bind m f s = f a s'.
Proof. intros H. unfold bind. rewrite H. reflexivity. Qed.

Lemma logged_nil s : logged s [] [] = s.
Proof. destruct s. unfold logged. simpl. rewrite !app_nil_r. reflexivity. Qed.

Lemma logged_logged s out1 reqs1 out2 reqs2 :
  logged (logged s out1 reqs1) out2 reqs2
  = logged s (out1 ++ out2) (reqs1 ++ reqs2).
Proof. unfold logged. simpl. rewrite !app_assoc. reflexivity. Qed.

Lemma grows_ret {A : Type} (a : A) : grows (ret a).
Proof. intros s. exists []. simpl. rewrite app_nil_r. reflexivity. Qed.

Lemma grows_raise {A : Type} e : grows (@raise A e).
Proof. intros s. exists []. simpl. rewrite app_nil_r. reflexivity. Qed.

Lemma grows_lift {A : Type} (r : exception + A) : grows (lift r).
Proof. destruct r; [apply grows_raise | apply grows_ret]. Qed.

Lemma grows_lift_outcome {A : Type} (r : outcome A) : grows (lift_outcome r).
Proof. intros s. exists []. simpl. rewrite app_nil_r. reflexivity. Qed.

Lemma grows_bind {A B : Type} (m : M A) (f : A -> M B) :
  grows m -> (forall a, grows (f a)) -> grows (bind m f).
Proof.
  intros Hm Hf s. unfold bind.
  destruct (Hm s) as [r1 E1].
  destruct (m s) as [[a | e |] s1]; simpl in E1.
  - destruct (Hf a s1) as [r2 E2]. exists (r1 ++ r2)%list.
    rewrite E2, E1, app_assoc. reflexivity.
  - exists r1. exact E1.
  - exists r1. exact E1.
Qed.

Lemma grows_try_except {A : Type} (m : M A) (h : exception -> M A) :
  grows m -> (forall e, grows (h e)) -> grows (try_except m h).
Proof.
  intros Hm Hh s. unfold try_except.
  destruct (Hm s) as [r1 E1].
  destruct (m s) as [[a | e |] s1]; simpl in E1.
  - exists r1. exact E1.
  - destruct (Hh e s1) as [r2 E2]. exists (r1 ++ r2)%list.
    rewrite E2, E1, app_assoc. reflexivity.
  - exists r1. exact E1.
Qed.

Lemma grows_for_each {A S : Type} (l : list A) (body : A -> S -> M S) :
  (forall x acc, grows (body x acc)) -> forall acc, grows (for_each l acc body).
Proof.
  intros Hb. induction l as [| x l IH]; intros acc; simpl.
  - apply grows_ret.
  - apply grows_bind; [apply Hb | intros a; apply IH].
Qed.

Lemma grows_click_secho message nl fg : grows (click_secho message nl fg).
Proof. intros s. exists []. simpl. rewrite app_nil_r. reflexivity. Qed.

Lemma grows_click_echo message : grows (click_echo message).
Proof. intros s. exists []. simpl. rewrite app_nil_r. reflexivity. Qed.

Lemma grows_click_echo_via_pager message : grows (click_echo_via_pager message).
Proof. intros s. exists []. simpl. rewrite app_nil_r. reflexivity. Qed.

Lemma grows_str_plus x : grows (str_plus x).
Proof. destruct x; [apply grows_ret | apply grows_raise]. Qed.

Create HintDb grows.
#[export] Hint Resolve grows_ret grows_raise grows_lift grows_lift_outcome
  grows_click_secho grows_click_echo grows_click_echo_via_pager
  grows_str_plus : grows.

Ltac grows_step :=
  first
    [ apply grows_bind; [| intros ?]
    | apply grows_try_except; [| intros ?]
    | solve [auto with grows]
    | match goal with
      | |- grows (match ?x with _ => _ end) => destruct x
      | |- grows (if ?b then _ else _) => destruct b
      end ].

Section MethodFacts.

Variable env : Env.

Lemma grows_api_get_item id : grows (HackerNews.api_get_item env id).
Proof.
  intros s. exists [id]. unfold HackerNews.api_get_item.
  destruct (get_item env id); reflexivity.
Qed.

Lemma grows_re_search q x : grows (HackerNews.re_search env q x).
Proof. unfold HackerNews.re_search. repeat grows_step. Qed.

Lemma grows_regex_match item q : grows (HackerNews.regex_match env item q).
Proof.
  unfold HackerNews.regex_match.
  repeat (first [apply grows_re_search | grows_step]).
Qed.

Lemma grows_print_formatted_comment item depth :
  grows (HackerNews.print_formatted_comment env item depth).
Proof. unfold HackerNews.print_formatted_comment. repeat grows_step. Qed.

Lemma grows_print_comments fuel :
  forall item q depth, grows (HackerNews.print_comments env fuel item q depth).
Proof.
  induction fuel as [| fuel IH]; intros item q depth.
  - simpl. auto with grows.
  - cbn [HackerNews.print_comments].
    apply grows_bind.
    + repeat (first [ apply grows_regex_match
                    | apply grows_print_formatted_comment
                    | grows_step ]).
    + intros _. destruct (kids item) as [[| k ks] |]; auto with grows.
      apply grows_bind; [| intros; auto with grows].
      apply grows_for_each. intros x acc.
      apply grows_bind; [apply grows_api_get_item |].
      intros c. apply grows_bind; [apply IH | intros; auto with grows].
Qed.

Lemma grows_print_url_contents item :
  grows (HackerNews.print_url_contents env item).
Proof. unfold HackerNews.print_url_contents. repeat grows_step. Qed.

End MethodFacts.

(** ** The comment traversal *)

Section Traversal.

Variable env : Env.

Lemma print_comments_step fuel item q depth :
  HackerNews.print_comments env (S fuel) item q depth
  = (visit env item q depth ;;;
     match kids item with
     | None | Some [] => ret tt
     | Some comment_ids =>
         for_each comment_ids depth (descend env fuel q) ;;; ret tt
     end).
Proof. reflexivity. Qed.

Lemma print_formatted_comment_ok item depth s author body :
  by_ item = Some author ->
  text item = Some body ->
  HackerNews.print_formatted_comment env item depth s
  = (Ok tt, logged s (rendering env (item, depth)) []).
Proof.
  intros Hby Htext.
  unfold rendering, HackerNews.print_formatted_comment, logged.
  simpl fst. simpl snd. rewrite Hby, Htext.
  unfold bind, str_plus, ret, click_secho, click_echo. simpl.
  rewrite app_nil_r, <- app_assoc. reflexivity.
Qed.

Lemma regex_match_ok item q s author body :
  by_ item = Some author ->
  text item = Some body ->
  re_error env q = None ->
  HackerNews.regex_match env item q s = (Ok (found_in_any env q item), s).
Proof.
  intros Hby Htext Hq.
  unfold HackerNews.regex_match, HackerNews.re_search, found_in_any.
  rewrite Hby, Htext, Hq. unfold bind, ret.
  destruct (re_found env q body), (re_found env q author),
    (re_found env q (HackerNews.age env item)); reflexivity.
Qed.

Lemma visit_ok item q depth s :
  signed item ->
  valid_query env q ->
  visit env item q depth s
  = (Ok tt, logged s (if shown env q (item, depth)
                      then rendering env (item, depth) else []) []).
Proof.
  intros Hsigned Hq. unfold visit, shown, has_text. simpl fst.
  destruct (text item) as [body |] eqn:Htext.
  - destruct (by_ item) as [author |] eqn:Hby.
    2: { exfalso. apply Hsigned; [rewrite Htext; discriminate | exact Hby]. }
    destruct (Py.truthy q) eqn:Htruthy; simpl.
    + rewrite (bind_ok _ _ s (negb (negb (found_in_any env q item))) s).
      2: { rewrite (bind_ok _ _ s _ s
                            (regex_match_ok item q s author body Hby Htext
                                            (Hq Htruthy))).
           destruct (found_in_any env q item); reflexivity. }
      rewrite negb_involutive.
      destruct (found_in_any env q item).
      * apply (print_formatted_comment_ok item depth s author body Hby Htext).
      * unfold ret. rewrite logged_nil. reflexivity.
    + unfold bind, ret.
      apply (print_formatted_comment_ok item depth s author body Hby Htext).
  - simpl. unfold ret. rewrite logged_nil. reflexivity.
Qed.

Lemma shown_of_app q l1 l2 :
  shown_of env q (l1 ++ l2) = (shown_of env q l1 ++ shown_of env q l2)%list.
Proof. unfold shown_of. rewrite filter_app, flat_map_app. reflexivity. Qed.

Lemma shown_of_cons q node l :
  shown_of env q (node :: l)
  = ((if shown env q node then rendering env node else []) ++ shown_of env q l)%list.
Proof.
  unfold shown_of. simpl. destruct (shown env q node); reflexivity.
Qed.

(** The traversal of a served tree: the nodes shown, and the children
    requested, in pre-order. *)
Lemma walk_ok fuel :
  forall t q depth s,
    (height t <= fuel)%nat ->
    served env t ->
    well_signed (preorder depth t) ->
    valid_query env q ->
    HackerNews.print_comments env fuel (root t) q depth s
    = (Ok tt,
       logged s (shown_of env q (preorder depth t))
              (List.map request_of
                        (List.flat_map (preorder (depth + 1)) (children_of t)))).
Proof.
  induction fuel as [| fuel IH]; intros t q depth s Hh Hserved Hsigned Hq.
  - destruct t; simpl in Hh; lia.
  - destruct t as [item cs]. simpl root. simpl children_of.
    simpl in Hh. apply le_S_n in Hh.
    inversion Hserved as [item' cs' Hkids Hfetch Hsub]; subst item' cs'.
    simpl preorder in Hsigned. unfold well_signed in Hsigned.
    apply Forall_cons_iff in Hsigned. destruct Hsigned as [Hitem Hrest].
    simpl fst in Hitem.
    assert (Hloop :
              forall cs0 s0,
                Forall (fun c => (height c <= fuel)%nat) cs0 ->
                Forall (fun c => get_item env (IdInt (item_id (root c)))
                                 = inr (root c)) cs0 ->
                Forall (served env) cs0 ->
                well_signed (List.flat_map (preorder (depth + 1)) cs0) ->
                for_each (List.map (fun c => item_id (root c)) cs0) depth
                         (descend env fuel q) s0
                = (Ok depth,
                   logged s0
                          (shown_of env q (List.flat_map (preorder (depth + 1)) cs0))
                          (List.map request_of
                                    (List.flat_map (preorder (depth + 1)) cs0)))).
    { induction cs0 as [| c cs0 IHcs]; intros s0 Hhs Hfs Hss Hsg.
      - simpl. unfold ret, shown_of. simpl. rewrite logged_nil. reflexivity.
      - apply Forall_cons_iff in Hhs. destruct Hhs as [Hhc Hhs].
        apply Forall_cons_iff in Hfs. destruct Hfs as [Hfc Hfs].
        apply Forall_cons_iff in Hss. destruct Hss as [Hsc Hss].
        simpl flat_map in Hsg. unfold well_signed in Hsg.
        apply Forall_app in Hsg. destruct Hsg as [Hsgc Hsgs].
        simpl map. simpl for_each.
        assert (Hbody :
                  descend env fuel q (item_id (root c)) depth s0
                  = (Ok depth,
                     logged s0 (shown_of env q (preorder (depth + 1) c))
                            (List.map request_of (preorder (depth + 1) c)))).
        { unfold descend.
          rewrite (bind_ok _ _ s0 (root c) (logged s0 [] [request_of (root c, depth + 1)])).
          2: { unfold HackerNews.api_get_item. rewrite Hfc.
               unfold logged. simpl. rewrite app_nil_r. reflexivity. }
          cbv zeta.
          rewrite (bind_ok _ _ _ tt _ (IH c q (depth + 1) _ Hhc Hsc Hsgc Hq)).
          unfold ret. rewrite logged_logged. simpl app.
          replace (depth + 1 - 1) with depth by lia.
          destruct c as [ci ccs]. reflexivity. }
        rewrite (bind_ok _ _ _ _ _ Hbody).
        rewrite (IHcs _ Hhs Hfs Hss Hsgs).
        rewrite logged_logged. simpl flat_map.
        rewrite shown_of_app, map_app. reflexivity. }
    assert (Hheights : Forall (fun c => (height c <= fuel)%nat) cs).
    { apply Forall_forall. intros c Hin.
      apply (in_map height) in Hin.
      pose proof (proj1 (list_max_le (List.map height cs) _) Hh) as Hall.
      rewrite Forall_forall in Hall. apply Hall. exact Hin. }
    rewrite print_comments_step.
    rewrite (bind_ok _ _ _ tt _ (visit_ok item q depth s Hitem Hq)).
    simpl preorder. rewrite shown_of_cons.
    unfold kids_are in Hkids.
    destruct (kids item) as [ids |] eqn:Ek.
    + subst ids. destruct cs as [| c cs].
      * simpl. unfold ret, shown_of. simpl. rewrite !app_nil_r. reflexivity.
      * change (List.map (fun c0 => item_id (root c0)) (c :: cs))
          with (item_id (root c) :: List.map (fun c0 => item_id (root c0)) cs).
        cbv iota beta.
        change (item_id (root c) :: List.map (fun c0 => item_id (root c0)) cs)
          with (List.map (fun c0 => item_id (root c0)) (c :: cs)).
        rewrite (bind_ok _ _ _ depth _ (Hloop (c :: cs) _ Hheights Hfetch Hsub Hrest)).
        unfold ret. rewrite logged_logged. reflexivity.
    + subst cs. simpl. unfold ret, shown_of. simpl. rewrite !app_nil_r.
      reflexivity.
Qed.

End Traversal.

Lemma shown_without_query env :
  forall nodes,
    List.filter (shown env EmptyString) nodes
    = List.filter (fun node => has_text (fst node)) nodes.
Proof.
  intros nodes. apply filter_ext. intros node. unfold shown. simpl.
  apply andb_true_r.
Qed.

Lemma served_treeA : served Demo.env Demo.treeA.
Proof.
  unfold Demo.treeA.
  apply served_node.
  - reflexivity.
  - repeat constructor.
  - repeat (constructor; try reflexivity).
Qed.

Lemma well_signed_treeA : well_signed (preorder 0 Demo.treeA).
Proof.
  unfold well_signed. simpl.
  repeat (constructor; [intros _; discriminate |]). constructor.
Qed.

(** C6: [print_comments] walks a comment tree in pre-order, depth first:
    a node is shown before its children, the children follow in the order
    of [kids], and each node is rendered at the depth of its distance from
    the root, the counter being back at the parent's depth for the next
    child; the requests to the remote source follow the same order.  For the
    tree A -> [B, C], B -> [D] the renderings are A at depth 0, B at 1, D at
    2 and C at 1. *)
Theorem traversal_preorder_depth :
  (forall env fuel t q depth s,
      (height t <= fuel)%nat ->
      served env t ->
      well_signed (preorder depth t) ->
      valid_query env q ->
      HackerNews.print_comments env fuel (root t) q depth s
      = (Ok tt,
         logged s
                (List.flat_map (rendering env)
                               (List.filter (shown env q) (preorder depth t)))
                (List.map request_of (List.tl (preorder depth t)))))
  /\ (forall env fuel q comment_id depth s depth' s',
         descend env fuel q comment_id depth s = (Ok depth', s') ->
         depth' = depth)
  /\ HackerNews.print_comments Demo.env 3%nat Demo.commentA EmptyString 0
       (HackerNews.init None)
     = (Ok tt,
        mkState [] None
                (rendering Demo.env (Demo.commentA, 0)
                 ++ rendering Demo.env (Demo.commentB, 1)
                 ++ rendering Demo.env (Demo.commentD, 2)
                 ++ rendering Demo.env (Demo.commentC, 1))
                [IdInt 100; IdInt 102; IdInt 101]).
Proof.
  split; [| split].
  - intros env fuel t q depth s Hh Hserved Hsigned Hq.
    rewrite (walk_ok env fuel t q depth s Hh Hserved Hsigned Hq).
    destruct t as [item cs]. reflexivity.
  - intros env fuel q comment_id depth s depth' s'.
    unfold descend, bind, ret.
    destruct (HackerNews.api_get_item env (IdInt comment_id) s)
      as [[comment | e |] s1]; try discriminate.
    cbv zeta.
    destruct (HackerNews.print_comments env fuel comment q (depth + 1) s1)
      as [[[] | e |] s2]; try discriminate.
    intros H. inversion H. lia.
  - reflexivity.
Qed.

Lemma traversal_preorder_depth_witness :
  HackerNews.print_comments Demo.env 3%nat (root Demo.treeA) "reply" 0
    (HackerNews.init None)
  = (Ok tt,
     logged (HackerNews.init None)
            (List.flat_map (rendering Demo.env)
                           (List.filter (shown Demo.env "reply")
                                        (preorder 0 Demo.treeA)))
            (List.map request_of (List.tl (preorder 0 Demo.treeA))))
  /\ fst (descend Demo.env 2%nat "reply" 100 0 (HackerNews.init None)) = Ok 0.
Proof.
  destruct traversal_preorder_depth as [Hwalk [Hdepth _]].
  split.
  - apply (Hwalk Demo.env 3%nat Demo.treeA "reply" 0).
    + simpl. lia.
    + exact served_treeA.
    + exact well_signed_treeA.
    + intros _. reflexivity.
  - destruct (descend Demo.env 2%nat "reply" 100 0 (HackerNews.init None))
      as [[d | e |] s'] eqn:E; try discriminate E.
    rewrite (Hdepth _ _ _ _ _ _ _ _ E). reflexivity.
Defined.

(** C7, amended: for an item that carries an author handle and a body, and
    a pattern that is a regular expression, [regex_match] returns true
    exactly when the pattern is found in the author handle, in the raw body
    or in the relative-age label; with the empty pattern the traversal
    renders every node that has a body; for an item without an author
    handle [regex_match] returns nothing, it raises [TypeError], whatever its
    body holds. *)
Theorem filter_or_semantics :
  (forall env item q s author body,
      by_ item = Some author ->
      text item = Some body ->
      re_error env q = None ->
      exists b,
        HackerNews.regex_match env item q s = (Ok b, s)
        /\ (b = true <->
            re_found env q author = true
            \/ re_found env q body = true
            \/ re_found env q (HackerNews.age env item) = true))
  /\ (forall env fuel t depth s,
         (height t <= fuel)%nat ->
         served env t ->
         well_signed (preorder depth t) ->
         HackerNews.print_comments env fuel (root t) EmptyString depth s
         = (Ok tt,
            logged s
                   (List.flat_map (rendering env)
                                  (List.filter (fun node => has_text (fst node))
                                               (preorder depth t)))
                   (List.map request_of (List.tl (preorder depth t)))))
  /\ (forall env item q s,
         by_ item = None ->
         re_error env q = None ->
         HackerNews.regex_match env item q s
         = (Raise (Exc TypeError "expected string or buffer"), s)).
Proof.
  split; [| split].
  - intros env item q s author body Hby Htext Hq.
    exists (found_in_any env q item). split.
    + apply (regex_match_ok env item q s author body Hby Htext Hq).
    + unfold found_in_any. rewrite Hby, Htext.
      rewrite !orb_true_iff. tauto.
  - intros env fuel t depth s Hh Hserved Hsigned.
    rewrite (walk_ok env fuel t EmptyString depth s Hh Hserved Hsigned).
    + unfold shown_of. rewrite shown_without_query.
      destruct t as [item cs]. reflexivity.
    + intros Hq. discriminate Hq.
  - intros env item q s Hby Hq.
    unfold HackerNews.regex_match, HackerNews.re_search, bind.
    rewrite Hq, Hby. reflexivity.
Qed.

Lemma filter_or_semantics_witness :
  (exists b,
      HackerNews.regex_match Demo.env Demo.commentB "bob" (HackerNews.init None)
      = (Ok b, HackerNews.init None)
      /\ (b = true <->
          re_found Demo.env "bob" "bob" = true
          \/ re_found Demo.env "bob" "first reply" = true
          \/ re_found Demo.env "bob" (HackerNews.age Demo.env Demo.commentB)
             = true))
  /\ HackerNews.print_comments Demo.env 3%nat (root Demo.treeA) EmptyString 0
       (HackerNews.init None)
     = (Ok tt,
        logged (HackerNews.init None)
               (List.flat_map (rendering Demo.env)
                              (List.filter (fun node => has_text (fst node))
                                           (preorder 0 Demo.treeA)))
               (List.map request_of (List.tl (preorder 0 Demo.treeA))))
  /\ HackerNews.regex_match Demo.env
       (mkItem 9 None None None (Some "bob was here") 0 None DtNone None)
       "bob" (HackerNews.init None)
     = (Raise (Exc TypeError "expected string or buffer"), HackerNews.init None).
Proof.
  destruct filter_or_semantics as [Hmatch [Hwalk Habsent]].
  split; [| split].
  - apply (Hmatch Demo.env Demo.commentB "bob"
                  (HackerNews.init None) "bob" "first reply");
      reflexivity.
  - apply (Hwalk Demo.env 3%nat Demo.treeA 0).
    + simpl. lia.
    + exact served_treeA.
    + exact well_signed_treeA.
  - apply (Habsent Demo.env
                   (mkItem 9 None None None (Some "bob was here") 0 None DtNone
                           None)
                   "bob" (HackerNews.init None));
      reflexivity.
Defined.

(** C7 as stated fails: for an item whose body is present and holds the
    pattern, but whose author handle is absent, [regex_match] does not
    return true: the search in the author handle raises [TypeError]. *)
Lemma filter_absent_author_counterexample :
  let ghost := mkItem 9 None None None (Some "boo") 0 None DtNone None in
  text ghost = Some "boo"
  /\ Py.truthy "boo" = true
  /\ re_error Demo.env "boo" = None
  /\ re_found Demo.env "boo" "boo" = true
  /\ HackerNews.regex_match Demo.env ghost "boo" (HackerNews.init None)
     = (Raise (Exc TypeError "expected string or buffer"), HackerNews.init None)
  /\ fst (HackerNews.regex_match Demo.env ghost "boo" (HackerNews.init None))
     <> Ok true.
Proof.
  intros ghost. repeat split; try reflexivity. discriminate.
Qed.

(** ** Listings *)

Section Listing.

Variable env : Env.

Lemma print_formatted_item_ok item index s heading :
  title item = Some heading ->
  renderable env item ->
  HackerNews.print_formatted_item env item index s
  = (Ok tt,
     mkState (item_ids s ++ [id_of item]) (config_file s)
             (terminal s ++ row env (index, item)) (requests s)).
Proof.
  intros Htitle [Hby Hurl].
  destruct (by_ item) as [author |] eqn:Eby; [| contradiction].
  unfold row, HackerNews.print_formatted_item. simpl fst. simpl snd.
  rewrite Htitle, Eby.
  destruct (url item) as [link |] eqn:Eurl.
  - destruct (Hurl link eq_refl) as [host Ehost]. rewrite Ehost.
    unfold bind, plus_str, str_plus, lift, ret, click_secho, click_echo,
      HackerNews.append_item_id.
    simpl. rewrite <- !app_assoc. reflexivity.
  - unfold bind, plus_str, str_plus, lift, ret, click_secho, click_echo,
      HackerNews.append_item_id.
    simpl. rewrite <- !app_assoc. reflexivity.
Qed.

Lemma has_title_heading item :
  HackerNews.has_title item = true -> exists heading, title item = Some heading.
Proof.
  unfold HackerNews.has_title. destruct (title item) as [t |].
  - intros _. exists t. reflexivity.
  - discriminate.
Qed.

Lemma listing_loop ids :
  forall items index s,
    Forall2 (fun id item => get_item env id = inr item) ids items ->
    Forall (renderable env) (List.filter HackerNews.has_title items) ->
    let rendered := List.filter HackerNews.has_title items in
    for_each ids index (list_item env) s
    = (Ok (index + Z.of_nat (List.length rendered)),
       mkState (item_ids s ++ List.map id_of rendered) (config_file s)
               (terminal s ++ List.flat_map (row env) (numbered index rendered))
               (requests s ++ ids)).
Proof.
  induction ids as [| id ids IH]; intros items index s Hfetch Hrender rendered.
  - inversion Hfetch; subst. subst rendered. simpl.
    unfold ret. rewrite !app_nil_r, Z.add_0_r. destruct s; reflexivity.
  - inversion Hfetch as [| id' item ids' items' Hid Hrest]; subst.
    subst rendered. simpl for_each. simpl filter in *.
    set (s1 := mkState (item_ids s) (config_file s) (terminal s)
                       (requests s ++ [id])).
    assert (Hfetched : HackerNews.api_get_item env id s = (Ok item, s1)).
    { unfold HackerNews.api_get_item. rewrite Hid. reflexivity. }
    destruct (HackerNews.has_title item) eqn:Et.
    + apply Forall_cons_iff in Hrender. destruct Hrender as [Hitem Hrender].
      destruct (has_title_heading item Et) as [heading Eh].
      assert (Hbody :
                list_item env id index s
                = (Ok (index + 1),
                   mkState (item_ids s1 ++ [id_of item]) (config_file s1)
                           (terminal s1 ++ row env (index, item)) (requests s1))).
      { unfold list_item. rewrite (bind_ok _ _ s item s1 Hfetched). rewrite Et.
        rewrite (bind_ok _ _ _ tt _
                         (print_formatted_item_ok item index s1 heading Eh Hitem)).
        reflexivity. }
      rewrite (bind_ok _ _ _ _ _ Hbody).
      rewrite (IH items' (index + 1) _ Hrest Hrender). simpl.
      rewrite <- !app_assoc. simpl.
      replace (index + 1 + Z.of_nat (List.length (List.filter HackerNews.has_title items')))
        with (index + Z.pos (Pos.of_succ_nat
                               (List.length (List.filter HackerNews.has_title items'))))
        by lia.
      reflexivity.
    + assert (Hbody : list_item env id index s = (Ok index, s1)).
      { unfold list_item. rewrite (bind_ok _ _ s item s1 Hfetched). rewrite Et.
        reflexivity. }
      rewrite (bind_ok _ _ _ _ _ Hbody).
      rewrite (IH items' index _ Hrest Hrender). simpl.
      rewrite <- !app_assoc. reflexivity.
Qed.

Lemma print_items_ok message ids items s :
  Forall2 (fun id item => get_item env id = inr item) ids items ->
  Forall (renderable env) (List.filter HackerNews.has_title items) ->
  let rendered := List.filter HackerNews.has_title items in
  HackerNews.print_items env message ids s
  = (Ok tt,
     mkState (item_ids s ++ List.map id_of rendered)
             (Some (saved_text (item_ids s ++ List.map id_of rendered)))
             (terminal s
                ++ [Secho (Py.nl ++ message ++ Py.nl) true "blue"]
                ++ List.flat_map (row env) (numbered 1 rendered)
                ++ [Secho HackerNews.TIP true "blue"; Echo EmptyString])
             (requests s ++ ids)).
Proof.
  intros Hfetch Hrender rendered.
  unfold HackerNews.print_items.
  set (s0 := mkState (item_ids s) (config_file s)
                     (terminal s ++ [Secho (Py.nl ++ message ++ Py.nl) true "blue"])
                     (requests s)).
  assert (Hhead : click_secho (Py.nl ++ message ++ Py.nl) true "blue" s
                  = (Ok tt, s0)) by reflexivity.
  rewrite (bind_ok _ _ s tt s0 Hhead).
  change (fun item_id index =>
            item <- HackerNews.api_get_item env item_id ;;
            (if HackerNews.has_title item
             then HackerNews.print_formatted_item env item index ;;; ret (index + 1)
             else ret index))
    with (list_item env).
  rewrite (bind_ok _ _ _ _ _ (listing_loop ids items 1 _ Hfetch Hrender)).
  unfold bind, HackerNews.save_item_ids, click_secho, click_echo. simpl.
  rewrite <- !app_assoc. reflexivity.
Qed.

End Listing.

Lemma numbered_indices items :
  forall start,
    List.map fst (numbered start items)
    = List.map (fun k => start + Z.of_nat k) (List.seq 0 (List.length items)).
Proof.
  induction items as [| item items IH]; intros start; simpl.
  - reflexivity.
  - rewrite Z.add_0_r. f_equal. rewrite IH, <- seq_shift, map_map.
    apply map_ext. intros k. lia.
Qed.

(** C8: a listing fetches the identifiers in order, renders one numbered
    row for each item with a title and none for the others; the rows are
    numbered 1, 2, ... over the rendered items only, and the identifiers of
    exactly these items are appended to [item_ids] in order, which is then
    saved.  For three identifiers whose second item has no title there are
    two rows, numbered 1 and 2, and the index holds the first and the
    third. *)
Theorem listing_skips_untitled :
  (forall env message ids items s,
      Forall2 (fun id item => get_item env id = inr item) ids items ->
      Forall (renderable env) (List.filter HackerNews.has_title items) ->
      let rendered := List.filter HackerNews.has_title items in
      HackerNews.print_items env message ids s
      = (Ok tt,
         mkState (item_ids s ++ List.map id_of rendered)
                 (Some (saved_text (item_ids s ++ List.map id_of rendered)))
                 (terminal s
                    ++ [Secho (Py.nl ++ message ++ Py.nl) true "blue"]
                    ++ List.flat_map (row env) (numbered 1 rendered)
                    ++ [Secho HackerNews.TIP true "blue"; Echo EmptyString])
                 (requests s ++ ids)))
  /\ (forall items,
         List.map fst (numbered 1 items)
         = List.map (fun k => 1 + Z.of_nat k) (List.seq 0 (List.length items)))
  /\ (forall env index item,
         List.hd_error (row env (index, item))
         = Some (Secho ("  " ++ Py.str_int index ++ ". ") false "magenta"))
  /\ (let s := snd (HackerNews.print_items Demo.env "Top"
                      [IdInt 42; IdInt 99; IdInt 7] (HackerNews.init None)) in
      item_ids s = [IdInt 42; IdInt 7]
      /\ terminal s
         = ([Secho (Py.nl ++ "Top" ++ Py.nl) true "blue"]
              ++ row Demo.env (1, Demo.story42)
              ++ row Demo.env (2, Demo.story7)
              ++ [Secho HackerNews.TIP true "blue"; Echo EmptyString])%list).
Proof.
  split; [| split; [| split]].
  - intros env message ids items s Hfetch Hrender.
    apply print_items_ok; assumption.
  - intros items. apply numbered_indices.
  - intros env index item.
    unfold row, HackerNews.print_formatted_item, bind, plus_str, str_plus,
      lift, ret, raise, click_secho, click_echo, HackerNews.append_item_id.
    simpl.
    destruct (title item); simpl; [| reflexivity].
    destruct (url item) as [link |]; simpl;
      [destruct (netloc env link); simpl; [reflexivity |] |];
      destruct (by_ item); reflexivity.
  - split; reflexivity.
Qed.

Lemma renderable_demo item :
  by_ item <> None -> renderable Demo.env item.
Proof.
  intros Hby. split; [exact Hby |].
  intros link _. exists (Demo.host_of link). reflexivity.
Qed.

Lemma listing_skips_untitled_witness :
  HackerNews.print_items Demo.env "Top" [IdInt 42; IdInt 99; IdInt 7]
    (HackerNews.init None)
  = (Ok tt,
     mkState [IdInt 42; IdInt 7]
             (Some (saved_text [IdInt 42; IdInt 7]))
             ([Secho (Py.nl ++ "Top" ++ Py.nl) true "blue"]
                ++ List.flat_map (row Demo.env)
                     [(1, Demo.story42); (2, Demo.story7)]
                ++ [Secho HackerNews.TIP true "blue"; Echo EmptyString])
             [IdInt 42; IdInt 99; IdInt 7]).
Proof.
  apply (proj1 listing_skips_untitled Demo.env "Top"
               [IdInt 42; IdInt 99; IdInt 7]
               [Demo.story42; Demo.untitled99; Demo.story7]
               (HackerNews.init None)).
  - repeat constructor.
  - simpl. repeat constructor; apply renderable_demo; discriminate.
Defined.

(** ** Strings *)

Module StringFacts.

Lemma append_assoc (a b c : string) : (a ++ b) ++ c = a ++ b ++ c.
Proof. induction a as [| x a IH]; simpl; [reflexivity | rewrite IH; reflexivity]. Qed.

Lemma append_empty_r (a : string) : a ++ EmptyString = a.
Proof. induction a as [| x a IH]; simpl; [reflexivity | rewrite IH; reflexivity]. Qed.

Lemma append_nonempty (a : string) c b :
  String.eqb (a ++ String c b) EmptyString = false.
Proof. destruct a; reflexivity. Qed.

Lemma prefix_cons c p d s :
  String.prefix (String c p) (String d s)
  = (Ascii.eqb c d && String.prefix p s)%bool.
Proof.
  simpl. destruct (ascii_dec c d) as [-> | Hn].
  - rewrite Ascii.eqb_refl. reflexivity.
  - apply Ascii.eqb_neq in Hn. rewrite Hn. reflexivity.
Qed.

Lemma prefix_empty s : String.prefix EmptyString s = true.
Proof. destruct s; reflexivity. Qed.

Lemma prefix_char c d s :
  String.prefix (String c EmptyString) (String d s) = Ascii.eqb c d.
Proof. rewrite prefix_cons, prefix_empty, andb_true_r. reflexivity. Qed.

Lemma contains_app c a b :
  Py.contains c (a ++ b) = (Py.contains c a || Py.contains c b)%bool.
Proof.
  induction a as [| x a IH]; simpl; [reflexivity |].
  rewrite IH, orb_assoc. reflexivity.
Qed.

Lemma every_contains P c s :
  every P s = true -> P c = false -> Py.contains c s = false.
Proof.
  intros Hs Hc. induction s as [| x s IH]; simpl in *; [reflexivity |].
  apply andb_true_iff in Hs. destruct Hs as [Hx Hs].
  rewrite (IH Hs), orb_false_r.
  apply Ascii.eqb_neq. intros ->. congruence.
Qed.

(** *** [replace] of a single character *)

Lemma replace_absent c new s :
  Py.contains c s = false -> Py.replace s (String c EmptyString) new = s.
Proof.
  unfold Py.replace. induction s as [| x s IH]; intros H; [reflexivity |].
  cbn [Py.contains] in H. apply orb_false_iff in H. destruct H as [Hx Hs].
  cbn [Py.replace_from]. rewrite prefix_char, Hx, (IH Hs). reflexivity.
Qed.

Lemma delete_app c a b :
  Py.contains c a = false ->
  Py.replace (a ++ b) (String c EmptyString) EmptyString
  = a ++ Py.replace b (String c EmptyString) EmptyString.
Proof.
  unfold Py.replace. induction a as [| x a IH]; intros H; [reflexivity |].
  cbn [Py.contains] in H. apply orb_false_iff in H. destruct H as [Hx Ha].
  simpl append. cbn [Py.replace_from]. rewrite prefix_char, Hx, (IH Ha).
  reflexivity.
Qed.

Lemma delete_head c s :
  Py.replace (String c s) (String c EmptyString) EmptyString
  = Py.replace s (String c EmptyString) EmptyString.
Proof.
  unfold Py.replace. cbn [Py.replace_from].
  rewrite prefix_char, Ascii.eqb_refl. reflexivity.
Qed.

(** *** [strip] *)

Lemma rstrip_head c s :
  Py.isspace c = false -> Py.rstrip (String c s) = String c (Py.rstrip s).
Proof.
  intros H. cbn [Py.rstrip]. rewrite H, andb_false_r. reflexivity.
Qed.

Lemma rstrip_end s c :
  Py.isspace c = false ->
  Py.rstrip (s ++ String c EmptyString) = s ++ String c EmptyString.
Proof.
  intros H. induction s as [| x s IH].
  - simpl. rewrite H. reflexivity.
  - simpl append. cbn [Py.rstrip]. rewrite IH, append_nonempty. reflexivity.
Qed.

(** A text between two characters that are not spaces is its own
    [strip]. *)
Lemma strip_enclosed c body d :
  Py.isspace c = false -> Py.isspace d = false ->
  Py.strip (String c (body ++ String d EmptyString))
  = String c (body ++ String d EmptyString).
Proof.
  intros Hc Hd. unfold Py.strip. cbn [Py.lstrip]. rewrite Hc.
  change (String c (body ++ String d EmptyString))
    with (String c body ++ String d EmptyString).
  apply rstrip_end. exact Hd.
Qed.

Lemma strip_head_nonempty c s :
  Py.isspace c = false ->
  String.eqb (Py.strip (String c s)) EmptyString = false.
Proof.
  intros Hc. unfold Py.strip. cbn [Py.lstrip]. rewrite Hc.
  rewrite (rstrip_head c s Hc). reflexivity.
Qed.

(** *** [split] and [join] *)

Lemma split_single x :
  Py.contains "," x = false -> Py.split x ", " = [x].
Proof.
  unfold Py.split. induction x as [| c x IH]; intros H; [reflexivity |].
  cbn [Py.contains] in H. apply orb_false_iff in H. destruct H as [Hc Hx].
  cbn [Py.split_from]. rewrite prefix_cons, Hc, (IH Hx). reflexivity.
Qed.

Lemma split_field x rest :
  Py.contains "," x = false ->
  Py.split (x ++ ", " ++ rest) ", " = x :: Py.split rest ", ".
Proof.
  unfold Py.split. induction x as [| c x IH]; intros H.
  - simpl append. cbn [Py.split_from].
    rewrite !prefix_cons, prefix_empty. reflexivity.
  - cbn [Py.contains] in H. apply orb_false_iff in H. destruct H as [Hc Hx].
    simpl append. cbn [Py.split_from].
    rewrite prefix_cons, Hc. simpl append in IH. rewrite (IH Hx). reflexivity.
Qed.

Lemma split_join l :
  l <> [] ->
  Forall (fun x => Py.contains "," x = false) l ->
  Py.split (Py.join ", " l) ", " = l.
Proof.
  induction l as [| x l IH]; intros Hne Hall; [contradiction |].
  apply Forall_cons_iff in Hall. destruct Hall as [Hx Hl].
  destruct l as [| y l].
  - simpl. apply split_single. exact Hx.
  - change (Py.join ", " (x :: y :: l)) with (x ++ ", " ++ Py.join ", " (y :: l)).
    rewrite (split_field x _ Hx), IH; [reflexivity | discriminate | exact Hl].
Qed.

Lemma contains_join c sep l :
  Py.contains c sep = false ->
  Forall (fun x => Py.contains c x = false) l ->
  Py.contains c (Py.join sep l) = false.
Proof.
  intros Hsep. induction l as [| x l IH]; intros Hall; [reflexivity |].
  apply Forall_cons_iff in Hall. destruct Hall as [Hx Hl].
  destruct l as [| y l]; [exact Hx |].
  change (Py.join sep (x :: y :: l)) with (x ++ sep ++ Py.join sep (y :: l)).
  rewrite !contains_app, Hx, Hsep, (IH Hl). reflexivity.
Qed.

(** *** Numerals *)

Lemma every_uint d : every numeral_char (NilEmpty.string_of_uint d) = true.
Proof. induction d; simpl; try rewrite IHd; reflexivity. Qed.

Lemma every_str_int n : every numeral_char (Py.str_int n) = true.
Proof.
  unfold Py.str_int, NilEmpty.string_of_int.
  destruct (Z.to_int n); simpl; apply every_uint.
Qed.

Lemma numeral_without c n :
  numeral_char c = false -> Py.contains c (Py.str_int n) = false.
Proof. intros H. apply (every_contains numeral_char); [apply every_str_int | exact H]. Qed.

(** The text between the brackets of [str(l)] for a list of ints. *)
Lemma ints_without c ids :
  numeral_char c = false -> Py.contains c ", " = false ->
  Py.contains c (Py.join ", " (List.map PyList.repr_ident (List.map IdInt ids)))
  = false.
Proof.
  intros Hc Hsep. apply contains_join; [exact Hsep |].
  rewrite map_map. apply Forall_map, Forall_forall. intros n _.
  simpl. apply numeral_without. exact Hc.
Qed.

End StringFacts.

(** ** The configuration file *)

Module ConfigFacts.
Import StringFacts.

Lemma readlines_line a rest :
  Py.contains Py.newline a = false ->
  ConfigParser.readlines (a ++ Py.nl ++ rest)
  = (a ++ Py.nl) :: ConfigParser.readlines rest.
Proof.
  intros H. induction a as [| c a IH].
  - unfold Py.nl. simpl append. cbn [ConfigParser.readlines].
    rewrite Ascii.eqb_refl. reflexivity.
  - cbn [Py.contains] in H. apply orb_false_iff in H. destruct H as [Hc Ha].
    simpl append. cbn [ConfigParser.readlines].
    rewrite Ascii.eqb_sym, Hc. simpl append in IH. rewrite (IH Ha).
    reflexivity.
Qed.

Lemma chomp_app_nl s : ConfigParser.chomp (s ++ Py.nl) = s.
Proof.
  induction s as [| c s IH].
  - unfold Py.nl. simpl append. cbn [ConfigParser.chomp].
    rewrite Ascii.eqb_refl. reflexivity.
  - simpl append. cbn [ConfigParser.chomp].
    unfold Py.nl at 1. rewrite append_nonempty, andb_false_r, IH.
    reflexivity.
Qed.

(** The three lines [save_item_ids] writes. *)
Lemma saved_text_shape ids :
  Py.contains Py.newline (PyList.str_list ids) = false ->
  saved_text ids
  = "[hncli]" ++ Py.nl ++ ("item_ids = " ++ PyList.str_list ids) ++ Py.nl
      ++ EmptyString ++ Py.nl ++ EmptyString.
Proof.
  intros H.
  unfold saved_text, ConfigParser.write, ConfigParser.write_section,
    ConfigParser.write_option.
  cbn [List.map fst snd String.concat].
  rewrite (replace_absent Py.newline _ _ H).
  unfold HackerNews.CONFIG_SECTION, HackerNews.CONFIG_INDEX.
  rewrite !append_assoc. reflexivity.
Qed.

Lemma read_header fpname :
  ConfigParser.read_line fpname ConfigParser.empty_reader 1
                         ("[hncli]" ++ Py.nl)
  = Ok (ConfigParser.Reader [("hncli", [])] (Some "hncli") None []).
Proof. reflexivity. Qed.

Lemma read_blank fpname st n :
  ConfigParser.read_line fpname st n (EmptyString ++ Py.nl) = Ok st.
Proof. reflexivity. Qed.

(** The option line, for a value between brackets without a comment
    sign. *)
Lemma read_option fpname body :
  Py.contains ";" body = false ->
  let value := "[" ++ body ++ "]" in
  ConfigParser.read_line
    fpname (ConfigParser.Reader [("hncli", [])] (Some "hncli") None []) 2
    (("item_ids = " ++ value) ++ Py.nl)
  = Ok (ConfigParser.Reader [("hncli", [("item_ids", [value])])]
                            (Some "hncli") (Some "item_ids") []).
Proof.
  intros Hsemi value.
  set (line := ("item_ids = " ++ value) ++ Py.nl).
  unfold ConfigParser.read_line.
  assert (E1 : String.eqb (Py.strip line) EmptyString = false)
    by (apply strip_head_nonempty; reflexivity).
  assert (E2 : ConfigParser.head_in line "#;" = false) by reflexivity.
  assert (E3 : ConfigParser.is_rem line = false) by reflexivity.
  assert (E4 : ConfigParser.continues
                 (ConfigParser.Reader [("hncli", [])] (Some "hncli") None [])
                 line = None) by reflexivity.
  assert (E5 : ConfigParser.match_header line = None) by reflexivity.
  assert (E6 : ConfigParser.match_option line
               = Some ("item_ids ", "="%char,
                       ConfigParser.chomp (value ++ Py.nl))) by reflexivity.
  rewrite E1, E2. cbn [orb]. rewrite E3, E4, E5.
  cbn [ConfigParser.cursect]. rewrite E6, chomp_app_nl.
  assert (E7 : Py.contains ";" value = false).
  { unfold value. change ("[" ++ body ++ "]") with (String "[" (body ++ "]")).
    cbn [Py.contains]. rewrite contains_app, Hsemi. reflexivity. }
  assert (E8 : Py.strip value = value)
    by (apply (strip_enclosed "[" body "]"); reflexivity).
  assert (E9 : String.eqb value
                 (String PyList.dquote (String PyList.dquote EmptyString))
               = false) by reflexivity.
  rewrite E7, E8, E9. reflexivity.
Qed.

Lemma readfp_saved fpname ids :
  Py.contains Py.newline (PyList.str_list ids) = false ->
  Py.contains ";" (Py.join ", " (List.map PyList.repr_ident ids)) = false ->
  ConfigParser.readfp fpname (saved_text ids)
  = Ok [("hncli", [("item_ids", PyList.str_list ids)])].
Proof.
  intros Hnl Hsemi.
  rewrite (saved_text_shape ids Hnl).
  unfold ConfigParser.readfp.
  rewrite (readlines_line "[hncli]" _ eq_refl).
  rewrite (readlines_line ("item_ids = " ++ PyList.str_list ids)).
  2: { change ("item_ids = " ++ PyList.str_list ids)
         with (String "i" (String "t" (String "e" (String "m" (String "_"
               (String "i" (String "d" (String "s" (String " " (String "="
               (String " " (PyList.str_list ids)))))))))))).
       cbn [Py.contains]. rewrite Hnl. reflexivity. }
  rewrite (readlines_line EmptyString EmptyString eq_refl).
  cbn [ConfigParser.readlines ConfigParser.read_lines].
  rewrite read_header.
  unfold PyList.str_list.
  rewrite (read_option fpname _ Hsemi).
  rewrite read_blank. reflexivity.
Qed.

(** The brackets of a list of ints enclose no newline. *)
Lemma ints_one_line ids :
  Py.contains Py.newline (PyList.str_list (List.map IdInt ids)) = false.
Proof.
  unfold PyList.str_list.
  change ("[" ++ Py.join ", " (List.map PyList.repr_ident (List.map IdInt ids)) ++ "]")
    with (String "[" (Py.join ", " (List.map PyList.repr_ident (List.map IdInt ids)) ++ "]")).
  cbn [Py.contains]. rewrite contains_app.
  rewrite ints_without by reflexivity. reflexivity.
Qed.

Lemma split_nonempty sep s : forall skip, Py.split_from sep skip s <> [].
Proof.
  induction s as [| c s IH]; intros skip; cbn [Py.split_from]; [easy |].
  destruct skip; [| apply IH].
  destruct (String.prefix sep (String c s)); [easy |].
  destruct (Py.split_from sep 0 s); easy.
Qed.

Lemma parse_item_ids_nonempty content :
  (1 <= List.length (HackerNews.parse_item_ids content))%nat.
Proof.
  unfold HackerNews.parse_item_ids. rewrite length_map.
  match goal with
  | |- (1 <= List.length (Py.split ?s ?sep))%nat =>
      pose proof (split_nonempty sep s O) as H;
      unfold Py.split; destruct (Py.split_from sep 0 s)
  end.
  - contradiction.
  - simpl. lia.
Qed.

(** What [view] parses from the text of a saved list of ints. *)
Lemma parse_saved ids :
  ids <> [] ->
  HackerNews.parse_item_ids (PyList.str_list (List.map IdInt ids))
  = persisted ids.
Proof.
  intros Hne.
  unfold HackerNews.parse_item_ids, PyList.str_list.
  set (body := Py.join ", " (List.map PyList.repr_ident (List.map IdInt ids))).
  change ("[" ++ body ++ "]") with (String "[" (body ++ "]")).
  rewrite (strip_enclosed "[" body "]") by reflexivity.
  cbn [List.fold_left HackerNews.excludes].
  rewrite delete_head.
  rewrite (delete_app "[" body "]") by (apply ints_without; reflexivity).
  change (Py.replace "]" "[" EmptyString) with "]".
  rewrite (delete_app "]" body "]") by (apply ints_without; reflexivity).
  change (Py.replace "]" "]" EmptyString) with EmptyString.
  rewrite append_empty_r.
  rewrite replace_absent by (apply ints_without; reflexivity).
  unfold body. rewrite map_map. cbn [PyList.repr_ident].
  rewrite split_join.
  - unfold persisted. rewrite map_map. reflexivity.
  - destruct ids; [contradiction | discriminate].
  - apply Forall_map, Forall_forall. intros n _.
    apply numeral_without. reflexivity.
Qed.

Section Reading.

Variable env : Env.

Lemma read_saved ids s :
  config_file s = Some (saved_text (List.map IdInt ids)) ->
  HackerNews.read_item_ids env s
  = (Ok (PyList.str_list (List.map IdInt ids)), s).
Proof.
  intros Hfile. unfold HackerNews.read_item_ids. rewrite Hfile.
  rewrite readfp_saved.
  - reflexivity.
  - apply ints_one_line.
  - apply ints_without; reflexivity.
Qed.

End Reading.

End ConfigFacts.

(** ** Indexing and [view] *)

Module PyListFacts.

Section Getitem.

Context {A : Type} (l : list A).

Let n : Z := Z.of_nat (List.length l).

Lemma in_range j :
  0 <= j < n -> ((0 <=? j) && (j <? n))%bool = true.
Proof.
  intros H. apply andb_true_iff.
  split; [apply Z.leb_le | apply Z.ltb_lt]; lia.
Qed.

Lemma nth_in_range j :
  0 <= j < n -> exists x, nth_error l (Z.to_nat j) = Some x.
Proof.
  intros H. destruct (nth_error l (Z.to_nat j)) as [x |] eqn:E.
  - exists x. reflexivity.
  - apply nth_error_None in E. subst n. lia.
Qed.

Lemma getitem_out i :
  i >= n \/ i < - n ->
  PyList.getitem l i = Raise (Exc IndexError "list index out of range").
Proof.
  intros H. unfold PyList.getitem. cbv zeta. fold n.
  destruct (Z.ltb_spec i 0).
  - replace (0 <=? i + n) with false by (symmetry; apply Z.leb_gt; lia).
    reflexivity.
  - replace (i <? n) with false by (symmetry; apply Z.ltb_ge; lia).
    rewrite andb_false_r. reflexivity.
Qed.

Lemma getitem_in i :
  0 <= i < n ->
  exists x, nth_error l (Z.to_nat i) = Some x /\ PyList.getitem l i = Ok x.
Proof.
  intros H. destruct (nth_in_range i H) as [x E]. exists x.
  split; [exact E |].
  unfold PyList.getitem. cbv zeta. fold n.
  destruct (Z.ltb_spec i 0); [lia |].
  rewrite (in_range i H), E. reflexivity.
Qed.

Lemma getitem_neg i :
  - n <= i < 0 ->
  exists x, nth_error l (Z.to_nat (i + n)) = Some x
            /\ PyList.getitem l i = Ok x.
Proof.
  intros H. assert (Hj : 0 <= i + n < n) by lia.
  destruct (nth_in_range (i + n) Hj) as [x E]. exists x.
  split; [exact E |].
  unfold PyList.getitem. cbv zeta. fold n.
  destruct (Z.ltb_spec i 0); [| lia].
  rewrite (in_range (i + n) Hj), E. reflexivity.
Qed.

End Getitem.

End PyListFacts.

Section ViewFacts.

Variable env : Env.

Lemma view_loaded fuel index q c s content :
  HackerNews.read_item_ids env s = (Ok content, s) ->
  HackerNews.view env fuel index q c s
  = try_except
      (id <- lift_outcome (PyList.getitem (HackerNews.parse_item_ids content) (index - 1)) ;;
       open_item env fuel q c id)
      (report)
      (loaded s content).
Proof.
  intros Hread. unfold HackerNews.view, try_except.
  rewrite (bind_ok _ _ s content s Hread).
  reflexivity.
Qed.

Lemma open_item_requests fuel q c id s :
  exists rest,
    requests (snd (try_except (open_item env fuel q c id) report s))
    = (requests s ++ id :: rest)%list.
Proof.
  assert (Hk : exists k, open_item env fuel q c id
                         = bind (HackerNews.api_get_item env id) k
                         /\ forall item, grows (k item)).
  { eexists. split; [reflexivity |].
    intros item. destruct c.
    - apply grows_bind; [auto with grows | intros _; apply grows_print_comments].
    - apply grows_bind; [auto with grows |]. intros link.
      apply grows_bind;
        [auto with grows | intros _; apply grows_print_url_contents]. }
  destruct Hk as [k [Ek Hk]]. rewrite Ek.
  unfold try_except, bind, HackerNews.api_get_item.
  destruct (get_item env id) as [e | item]; simpl.
  - exists []. reflexivity.
  - match goal with
    | |- context [k item ?s1] =>
        destruct (Hk item s1) as [rest E]; destruct (k item s1) as [[a | e |] s2]
    end; simpl in *; exists rest; rewrite E, <- app_assoc; reflexivity.
Qed.

Lemma view_requests fuel index q c s content id :
  HackerNews.read_item_ids env s = (Ok content, s) ->
  PyList.getitem (HackerNews.parse_item_ids content) (index - 1) = Ok id ->
  exists rest,
    requests (snd (HackerNews.view env fuel index q c s))
    = (requests s ++ id :: rest)%list.
Proof.
  intros Hread Hget. rewrite (view_loaded fuel index q c s content Hread).
  destruct (open_item_requests fuel q c id (loaded s content)) as [rest E].
  exists rest.
  change (requests (loaded s content)) with (requests s) in E.
  rewrite <- E. unfold try_except, bind at 1, lift_outcome.
  rewrite Hget. reflexivity.
Qed.

Lemma view_fails fuel index q c s content e :
  HackerNews.read_item_ids env s = (Ok content, s) ->
  PyList.getitem (HackerNews.parse_item_ids content) (index - 1) = Raise e ->
  HackerNews.view env fuel index q c s
  = (Ok tt,
     mkState (HackerNews.parse_item_ids content) (config_file s)
             (terminal s ++ [Secho ("Error: " ++ exc_msg e) true "red"])
             (requests s)).
Proof.
  intros Hread Hget. rewrite (view_loaded fuel index q c s content Hread).
  unfold try_except, bind, lift_outcome. rewrite Hget. reflexivity.
Qed.
End ViewFacts.

(** ** The persisted index *)

Lemma persisted_nth ids k :
  (k < List.length ids)%nat ->
  nth_error (persisted ids) k = Some (IdStr (Py.str_int (List.nth k ids 0))).
Proof.
  intros Hk. unfold persisted. rewrite nth_error_map.
  rewrite (nth_error_nth' ids 0 Hk). reflexivity.
Qed.

Lemma load_saved env ids file :
  ids <> [] ->
  file = Some (saved_text (List.map IdInt ids)) ->
  (items_ids <- HackerNews.read_item_ids env ;;
   HackerNews.set_item_ids (HackerNews.parse_item_ids items_ids))
    (HackerNews.init file)
  = (Ok tt, mkState (persisted ids) file [] []).
Proof.
  intros Hne Hfile.
  rewrite (bind_ok _ _ _ _ _
             (ConfigFacts.read_saved env ids (HackerNews.init file) Hfile)).
  unfold HackerNews.set_item_ids. rewrite (ConfigFacts.parse_saved ids Hne).
  reflexivity.
Qed.

Lemma view_saved env ids file fuel index q c :
  ids <> [] ->
  file = Some (saved_text (List.map IdInt ids)) ->
  1 <= index <= Z.of_nat (List.length ids) ->
  exists rest,
    requests (snd (HackerNews.view env fuel index q c (HackerNews.init file)))
    = IdStr (Py.str_int (List.nth (Z.to_nat (index - 1)) ids 0)) :: rest.
Proof.
  intros Hne Hfile Hindex.
  pose proof (ConfigFacts.read_saved env ids (HackerNews.init file) Hfile) as Hread.
  destruct (PyListFacts.getitem_in (persisted ids) (index - 1)) as [id [Hnth Hget]].
  { unfold persisted. rewrite length_map. lia. }
  rewrite persisted_nth in Hnth by lia. inversion Hnth; subst id.
  rewrite <- (ConfigFacts.parse_saved ids Hne) in Hget.
  apply (view_requests env fuel index q c _ _ _ Hread Hget).
Qed.

(** C1: after a listing has appended a non-empty sequence of identifiers
    and saved it, a new process that loads the file holds the same
    sequence, each identifier in its decimal text, and [view] at position
    [index] requests the identifier appended at that position; after 42 and
    7, position 1 is "42" and position 2 is "7". *)
Theorem index_round_trip :
  (forall env ids s,
      ids <> [] ->
      item_ids s = List.map IdInt ids ->
      let file := config_file (snd (HackerNews.save_item_ids s)) in
      (items_ids <- HackerNews.read_item_ids env ;;
       HackerNews.set_item_ids (HackerNews.parse_item_ids items_ids))
        (HackerNews.init file)
      = (Ok tt, mkState (persisted ids) file [] [])
      /\ forall fuel index q c,
          1 <= index <= Z.of_nat (List.length ids) ->
          exists rest,
            requests (snd (HackerNews.view env fuel index q c
                                           (HackerNews.init file)))
            = IdStr (Py.str_int (List.nth (Z.to_nat (index - 1)) ids 0))
                :: rest)
  /\ (forall env fuel q c,
         let saved :=
           snd ((HackerNews.append_item_id (IdInt 42) ;;;
                 HackerNews.append_item_id (IdInt 7) ;;;
                 HackerNews.save_item_ids) (HackerNews.init None)) in
         let fresh := HackerNews.init (config_file saved) in
         (exists rest,
             requests (snd (HackerNews.view env fuel 1 q c fresh))
             = IdStr "42" :: rest)
         /\ (exists rest,
                requests (snd (HackerNews.view env fuel 2 q c fresh))
                = IdStr "7" :: rest)).
Proof.
  split.
  - intros env ids s Hne Hids file.
    assert (Hfile : file = Some (saved_text (List.map IdInt ids))).
    { subst file. unfold HackerNews.save_item_ids. simpl. rewrite Hids.
      reflexivity. }
    split.
    + apply load_saved; assumption.
    + intros fuel index q c Hindex. apply view_saved; assumption.
  - intros env fuel q c saved fresh.
    assert (Hfile : config_file saved = Some (saved_text (List.map IdInt [42; 7])))
      by reflexivity.
    split.
    + apply (view_saved env [42; 7] _ fuel 1 q c); [discriminate | exact Hfile |].
      simpl. lia.
    + apply (view_saved env [42; 7] _ fuel 2 q c); [discriminate | exact Hfile |].
      simpl. lia.
Qed.

Lemma index_round_trip_witness :
  let s := mkState [IdInt 42; IdInt 7] None [] [] in
  let file := config_file (snd (HackerNews.save_item_ids s)) in
  (items_ids <- HackerNews.read_item_ids Demo.env ;;
   HackerNews.set_item_ids (HackerNews.parse_item_ids items_ids))
    (HackerNews.init file)
  = (Ok tt, mkState (persisted [42; 7]) file [] [])
  /\ exists rest,
      requests (snd (HackerNews.view Demo.env 3%nat 2 EmptyString true
                                     (HackerNews.init file)))
      = IdStr (Py.str_int (List.nth (Z.to_nat (2 - 1)) [42; 7] 0)) :: rest.
Proof.
  intros s file.
  destruct (proj1 index_round_trip Demo.env [42; 7] s) as [Hload Hview].
  - discriminate.
  - reflexivity.
  - split.
    + exact Hload.
    + apply Hview. simpl. lia.
Defined.

(** C10: a listing that renders nothing saves the empty sequence, but the
    stored text is read back as the one-element sequence that holds the
    empty string; position 1 is then within range and [view] passes the
    empty identifier to the remote source. *)
Theorem empty_index_round_trip :
  (forall env message file,
      let s := snd (HackerNews.print_items env message [] (HackerNews.init file)) in
      item_ids s = [] /\ config_file s = Some (saved_text []))
  /\ (let s := snd (HackerNews.print_items Demo.env "Top" [IdInt 99]
                      (HackerNews.init None)) in
      item_ids s = [] /\ config_file s = Some (saved_text []))
  /\ (forall env,
         (items_ids <- HackerNews.read_item_ids env ;;
          HackerNews.set_item_ids (HackerNews.parse_item_ids items_ids))
           (HackerNews.init (Some (saved_text [])))
         = (Ok tt, mkState [IdStr EmptyString] (Some (saved_text [])) [] []))
  /\ PyList.getitem [IdStr EmptyString] (1 - 1) = Ok (IdStr EmptyString)
  /\ (forall env fuel q c,
         exists rest,
           requests (snd (HackerNews.view env fuel 1 q c
                            (HackerNews.init (Some (saved_text [])))))
           = IdStr EmptyString :: rest).
Proof.
  split; [| split; [| split; [| split]]].
  - intros env message file. split; reflexivity.
  - split; reflexivity.
  - intros env.
    rewrite (bind_ok _ _ _ _ _
               (ConfigFacts.read_saved env [] (HackerNews.init (Some (saved_text [])))
                                       eq_refl)).
    reflexivity.
  - reflexivity.
  - intros env fuel q c.
    apply (view_requests env fuel 1 q c _ _ _
             (ConfigFacts.read_saved env [] (HackerNews.init (Some (saved_text [])))
                                     eq_refl)).
    reflexivity.
Qed.

(** C2, as the program has it: with [n] identifiers loaded ([n] is at
    least 1), [view] reports "list index out of range" and requests no item
    whenever [index > n] or [index < 1 - n], so position [n + 1] fails; a
    position from 1 to [n] requests the identifier at that place, and a
    position from [1 - n] to 0 counts from the end, 0 being the last
    identifier. *)
Theorem index_lookup_range :
  forall env fuel q c s content,
    HackerNews.read_item_ids env s = (Ok content, s) ->
    let l := HackerNews.parse_item_ids content in
    let n := Z.of_nat (List.length l) in
    1 <= n
    /\ (forall index,
           index > n \/ index < 1 - n ->
           HackerNews.view env fuel index q c s
           = (Ok tt,
              mkState l (config_file s)
                      (terminal s
                         ++ [Secho "Error: list index out of range" true "red"])
                      (requests s)))
    /\ (forall index,
           1 <= index <= n ->
           exists id rest,
             nth_error l (Z.to_nat (index - 1)) = Some id
             /\ requests (snd (HackerNews.view env fuel index q c s))
                = (requests s ++ id :: rest)%list)
    /\ (forall index,
           1 - n <= index <= 0 ->
           exists id rest,
             nth_error l (Z.to_nat (n + index - 1)) = Some id
             /\ requests (snd (HackerNews.view env fuel index q c s))
                = (requests s ++ id :: rest)%list).
Proof.
  intros env fuel q c s content Hread l n.
  assert (Hn : 1 <= n).
  { subst n l. pose proof (ConfigFacts.parse_item_ids_nonempty content). lia. }
  split; [exact Hn | split; [| split]].
  - intros index Hout.
    apply (view_fails env fuel index q c s content
                      (Exc IndexError "list index out of range") Hread).
    apply PyListFacts.getitem_out. fold l. fold n. lia.
  - intros index Hin.
    destruct (PyListFacts.getitem_in l (index - 1)) as [id [Hnth Hget]].
    { fold n. lia. }
    destruct (view_requests env fuel index q c s content id Hread Hget)
      as [rest Hrest].
    exists id, rest. split; assumption.
  - intros index Hneg.
    destruct (PyListFacts.getitem_neg l (index - 1)) as [id [Hnth Hget]].
    { fold n. lia. }
    destruct (view_requests env fuel index q c s content id Hread Hget)
      as [rest Hrest].
    exists id, rest. split; [| assumption].
    fold n in Hnth. replace (n + index - 1) with (index - 1 + n) by lia.
    exact Hnth.
Qed.

Lemma index_lookup_range_witness :
  let s := HackerNews.init (Some (saved_text [IdInt 42; IdInt 7])) in
  let l := HackerNews.parse_item_ids "[42, 7]" in
  1 <= Z.of_nat (List.length l)
  /\ HackerNews.view Demo.env 3%nat 3 EmptyString true s
     = (Ok tt,
        mkState l (config_file s)
                [Secho "Error: list index out of range" true "red"] [])
  /\ (exists id rest,
         nth_error l (Z.to_nat (2 - 1)) = Some id
         /\ requests (snd (HackerNews.view Demo.env 3%nat 2 EmptyString true s))
            = id :: rest)
  /\ (exists id rest,
         nth_error l (Z.to_nat (2 + 0 - 1)) = Some id
         /\ requests (snd (HackerNews.view Demo.env 3%nat 0 EmptyString true s))
            = id :: rest).
Proof.
  intros s l.
  destruct (index_lookup_range Demo.env 3%nat EmptyString true s "[42, 7]"
                               eq_refl)
    as [Hn [Hout [Hin Hneg]]].
  split; [exact Hn | split; [| split]].
  - apply (Hout 3). left. simpl. lia.
  - apply (Hin 2). simpl. lia.
  - apply (Hneg 0). simpl. lia.
Defined.

(** C2 as stated fails: position 0 does not fail, it is the last
    identifier. *)
Lemma index_zero_counterexample :
  let s := HackerNews.init (Some (saved_text [IdInt 42; IdInt 7])) in
  let s' := snd (HackerNews.view Demo.env 3%nat 0 EmptyString true s) in
  PyList.getitem (item_ids s') (0 - 1) = Ok (IdStr "7")
  /\ requests s' = [IdStr "7"]
  /\ List.hd_error (terminal s')
     = Some (Secho "Fetching Comments from https://news.ycombinator.com/item?id=7"
                   true "blue")
  /\ ~ In (Secho "Error: list index out of range" true "red") (terminal s').
Proof.
  intros s s'. split; [| split; [| split]].
  - reflexivity.
  - reflexivity.
  - reflexivity.
  - vm_compute. intros H.
    repeat (destruct H as [H | H]; [discriminate H |]). exact H.
Qed.

(** C3 on the program: a second listing on the same object keeps the
    identifiers of the first, and saves both; a listing of nothing leaves
    the index as it was. *)
Theorem second_listing_keeps_first :
  (let s1 := snd (HackerNews.print_items Demo.env "Top" [IdInt 42; IdInt 99]
                    (HackerNews.init None)) in
   let s2 := snd (HackerNews.print_items Demo.env "New" [IdInt 7; IdInt 8] s1) in
   item_ids s1 = [IdInt 42]
   /\ item_ids s2 = [IdInt 42; IdInt 7; IdInt 8]
   /\ config_file s2 = Some (saved_text [IdInt 42; IdInt 7; IdInt 8]))
  /\ (forall env message s,
         item_ids (snd (HackerNews.print_items env message [] s)) = item_ids s).
Proof.
  split.
  - repeat split; reflexivity.
  - intros env message s. reflexivity.
Qed.

(** C9 on the program: every match of the pattern is deleted from the
    host, wherever it is, and the fourth character of a match can be any
    character; the row of a link to [www2.example.com] shows
    [(.example.com)]. *)
Theorem domain_display_deletes_matches :
  re_sub_www "www.example.com" = "example.com"
  /\ re_sub_www "www2.example.com" = ".example.com"
  /\ re_sub_www "news.www.example.com" = "news.example.com"
  /\ url Demo.story8 = Some "http://www2.example.com/"
  /\ nth_error (row Demo.env (1, Demo.story8)) 2
     = Some (Secho "(.example.com)" true "magenta").
Proof.
  repeat split; reflexivity.
Qed.

(** * Further properties of the class *)

Import StringFacts ConfigFacts.

(** ** Raised exceptions and loops *)

Lemma bind_raise {A B : Type} (m : M A) (f : A -> M B) s e s' :
  m s = (Raise e, s') -> bind m f s = (Raise e, s').
Proof. intros H. unfold bind. rewrite H. reflexivity. Qed.

Lemma bind_out_of_fuel {A B : Type} (m : M A) (f : A -> M B) s s' :
  m s = (OutOfFuel, s') -> bind m f s = (OutOfFuel, s').
Proof. intros H. unfold bind. rewrite H. reflexivity. Qed.


(** ** What the methods keep *)

Section Keeps.

Variable R : State -> State -> Prop.
Hypothesis R_refl : forall s, R s s.
Hypothesis R_trans : forall a b c, R a b -> R b c -> R a c.
Hypothesis R_log : forall s out reqs, R s (logged s out reqs).

Lemma keeps_ret {A : Type} (a : A) : keeps R (ret a).
Proof. intros s. apply R_refl. Qed.

Lemma keeps_raise {A : Type} e : keeps R (@raise A e).
Proof. intros s. apply R_refl. Qed.

Lemma keeps_lift {A : Type} (r : exception + A) : keeps R (lift r).
Proof. destruct r; [apply keeps_raise | apply keeps_ret]. Qed.

Lemma keeps_lift_outcome {A : Type} (r : outcome A) : keeps R (lift_outcome r).
Proof. intros s. apply R_refl. Qed.

Lemma keeps_bind {A B : Type} (m : M A) (f : A -> M B) :
  keeps R m -> (forall a, keeps R (f a)) -> keeps R (bind m f).
Proof.
  intros Hm Hf s. unfold bind. pose proof (Hm s) as H1.
  destruct (m s) as [[a | e |] s1]; simpl in *; [| exact H1 | exact H1].
  apply (R_trans _ _ _ H1 (Hf a s1)).
Qed.

Lemma keeps_try_except {A : Type} (m : M A) (h : exception -> M A) :
  keeps R m -> (forall e, keeps R (h e)) -> keeps R (try_except m h).
Proof.
  intros Hm Hh s. unfold try_except. pose proof (Hm s) as H1.
  destruct (m s) as [[a | e |] s1]; simpl in *; [exact H1 | | exact H1].
  apply (R_trans _ _ _ H1 (Hh e s1)).
Qed.

Lemma keeps_for_each {A S : Type} (l : list A) (body : A -> S -> M S) :
  (forall x acc, keeps R (body x acc)) ->
  forall acc, keeps R (for_each l acc body).
Proof.
  intros Hb. induction l as [| x l IH]; intros acc; simpl.
  - apply keeps_ret.
  - apply keeps_bind; [apply Hb | intros a; apply IH].
Qed.

Lemma logged_out s c :
  mkState (item_ids s) (config_file s) (terminal s ++ [c]) (requests s)
  = logged s [c] [].
Proof. unfold logged. rewrite app_nil_r. reflexivity. Qed.

Lemma keeps_click_secho message nl fg : keeps R (click_secho message nl fg).
Proof. intros s. unfold click_secho. simpl. rewrite logged_out. apply R_log. Qed.

Lemma keeps_click_echo message : keeps R (click_echo message).
Proof. intros s. unfold click_echo. simpl. rewrite logged_out. apply R_log. Qed.

Lemma keeps_click_echo_via_pager message :
  keeps R (click_echo_via_pager message).
Proof.
  intros s. unfold click_echo_via_pager. simpl. rewrite logged_out.
  apply R_log.
Qed.

Lemma keeps_str_plus x : keeps R (str_plus x).
Proof. destruct x; [apply keeps_ret | apply keeps_raise]. Qed.

Lemma keeps_plus_str x : keeps R (plus_str x).
Proof. destruct x; [apply keeps_ret | apply keeps_raise]. Qed.

Variable env : Env.

Lemma keeps_api_get_item id : keeps R (HackerNews.api_get_item env id).
Proof.
  intros s. unfold HackerNews.api_get_item.
  replace (mkState (item_ids s) (config_file s) (terminal s) (requests s ++ [id]))
    with (logged s [] [id])
    by (unfold logged; rewrite app_nil_r; reflexivity).
  destruct (get_item env id); simpl; apply R_log.
Qed.

Lemma keeps_read_item_ids : keeps R (HackerNews.read_item_ids env).
Proof.
  intros s. unfold HackerNews.read_item_ids.
  destruct (config_file s); [| apply R_refl].
  destruct (ConfigParser.readfp _ _); apply R_refl.
Qed.

Ltac keeps_step :=
  first
    [ apply keeps_bind; [| intros ?]
    | apply keeps_try_except; [| intros ?]
    | apply keeps_ret | apply keeps_raise | apply keeps_lift
    | apply keeps_lift_outcome | apply keeps_click_secho
    | apply keeps_click_echo | apply keeps_click_echo_via_pager
    | apply keeps_str_plus | apply keeps_plus_str
    | apply keeps_api_get_item | apply keeps_read_item_ids
    | match goal with
      | |- keeps _ (match ?x with _ => _ end) => destruct x
      | |- keeps _ (if ?b then _ else _) => destruct b
      end ].

Lemma keeps_regex_match item q : keeps R (HackerNews.regex_match env item q).
Proof.
  unfold HackerNews.regex_match, HackerNews.re_search. repeat keeps_step.
Qed.

Lemma keeps_print_formatted_comment item depth :
  keeps R (HackerNews.print_formatted_comment env item depth).
Proof. unfold HackerNews.print_formatted_comment. repeat keeps_step. Qed.

Lemma keeps_print_comments fuel :
  forall item q depth, keeps R (HackerNews.print_comments env fuel item q depth).
Proof.
  induction fuel as [| fuel IH]; intros item q depth.
  - simpl. apply keeps_lift_outcome.
  - rewrite print_comments_step. apply keeps_bind.
    + unfold visit.
      repeat (first [ apply keeps_regex_match
                    | apply keeps_print_formatted_comment
                    | keeps_step ]).
    + intros _. destruct (kids item) as [[| k ks] |]; try apply keeps_ret.
      apply keeps_bind; [| intros; apply keeps_ret].
      apply keeps_for_each. intros x acc. unfold descend.
      apply keeps_bind; [apply keeps_api_get_item |].
      intros c. apply keeps_bind; [apply IH | intros; apply keeps_ret].
Qed.

Lemma keeps_print_url_contents item :
  keeps R (HackerNews.print_url_contents env item).
Proof. unfold HackerNews.print_url_contents. repeat keeps_step. Qed.

Lemma keeps_open_item fuel q c id : keeps R (open_item env fuel q c id).
Proof.
  unfold open_item.
  repeat (first [ apply keeps_print_comments
                | apply keeps_print_url_contents
                | keeps_step ]).
Qed.

(** With a relation that also allows a new index: [view]. *)
Hypothesis R_set :
  forall s ids, R s (mkState ids (config_file s) (terminal s) (requests s)).

Lemma keeps_view fuel index q c : keeps R (HackerNews.view env fuel index q c).
Proof.
  unfold HackerNews.view.
  apply keeps_try_except; [| intros e; apply keeps_click_secho].
  apply keeps_bind; [apply keeps_read_item_ids | intros content].
  apply keeps_bind; [intros s; apply R_set | intros _].
  apply keeps_bind; [intros s; apply R_refl | intros ids].
  apply keeps_bind; [apply keeps_lift_outcome | intros id].
  apply (keeps_open_item fuel q c id).
Qed.

(** With a relation that also allows appending to the index and writing
    the file: [print_items]. *)
Hypothesis R_append :
  forall s id,
    R s (mkState (item_ids s ++ [id]) (config_file s) (terminal s) (requests s)).
Hypothesis R_save :
  forall s content,
    R s (mkState (item_ids s) (Some content) (terminal s) (requests s)).

Lemma keeps_print_formatted_item item index :
  keeps R (HackerNews.print_formatted_item env item index).
Proof.
  unfold HackerNews.print_formatted_item.
  repeat (first [ keeps_step | intros s; apply R_append ]).
Qed.

Lemma keeps_listing_loop ids :
  forall index, keeps R (for_each ids index (list_item env)).
Proof.
  apply keeps_for_each. intros id index. unfold list_item.
  apply keeps_bind; [apply keeps_api_get_item | intros item].
  destruct (HackerNews.has_title item); [| apply keeps_ret].
  apply keeps_bind; [apply keeps_print_formatted_item | intros _].
  apply keeps_ret.
Qed.

Lemma keeps_print_items message ids :
  keeps R (HackerNews.print_items env message ids).
Proof.
  unfold HackerNews.print_items.
  apply keeps_bind; [apply keeps_click_secho | intros _].
  apply keeps_bind.
  - apply keeps_for_each. intros id index.
    apply keeps_bind; [apply keeps_api_get_item | intros item].
    destruct (HackerNews.has_title item); [| apply keeps_ret].
    apply keeps_bind; [apply keeps_print_formatted_item | intros _].
    apply keeps_ret.
  - intros _. apply keeps_bind; [intros s; apply R_save | intros _].
    apply keeps_bind; [apply keeps_click_secho | intros _].
    apply keeps_click_echo.
Qed.

End Keeps.

Lemma same_index_refl s : same_index s s.
Proof. split; reflexivity. Qed.

Lemma same_index_trans a b c : same_index a b -> same_index b c -> same_index a c.
Proof. intros [H1 H2] [H3 H4]. split; congruence. Qed.

Lemma same_index_log s out reqs : same_index s (logged s out reqs).
Proof. split; reflexivity. Qed.

Lemma same_file_trans a b c : same_file a b -> same_file b c -> same_file a c.
Proof. unfold same_file. congruence. Qed.

Lemma log_grows_refl s : log_grows s s.
Proof. split; exists []; rewrite app_nil_r; reflexivity. Qed.

Lemma log_grows_trans a b c : log_grows a b -> log_grows b c -> log_grows a c.
Proof.
  intros [[o1 H1] [r1 H2]] [[o2 H3] [r2 H4]]. split.
  - exists (o1 ++ o2)%list. rewrite H3, H1, app_assoc. reflexivity.
  - exists (r1 ++ r2)%list. rewrite H4, H2, app_assoc. reflexivity.
Qed.

Lemma log_grows_log s out reqs : log_grows s (logged s out reqs).
Proof. split; [exists out | exists reqs]; reflexivity. Qed.

Lemma index_grows_refl s : index_grows s s.
Proof. exists []. rewrite app_nil_r. reflexivity. Qed.

Lemma index_grows_trans a b c :
  index_grows a b -> index_grows b c -> index_grows a c.
Proof.
  intros [i1 H1] [i2 H2]. exists (i1 ++ i2)%list.
  rewrite H2, H1, app_assoc. reflexivity.
Qed.

(** X1: [print_comments] touches neither the index nor the configuration
    file, whatever it is given and whether it returns, raises or runs out
    of its bound. *)
Theorem traversal_keeps_index :
  forall env fuel item q depth s,
    let s' := snd (HackerNews.print_comments env fuel item q depth s) in
    item_ids s' = item_ids s /\ config_file s' = config_file s.
Proof.
  intros env fuel item q depth s.
  apply (keeps_print_comments same_index);
    [exact same_index_refl | exact same_index_trans | exact same_index_log].
Qed.

(** X2: [view] never writes the configuration file; once the file has
    been read, the index of the object is the parsed text, whatever happens
    afterwards. *)
Theorem view_keeps_file :
  (forall env fuel index q c s,
      config_file (snd (HackerNews.view env fuel index q c s)) = config_file s)
  /\ (forall env fuel index q c s content,
         HackerNews.read_item_ids env s = (Ok content, s) ->
         item_ids (snd (HackerNews.view env fuel index q c s))
         = HackerNews.parse_item_ids content).
Proof.
  split.
  - intros env fuel index q c s.
    apply (keeps_view same_file);
      [ intros s0; reflexivity | exact same_file_trans
      | intros s0 out reqs; reflexivity | intros s0 ids; reflexivity ].
  - intros env fuel index q c s content Hread.
    rewrite (view_loaded env fuel index q c s content Hread).
    assert (Hkeep : keeps same_index
                      (try_except
                         (id <- lift_outcome
                                  (PyList.getitem
                                     (HackerNews.parse_item_ids content)
                                     (index - 1)) ;;
                          open_item env fuel q c id)
                         report)).
    { apply keeps_try_except; try exact same_index_trans.
      - apply keeps_bind; try exact same_index_trans.
        + apply keeps_lift_outcome. exact same_index_refl.
        + intros id.
          apply keeps_open_item;
            [exact same_index_refl | exact same_index_trans
             | exact same_index_log].
      - intros e. apply keeps_click_secho. exact same_index_log. }
    destruct (Hkeep (loaded s content)) as [Hids _]. exact Hids.
Qed.

(** X3: nothing written to the terminal or requested from the remote
    source is ever taken back by [print_comments], [view] or [print_items],
    also when they fail; and [print_items] only appends to the index. *)
Theorem logs_only_grow :
  (forall env fuel item q depth s,
      log_grows s (snd (HackerNews.print_comments env fuel item q depth s)))
  /\ (forall env fuel index q c s,
         log_grows s (snd (HackerNews.view env fuel index q c s)))
  /\ (forall env message ids s,
         log_grows s (snd (HackerNews.print_items env message ids s))
         /\ index_grows s (snd (HackerNews.print_items env message ids s))).
Proof.
  assert (Hset : forall s ids,
             log_grows s (mkState ids (config_file s) (terminal s) (requests s))).
  { intros s ids. split; exists []; simpl; rewrite app_nil_r; reflexivity. }
  split; [| split].
  - intros env fuel item q depth s.
    apply (keeps_print_comments log_grows);
      [exact log_grows_refl | exact log_grows_trans | exact log_grows_log].
  - intros env fuel index q c s.
    apply (keeps_view log_grows);
      [ exact log_grows_refl | exact log_grows_trans | exact log_grows_log
      | exact Hset ].
  - intros env message ids s. split.
    + apply (keeps_print_items log_grows);
        [ exact log_grows_refl | exact log_grows_trans | exact log_grows_log
        | | ].
      * intros s0 id. split; exists []; simpl; rewrite app_nil_r; reflexivity.
      * intros s0 content. split; exists []; simpl; rewrite app_nil_r;
          reflexivity.
    + apply (keeps_print_items index_grows);
        [exact index_grows_refl | exact index_grows_trans | | | ].
      * intros s0 out reqs. exists []. simpl. rewrite app_nil_r. reflexivity.
      * intros s0 id. exists [id]. reflexivity.
      * intros s0 content. exists []. simpl. rewrite app_nil_r. reflexivity.
Qed.

(** ** [view] at its boundary *)

(** X4: no exception leaves [view]: it returns, unless the traversal
    exhausts the bound of the model. *)
Theorem view_never_raises :
  forall env fuel index q c s,
    fst (HackerNews.view env fuel index q c s) = Ok tt
    \/ fst (HackerNews.view env fuel index q c s) = OutOfFuel.
Proof.
  intros env fuel index q c s. unfold HackerNews.view, try_except.
  match goal with
  | |- context [match ?m s with _ => _ end] => destruct (m s) as [[[] | e |] s1]
  end; simpl; auto.
Qed.

Lemma view_unread env fuel index q c s e :
  HackerNews.read_item_ids env s = (Raise e, s) ->
  HackerNews.view env fuel index q c s
  = (Ok tt, logged s [error_line e] []).
Proof.
  intros Hread. unfold HackerNews.view, try_except.
  rewrite (bind_raise _ _ s e s Hread).
  unfold click_secho, logged, error_line. rewrite app_nil_r. reflexivity.
Qed.

(** X5: when the configuration cannot be read, [view] writes the one
    line "Error: " followed by the message of the exception and does
    nothing else: the index is untouched and nothing is requested.  A
    missing file gives the message of [IOError] with the path, an empty file
    "No section: 'hncli'", a section without the key "No option 'item_ids'
    in section: 'hncli'". *)
Theorem view_unreadable_config :
  (forall env fuel index q c s e,
      HackerNews.read_item_ids env s = (Raise e, s) ->
      HackerNews.view env fuel index q c s
      = (Ok tt, logged s [error_line e] []))
  /\ (forall env fuel index q c s,
         config_file s = None ->
         HackerNews.view env fuel index q c s
         = (Ok tt,
            logged s
                   [error_line
                      (Exc IOError
                           ("[Errno 2] No such file or directory: "
                              ++ PyList.repr_str
                                   (HackerNews._config env HackerNews.CONFIG)))]
                   []))
  /\ (forall env fuel index q c s,
         config_file s = Some EmptyString ->
         HackerNews.view env fuel index q c s
         = (Ok tt,
            logged s [error_line (Exc NoSectionError "No section: 'hncli'")] []))
  /\ (forall env fuel index q c s,
         config_file s = Some ("[hncli]" ++ Py.nl) ->
         HackerNews.view env fuel index q c s
         = (Ok tt,
            logged s
                   [error_line
                      (Exc NoOptionError
                           "No option 'item_ids' in section: 'hncli'")]
                   [])).
Proof.
  split; [| split; [| split]].
  - apply view_unread.
  - intros env fuel index q c s Hfile. apply view_unread.
    unfold HackerNews.read_item_ids. rewrite Hfile. reflexivity.
  - intros env fuel index q c s Hfile. apply view_unread.
    unfold HackerNews.read_item_ids. rewrite Hfile. reflexivity.
  - intros env fuel index q c s Hfile. apply view_unread.
    unfold HackerNews.read_item_ids. rewrite Hfile. reflexivity.
Qed.

Lemma view_unreadable_config_witness :
  HackerNews.view Demo.env 3%nat 1 EmptyString true (HackerNews.init None)
  = (Ok tt,
     logged (HackerNews.init None)
            [Secho ("Error: [Errno 2] No such file or directory: "
                      ++ "'/home/user/.hncliconfig'") true "red"]
            [])
  /\ HackerNews.view Demo.env 3%nat 1 EmptyString true
       (HackerNews.init (Some EmptyString))
     = (Ok tt,
        logged (HackerNews.init (Some EmptyString))
               [Secho "Error: No section: 'hncli'" true "red"] [])
  /\ HackerNews.view Demo.env 3%nat 1 EmptyString true
       (HackerNews.init (Some ("[hncli]" ++ Py.nl)))
     = (Ok tt,
        logged (HackerNews.init (Some ("[hncli]" ++ Py.nl)))
               [Secho "Error: No option 'item_ids' in section: 'hncli'"
                      true "red"] [])
  /\ HackerNews.view Demo.env 3%nat 1 EmptyString true
       (HackerNews.init (Some ("item_ids = [1]" ++ Py.nl)))
     = (Ok tt,
        logged (HackerNews.init (Some ("item_ids = [1]" ++ Py.nl)))
               [error_line
                  (Exc MissingSectionHeaderError
                       ("File contains no section headers." ++ Py.nl
                          ++ "file: /home/user/.hncliconfig, line: 1" ++ Py.nl
                          ++ "'item_ids = [1]\n'"))]
               []).
Proof.
  destruct view_unreadable_config as [Hany [Hmissing [Hempty Hkey]]].
  split; [| split; [| split]].
  - apply (Hmissing Demo.env). reflexivity.
  - apply (Hempty Demo.env). reflexivity.
  - apply (Hkey Demo.env). reflexivity.
  - apply (Hany Demo.env). reflexivity.
Defined.

(** X6: when the remote source fails for the identifier at the chosen
    position, [view] has made that one request and writes the error line
    only. *)
Theorem view_fetch_failure :
  forall env fuel index q c s content id e,
    HackerNews.read_item_ids env s = (Ok content, s) ->
    PyList.getitem (HackerNews.parse_item_ids content) (index - 1) = Ok id ->
    get_item env id = inl e ->
    HackerNews.view env fuel index q c s
    = (Ok tt, logged (loaded s content) [error_line e] [id]).
Proof.
  intros env fuel index q c s content id e Hread Hget Hfetch.
  rewrite (view_loaded env fuel index q c s content Hread).
  unfold try_except, bind, lift_outcome. rewrite Hget.
  unfold open_item, bind, HackerNews.api_get_item. rewrite Hfetch.
  reflexivity.
Qed.

Lemma view_fetch_failure_witness :
  let s := HackerNews.init (Some (saved_text [IdInt 5])) in
  HackerNews.view Demo.env 3%nat 1 EmptyString true s
  = (Ok tt,
     logged (loaded s "[5]")
            [Secho "Error: no such item: 5" true "red"] [IdStr "5"]).
Proof.
  intros s.
  apply (view_fetch_failure Demo.env 3%nat 1 EmptyString true s "[5]"
                            (IdStr "5")
                            (Exc CollaboratorError "no such item: 5"));
    reflexivity.
Defined.

Ltac enter_open_item Hread Hget Hfetch :=
  match type of Hread with
  | HackerNews.read_item_ids ?env ?s = (Ok ?content, ?s) =>
      match goal with
      | |- HackerNews.view env ?fuel ?index ?q ?c s = _ =>
          rewrite (view_loaded env fuel index q c s content Hread);
          unfold try_except, bind at 1, lift_outcome; rewrite Hget;
          unfold open_item, bind at 1, HackerNews.api_get_item;
          rewrite Hfetch; cbn [lift ret]
      end
  end.

(** X7: without the comments flag [view] announces the link of the item
    and pages the text fetched for the converter address followed by the
    quoted link; when that fetch fails the announcement is followed by the
    error line; an item without a link gives the error line of the
    [TypeError] and no announcement. *)
Theorem view_page :
  (forall env fuel index q s content id item link page,
      HackerNews.read_item_ids env s = (Ok content, s) ->
      PyList.getitem (HackerNews.parse_item_ids content) (index - 1) = Ok id ->
      get_item env id = inr item ->
      url item = Some link ->
      requests_get env (HackerNews.URL_W3_HTML_TEXT ++ quote env link)
      = inr page ->
      HackerNews.view env fuel index q false s
      = (Ok tt,
         logged (loaded s content)
                [Secho ("Opening " ++ link ++ "...") true "blue";
                 EchoViaPager page]
                [id]))
  /\ (forall env fuel index q s content id item link e,
         HackerNews.read_item_ids env s = (Ok content, s) ->
         PyList.getitem (HackerNews.parse_item_ids content) (index - 1) = Ok id ->
         get_item env id = inr item ->
         url item = Some link ->
         requests_get env (HackerNews.URL_W3_HTML_TEXT ++ quote env link)
         = inl e ->
         HackerNews.view env fuel index q false s
         = (Ok tt,
            logged (loaded s content)
                   [Secho ("Opening " ++ link ++ "...") true "blue";
                    error_line e]
                   [id]))
  /\ (forall env fuel index q s content id item,
         HackerNews.read_item_ids env s = (Ok content, s) ->
         PyList.getitem (HackerNews.parse_item_ids content) (index - 1) = Ok id ->
         get_item env id = inr item ->
         url item = None ->
         HackerNews.view env fuel index q false s
         = (Ok tt,
            logged (loaded s content)
                   [error_line
                      (Exc TypeError
                           "cannot concatenate 'str' and 'NoneType' objects")]
                   [id])).
Proof.
  split; [| split].
  - intros env fuel index q s content id item link page
           Hread Hget Hfetch Hurl Hpage.
    enter_open_item Hread Hget Hfetch.
    unfold HackerNews.print_url_contents, bind, str_plus, ret, click_secho.
    rewrite Hurl. cbv beta iota.
    rewrite Hpage. unfold logged, error_line, report, click_secho. simpl.
    rewrite <- ?app_assoc. reflexivity.
  - intros env fuel index q s content id item link e
           Hread Hget Hfetch Hurl Hpage.
    enter_open_item Hread Hget Hfetch.
    unfold HackerNews.print_url_contents, bind, str_plus, ret, click_secho.
    rewrite Hurl. cbv beta iota.
    rewrite Hpage. unfold logged, error_line, report, click_secho. simpl.
    rewrite <- ?app_assoc. reflexivity.
  - intros env fuel index q s content id item Hread Hget Hfetch Hurl.
    enter_open_item Hread Hget Hfetch.
    unfold bind. rewrite Hurl. reflexivity.
Qed.

Lemma view_page_witness :
  let s := HackerNews.init (Some (saved_text [IdInt 42; IdInt 7])) in
  HackerNews.view Demo.env 3%nat 1 EmptyString false s
  = (Ok tt,
     logged (loaded s "[42, 7]")
            [Secho "Opening http://www.example.com/a..." true "blue";
             EchoViaPager
               ("text of https://www.w3.org/services/html2txt?url="
                  ++ "http://www.example.com/a")]
            [IdStr "42"])
  /\ HackerNews.view Worlds.strict 3%nat 1 EmptyString false s
     = (Ok tt,
        logged (loaded s "[42, 7]")
               [Secho "Opening http://www.example.com/a..." true "blue";
                Secho "Error: connection refused" true "red"]
               [IdStr "42"])
  /\ HackerNews.view Demo.env 3%nat 2 EmptyString false s
     = (Ok tt,
        logged (loaded s "[42, 7]")
               [Secho "Error: cannot concatenate 'str' and 'NoneType' objects"
                      true "red"]
               [IdStr "7"]).
Proof.
  intros s. destruct view_page as [Hpage [Hfail Hnone]].
  split; [| split].
  - apply (Hpage Demo.env 3%nat 1 EmptyString s "[42, 7]" (IdStr "42")
                 Demo.story42 "http://www.example.com/a");
      reflexivity.
  - apply (Hfail Worlds.strict 3%nat 1 EmptyString s "[42, 7]" (IdStr "42")
                 Demo.story42 "http://www.example.com/a"
                 (Exc CollaboratorError "connection refused"));
      reflexivity.
  - apply (Hnone Demo.env 3%nat 2 EmptyString s "[42, 7]" (IdStr "7")
                 Demo.story7);
      reflexivity.
Defined.

(** X8: with the comments flag, for an item whose comment tree the remote
    source serves, [view] requests the item, writes "Fetching Comments from"
    with the address of the post, and then the renderings of the traversal,
    the requests following in pre-order. *)
Theorem view_comments :
  forall env fuel index q s content id t,
    HackerNews.read_item_ids env s = (Ok content, s) ->
    PyList.getitem (HackerNews.parse_item_ids content) (index - 1) = Ok id ->
    get_item env id = inr (root t) ->
    (height t <= fuel)%nat ->
    served env t ->
    well_signed (preorder 0 t) ->
    valid_query env q ->
    HackerNews.view env fuel index q true s
    = (Ok tt,
       logged (loaded s content)
              (Secho ("Fetching Comments from " ++ HackerNews.URL_POST
                        ++ Py.str_int (item_id (root t))) true "blue"
                 :: List.flat_map (rendering env)
                      (List.filter (shown env q) (preorder 0 t)))
              (id :: List.map request_of (List.tl (preorder 0 t)))).
Proof.
  intros env fuel index q s content id t Hread Hget Hfetch Hh Hserved Hsigned Hq.
  enter_open_item Hread Hget Hfetch.
  unfold bind at 1, click_secho.
  rewrite (walk_ok env fuel t q 0 _ Hh Hserved Hsigned Hq).
  unfold logged, shown_of. simpl.
  rewrite <- !app_assoc. destruct t as [item cs]. reflexivity.
Qed.

Lemma view_comments_witness :
  let s := HackerNews.init (Some (saved_text [IdInt 42; IdInt 7])) in
  HackerNews.view Demo.env 3%nat 1 "reply" true s
  = (Ok tt,
     logged (loaded s "[42, 7]")
            (Secho "Fetching Comments from https://news.ycombinator.com/item?id=42"
                   true "blue"
               :: List.flat_map (rendering Demo.env)
                    (List.filter (shown Demo.env "reply")
                                 (preorder 0 Demo.treeA)))
            (IdStr "42" :: List.map request_of (List.tl (preorder 0 Demo.treeA)))).
Proof.
  intros s.
  apply (view_comments Demo.env 3%nat 1 "reply" s "[42, 7]" (IdStr "42")
                       Demo.treeA).
  - reflexivity.
  - reflexivity.
  - reflexivity.
  - simpl. lia.
  - exact served_treeA.
  - exact well_signed_treeA.
  - intros _. reflexivity.
Defined.

Lemma numbered_nth items :
  forall start i item,
    nth_error items i = Some item ->
    nth_error (numbered start items) i = Some (start + Z.of_nat i, item).
Proof.
  induction items as [| x items IH]; intros start i item H.
  - destruct i; discriminate H.
  - destruct i as [| i]; simpl in *.
    + inversion H. rewrite Z.add_0_r. reflexivity.
    + rewrite (IH (start + 1) i item H). f_equal. f_equal. lia.
Qed.

(** X9: the number beside a row opens the item of that row: after a
    listing by a new object, [view] with the number [k] of a row, run by
    another object on the file the listing saved, first requests the
    identifier of the item rendered in row [k]. *)
Theorem listed_number_opens_item :
  forall env env' message ids items file fuel q c k,
    Forall2 (fun id item => get_item env id = inr item) ids items ->
    Forall (renderable env) (List.filter HackerNews.has_title items) ->
    let rendered := List.filter HackerNews.has_title items in
    1 <= k <= Z.of_nat (List.length rendered) ->
    let s := snd (HackerNews.print_items env message ids (HackerNews.init file)) in
    exists item rest,
      nth_error (numbered 1 rendered) (Z.to_nat (k - 1)) = Some (k, item)
      /\ requests (snd (HackerNews.view env' fuel k q c
                          (HackerNews.init (config_file s))))
         = IdStr (Py.str_int (item_id item)) :: rest.
Proof.
  intros env env' message ids items file fuel q c k Hfetch Hrender rendered Hk s.
  destruct (nth_error rendered (Z.to_nat (k - 1))) as [item |] eqn:Enth.
  2: { apply nth_error_None in Enth. lia. }
  assert (Hfile : config_file s
                  = Some (saved_text (List.map IdInt (List.map item_id rendered)))).
  { subst s.
    rewrite (print_items_ok env message ids items _ Hfetch Hrender).
    simpl. rewrite map_map. reflexivity. }
  assert (Hne : List.map item_id rendered <> []).
  { destruct rendered; [simpl in Hk; lia | discriminate]. }
  destruct (view_saved env' (List.map item_id rendered) (config_file s)
                       fuel k q c Hne Hfile) as [rest Hrest].
  { rewrite length_map. exact Hk. }
  exists item, rest. split.
  - rewrite (numbered_nth rendered 1 _ item Enth). f_equal. f_equal. lia.
  - rewrite Hrest. f_equal. f_equal. f_equal.
    apply nth_error_nth. rewrite nth_error_map, Enth. reflexivity.
Qed.

Lemma listed_number_opens_item_witness :
  let s := snd (HackerNews.print_items Demo.env "Top"
                  [IdInt 42; IdInt 99; IdInt 7] (HackerNews.init None)) in
  exists item rest,
    nth_error (numbered 1 [Demo.story42; Demo.story7]) (Z.to_nat (2 - 1))
    = Some (2, item)
    /\ requests (snd (HackerNews.view Worlds.strict 3%nat 2 EmptyString true
                        (HackerNews.init (config_file s))))
       = IdStr (Py.str_int (item_id item)) :: rest.
Proof.
  intros s.
  apply (listed_number_opens_item Demo.env Worlds.strict "Top"
           [IdInt 42; IdInt 99; IdInt 7]
           [Demo.story42; Demo.untitled99; Demo.story7] None 3%nat
           EmptyString true 2).
  - repeat constructor.
  - simpl. repeat constructor; apply renderable_demo; discriminate.
  - simpl. lia.
Defined.

(** ** Failures inside the traversal *)

Lemma for_each_app {A S : Type} (body : A -> S -> M S) l1 :
  forall l2 acc s,
    for_each (l1 ++ l2) acc body s
    = bind (for_each l1 acc body) (fun acc' => for_each l2 acc' body) s.
Proof.
  induction l1 as [| x l1 IH]; intros l2 acc s.
  - reflexivity.
  - simpl.
    change (bind (bind (body x acc) (fun acc' => for_each l1 acc' body))
                 (fun acc' => for_each l2 acc' body) s)
      with (match bind (body x acc) (fun acc' => for_each l1 acc' body) s with
            | (Ok a, s') => for_each l2 a body s'
            | (Raise e, s') => (Raise e, s')
            | (OutOfFuel, s') => (OutOfFuel, s')
            end).
    unfold bind at 1 2.
    destruct (body x acc s) as [[acc' | e |] s1]; try reflexivity.
    rewrite IH. reflexivity.
Qed.

Section Children.

Variable env : Env.

Lemma descend_ok fuel q depth c s :
  (height c <= fuel)%nat ->
  get_item env (IdInt (item_id (root c))) = inr (root c) ->
  served env c ->
  well_signed (preorder (depth + 1) c) ->
  valid_query env q ->
  descend env fuel q (item_id (root c)) depth s
  = (Ok depth,
     logged s (shown_of env q (preorder (depth + 1) c))
            (List.map request_of (preorder (depth + 1) c))).
Proof.
  intros Hh Hf Hs Hsg Hq. unfold descend.
  rewrite (bind_ok _ _ s (root c) (logged s [] [request_of (root c, depth + 1)])).
  2: { unfold HackerNews.api_get_item. rewrite Hf.
       unfold logged. simpl. rewrite app_nil_r. reflexivity. }
  cbv zeta.
  rewrite (bind_ok _ _ _ tt _ (walk_ok env fuel c q (depth + 1) _ Hh Hs Hsg Hq)).
  unfold ret. rewrite logged_logged. simpl app.
  replace (depth + 1 - 1) with depth by lia.
  destruct c as [ci ccs]. reflexivity.
Qed.

Lemma children_ok fuel q depth cs :
  forall s,
    Forall (fun c => (height c <= fuel)%nat) cs ->
    Forall (fun c => get_item env (IdInt (item_id (root c))) = inr (root c)) cs ->
    Forall (served env) cs ->
    well_signed (List.flat_map (preorder (depth + 1)) cs) ->
    valid_query env q ->
    for_each (List.map (fun c => item_id (root c)) cs) depth (descend env fuel q) s
    = (Ok depth,
       logged s (shown_of env q (List.flat_map (preorder (depth + 1)) cs))
              (List.map request_of (List.flat_map (preorder (depth + 1)) cs))).
Proof.
  induction cs as [| c cs IH]; intros s Hhs Hfs Hss Hsg Hq.
  - simpl. unfold ret, shown_of. simpl. rewrite logged_nil. reflexivity.
  - apply Forall_cons_iff in Hhs. destruct Hhs as [Hhc Hhs].
    apply Forall_cons_iff in Hfs. destruct Hfs as [Hfc Hfs].
    apply Forall_cons_iff in Hss. destruct Hss as [Hsc Hss].
    simpl flat_map in Hsg. unfold well_signed in Hsg.
    apply Forall_app in Hsg. destruct Hsg as [Hsgc Hsgs].
    simpl map. simpl for_each.
    rewrite (bind_ok _ _ _ _ _ (descend_ok fuel q depth c s Hhc Hfc Hsc Hsgc Hq)).
    rewrite (IH _ Hhs Hfs Hss Hsgs Hq).
    rewrite logged_logged. simpl flat_map.
    rewrite shown_of_app, map_app. reflexivity.
Qed.

End Children.

(** X10: a child that cannot be fetched aborts the traversal with the
    exception of the remote source: the node and the subtrees of the
    children before it have been rendered and stay on the terminal, the
    failed request is the last one, and the children after it are never
    requested. *)
Theorem traversal_aborts_at_failed_fetch :
  forall env fuel q depth s item before missing after e,
    kids item
    = Some (List.map (fun c => item_id (root c)) before ++ missing :: after)%list ->
    signed item ->
    valid_query env q ->
    Forall (fun c => (height c <= fuel)%nat) before ->
    Forall (fun c => get_item env (IdInt (item_id (root c))) = inr (root c))
           before ->
    Forall (served env) before ->
    well_signed (List.flat_map (preorder (depth + 1)) before) ->
    get_item env (IdInt missing) = inl e ->
    HackerNews.print_comments env (S fuel) item q depth s
    = (Raise e,
       logged s
              (List.flat_map (rendering env)
                 (List.filter (shown env q)
                    ((item, depth)
                       :: List.flat_map (preorder (depth + 1)) before)))
              (List.map request_of (List.flat_map (preorder (depth + 1)) before)
                 ++ [IdInt missing])).
Proof.
  intros env fuel q depth s item before missing after e
         Hkids Hitem Hq Hhs Hfs Hss Hsg Hmiss.
  rewrite print_comments_step.
  rewrite (bind_ok _ _ _ tt _ (visit_ok env item q depth s Hitem Hq)).
  rewrite Hkids. clear Hkids.
  assert (Hne : exists k ks,
             (List.map (fun c => item_id (root c)) before ++ missing :: after)%list
             = k :: ks).
  { destruct before; simpl; eauto. }
  destruct Hne as [k [ks El]]. rewrite El. cbv iota beta. rewrite <- El.
  clear El k ks.
  apply bind_raise.
  rewrite for_each_app.
  rewrite (bind_ok _ _ _ _ _
             (children_ok env fuel q depth before _ Hhs Hfs Hss Hsg Hq)).
  simpl for_each. apply bind_raise. unfold descend. 
  rewrite (bind_raise _ _ _ e
             (logged (logged (logged s (if shown env q (item, depth)
                                        then rendering env (item, depth) else [])
                                     [])
                             (shown_of env q
                                (List.flat_map (preorder (depth + 1)) before))
                             (List.map request_of
                                (List.flat_map (preorder (depth + 1)) before)))
                     [] [IdInt missing])).
  2: { unfold HackerNews.api_get_item. rewrite Hmiss.
       unfold logged. simpl. rewrite !app_nil_r. reflexivity. }
  rewrite !logged_logged. rewrite !app_nil_r. simpl app.
  fold (shown_of env q ((item, depth) :: List.flat_map (preorder (depth + 1)) before)).
  rewrite shown_of_cons. reflexivity.
Qed.

Lemma traversal_aborts_at_failed_fetch_witness :
  HackerNews.print_comments Demo.env 3%nat Worlds.orphaned EmptyString 0
    (HackerNews.init None)
  = (Raise (Exc CollaboratorError "no such item: 999"),
     logged (HackerNews.init None)
            (rendering Demo.env (Worlds.orphaned, 0)
               ++ rendering Demo.env (Demo.commentB, 1)
               ++ rendering Demo.env (Demo.commentD, 2))
            [IdInt 100; IdInt 102; IdInt 999]).
Proof.
  apply (traversal_aborts_at_failed_fetch
           Demo.env 2%nat EmptyString 0 (HackerNews.init None) Worlds.orphaned
           [Node Demo.commentB [Node Demo.commentD []]] 999 [101]
           (Exc CollaboratorError "no such item: 999")).
  - reflexivity.
  - intros _. discriminate.
  - intros H. discriminate H.
  - repeat constructor.
  - repeat constructor.
  - repeat constructor.
  - unfold well_signed. simpl.
    repeat (constructor; [intros _; discriminate |]). constructor.
  - reflexivity.
Defined.


Lemma regex_match_bad_pattern env item q s e :
  re_error env q = Some e ->
  HackerNews.regex_match env item q s = (Raise e, s).
Proof.
  intros He. unfold HackerNews.regex_match, HackerNews.re_search, bind.
  rewrite He. reflexivity.
Qed.

Lemma regex_match_absent env item q s :
  re_error env q = None ->
  by_ item = None \/ text item = None ->
  HackerNews.regex_match env item q s
  = (Raise (Exc TypeError "expected string or buffer"), s).
Proof.
  intros Hq Habsent.
  unfold HackerNews.regex_match, HackerNews.re_search, bind.
  rewrite Hq.
  destruct (by_ item) as [author |]; [| reflexivity].
  destruct Habsent as [H | H]; [discriminate H |].
  rewrite H. reflexivity.
Qed.

Lemma any_body_app l1 l2 :
  any_body (l1 ++ l2) = (any_body l1 || any_body l2)%bool.
Proof. apply existsb_app. Qed.

Lemma up_to_first_body_app l1 l2 :
  up_to_first_body (l1 ++ l2)
  = if any_body l1 then up_to_first_body l1
    else (l1 ++ up_to_first_body l2)%list.
Proof.
  induction l1 as [| node l1 IH]; [reflexivity |].
  unfold any_body in *. cbn [app up_to_first_body existsb].
  destruct (has_text (fst node)); [reflexivity |].
  cbn [orb]. rewrite IH.
  destruct (existsb (fun node0 => has_text (fst node0)) l1); reflexivity.
Qed.

Section BadPattern.

Variable env : Env.
Variable q : string.
Variable e : exception.
Hypothesis q_given : Py.truthy q = true.
Hypothesis q_bad : re_error env q = Some e.

Lemma visit_bad_pattern item depth s body :
  text item = Some body ->
  visit env item q depth s = (Raise e, s).
Proof.
  intros Htext. unfold visit. rewrite Htext, q_given.
  apply bind_raise. apply bind_raise.
  apply regex_match_bad_pattern. exact q_bad.
Qed.

Lemma visit_no_body item depth s :
  text item = None ->
  visit env item q depth s = (Ok tt, s).
Proof. intros Htext. unfold visit. rewrite Htext. reflexivity. Qed.

(** The traversal of a served tree under a pattern that does not compile:
    it stops at the first node with a body, and completes when there is
    none. *)
Lemma walk_bad_pattern fuel :
  forall t depth s,
    (height t <= fuel)%nat ->
    served env t ->
    HackerNews.print_comments env fuel (root t) q depth s
    = if any_body (preorder depth t)
      then (Raise e,
            logged s []
                   (List.map request_of
                             (List.tl (up_to_first_body (preorder depth t)))))
      else (Ok tt,
            logged s [] (List.map request_of (List.tl (preorder depth t)))).
Proof.
  induction fuel as [| fuel IH]; intros t depth s Hh Hserved.
  - destruct t; simpl in Hh; lia.
  - destruct t as [item cs]. simpl root.
    simpl in Hh. apply le_S_n in Hh.
    inversion Hserved as [item' cs' Hkids Hfetch Hsub]; subst item' cs'.
    assert (Hheights : Forall (fun c => (height c <= fuel)%nat) cs).
    { apply Forall_forall. intros c Hin.
      apply (in_map height) in Hin.
      pose proof (proj1 (list_max_le (List.map height cs) _) Hh) as Hall.
      rewrite Forall_forall in Hall. apply Hall. exact Hin. }
    assert (Hloop :
              forall cs0 s0,
                Forall (fun c => (height c <= fuel)%nat) cs0 ->
                Forall (fun c => get_item env (IdInt (item_id (root c)))
                                 = inr (root c)) cs0 ->
                Forall (served env) cs0 ->
                for_each (List.map (fun c => item_id (root c)) cs0) depth
                         (descend env fuel q) s0
                = if any_body (List.flat_map (preorder (depth + 1)) cs0)
                  then (Raise e,
                        logged s0 []
                               (List.map request_of
                                  (up_to_first_body
                                     (List.flat_map (preorder (depth + 1)) cs0))))
                  else (Ok depth,
                        logged s0 []
                               (List.map request_of
                                  (List.flat_map (preorder (depth + 1)) cs0)))).
    { induction cs0 as [| c cs0 IHcs]; intros s0 Hhs Hfs Hss.
      - simpl. unfold ret. rewrite logged_nil. reflexivity.
      - apply Forall_cons_iff in Hhs. destruct Hhs as [Hhc Hhs].
        apply Forall_cons_iff in Hfs. destruct Hfs as [Hfc Hfs].
        apply Forall_cons_iff in Hss. destruct Hss as [Hsc Hss].
        simpl map. simpl for_each. simpl flat_map.
        rewrite any_body_app, up_to_first_body_app.
        pose proof (IH c (depth + 1)
                       (logged s0 [] [request_of (root c, depth + 1)]) Hhc Hsc)
          as Hc.
        assert (Hhead : forall l,
                   (request_of (root c, depth + 1)
                      :: List.map request_of (List.tl l))
                   = List.map request_of ((root c, depth + 1) :: List.tl l)).
        { reflexivity. }
        assert (Hpre : preorder (depth + 1) c
                       = (root c, depth + 1) :: List.tl (preorder (depth + 1) c)).
        { destruct c as [ci ccs]. reflexivity. }
        assert (Hupto : up_to_first_body (preorder (depth + 1) c)
                        = (root c, depth + 1)
                            :: List.tl (up_to_first_body (preorder (depth + 1) c))).
        { destruct c as [ci ccs]. simpl.
          destruct (has_text ci); reflexivity. }
        destruct (any_body (preorder (depth + 1) c)) eqn:Hany.
        + cbn [orb]. apply bind_raise. unfold descend.
          rewrite (bind_ok _ _ s0 (root c)
                           (logged s0 [] [request_of (root c, depth + 1)])).
          2: { unfold HackerNews.api_get_item. rewrite Hfc.
               unfold logged. simpl. rewrite app_nil_r. reflexivity. }
          cbv zeta. apply bind_raise. rewrite Hc.
          rewrite logged_logged. simpl app. rewrite Hhead, <- Hupto.
          reflexivity.
        + cbn [orb].
          rewrite (bind_ok _ _ s0 depth
                           (logged s0 []
                                   (List.map request_of (preorder (depth + 1) c)))).
          2: { unfold descend.
               rewrite (bind_ok _ _ s0 (root c)
                                (logged s0 [] [request_of (root c, depth + 1)])).
               2: { unfold HackerNews.api_get_item. rewrite Hfc.
                    unfold logged. simpl. rewrite app_nil_r. reflexivity. }
               cbv zeta. rewrite (bind_ok _ _ _ tt _ Hc).
               unfold ret. rewrite logged_logged. simpl app.
               rewrite Hhead, <- Hpre.
               replace (depth + 1 - 1) with depth by lia. reflexivity. }
          rewrite (IHcs _ Hhs Hfs Hss).
          destruct (any_body (List.flat_map (preorder (depth + 1)) cs0));
            rewrite logged_logged, map_app; reflexivity. }
    rewrite print_comments_step.
    simpl preorder. unfold any_body. cbn [existsb up_to_first_body fst].
    fold (any_body (List.flat_map (preorder (depth + 1)) cs)).
    unfold has_text at 1 2.
    destruct (text item) as [body |] eqn:Htext.
    + cbn [orb tl map]. rewrite logged_nil. apply bind_raise.
      apply (visit_bad_pattern item depth s body Htext).
    + cbn [orb tl].
      rewrite (bind_ok _ _ _ tt _ (visit_no_body item depth s Htext)).
      unfold kids_are in Hkids.
      destruct (kids item) as [ids |] eqn:Ek.
      * subst ids. destruct cs as [| c cs].
        -- simpl. unfold ret. rewrite logged_nil. reflexivity.
        -- change (List.map (fun c0 => item_id (root c0)) (c :: cs))
             with (item_id (root c)
                     :: List.map (fun c0 => item_id (root c0)) cs).
           cbv iota beta.
           change (item_id (root c)
                     :: List.map (fun c0 => item_id (root c0)) cs)
             with (List.map (fun c0 => item_id (root c0)) (c :: cs)).
           pose proof (Hloop (c :: cs) s Hheights Hfetch Hsub) as Hl.
           destruct (any_body (List.flat_map (preorder (depth + 1)) (c :: cs))).
           ++ apply bind_raise. exact Hl.
           ++ rewrite (bind_ok _ _ _ depth _ Hl). reflexivity.
      * subst cs. simpl. unfold ret. rewrite logged_nil. reflexivity.
Qed.

End BadPattern.

(** X12: [regex_match] raises the error of a pattern that does not
    compile, and a [TypeError] when the author or the body is absent.  In
    the traversal of a served tree a non-empty pattern that does not
    compile raises at the first node, in pre-order, that has a body:
    nothing is written, the nodes up to that one have been requested and
    the nodes after it have not.  When the item passed in has a body itself,
    nothing is written or requested at all. *)
Theorem filter_errors :
  (forall env item q s e,
      re_error env q = Some e ->
      HackerNews.regex_match env item q s = (Raise e, s))
  /\ (forall env item q s,
         re_error env q = None ->
         by_ item = None \/ text item = None ->
         HackerNews.regex_match env item q s
         = (Raise (Exc TypeError "expected string or buffer"), s))
  /\ (forall env fuel t q depth s e,
         Py.truthy q = true ->
         re_error env q = Some e ->
         (height t <= fuel)%nat ->
         served env t ->
         any_body (preorder depth t) = true ->
         HackerNews.print_comments env fuel (root t) q depth s
         = (Raise e,
            logged s []
                   (List.map request_of
                      (List.tl (up_to_first_body (preorder depth t))))))
  /\ (forall env fuel item q depth s e body,
         Py.truthy q = true ->
         re_error env q = Some e ->
         text item = Some body ->
         HackerNews.print_comments env (S fuel) item q depth s = (Raise e, s)).
Proof.
  split; [| split; [| split]].
  - intros env item q s e He. apply regex_match_bad_pattern. exact He.
  - intros env item q s Hq Habsent. apply regex_match_absent; assumption.
  - intros env fuel t q depth s e Hq He Hh Hserved Hany.
    rewrite (walk_bad_pattern env q e Hq He fuel t depth s Hh Hserved).
    rewrite Hany. reflexivity.
  - intros env fuel item q depth s e body Hq He Htext.
    rewrite print_comments_step. apply bind_raise.
    apply (visit_bad_pattern env q e Hq He item depth s body Htext).
Qed.

Lemma filter_errors_witness :
  HackerNews.regex_match Worlds.strict Demo.commentB "(" (HackerNews.init None)
  = (Raise (Exc ReError "unbalanced parenthesis"), HackerNews.init None)
  /\ HackerNews.regex_match Worlds.strict Worlds.anonymous "a"
       (HackerNews.init None)
     = (Raise (Exc TypeError "expected string or buffer"), HackerNews.init None)
  /\ HackerNews.print_comments Worlds.strict 3%nat Worlds.link_story "(" 0
       (HackerNews.init None)
     = (Raise (Exc ReError "unbalanced parenthesis"),
        logged (HackerNews.init None) [] [IdInt 8; IdInt 101])
  /\ HackerNews.print_comments Worlds.strict 3%nat Demo.commentA "(" 0
       (HackerNews.init None)
     = (Raise (Exc ReError "unbalanced parenthesis"), HackerNews.init None).
Proof.
  destruct filter_errors as [Hbad [Habsent [Hwalk Hroot]]].
  split; [| split; [| split]].
  - apply Hbad. reflexivity.
  - apply Habsent; [reflexivity | left; reflexivity].
  - apply (Hwalk Worlds.strict 3%nat Worlds.link_tree "(" 0
                 (HackerNews.init None)
                 (Exc ReError "unbalanced parenthesis")).
    + reflexivity.
    + reflexivity.
    + simpl. lia.
    + repeat constructor.
    + reflexivity.
  - apply (Hroot Worlds.strict 2%nat Demo.commentA "(" 0 (HackerNews.init None)
                 (Exc ReError "unbalanced parenthesis") "root text");
      reflexivity.
Defined.

(** ** Failures inside a listing *)

Lemma print_items_loop env message ids s :
  HackerNews.print_items env message ids s
  = (for_each ids 1 (list_item env) ;;;
     HackerNews.save_item_ids ;;;
     click_secho HackerNews.TIP true "blue" ;;;
     click_echo EmptyString)
      (logged s [heading_line message] []).
Proof.
  unfold HackerNews.print_items, bind at 1, click_secho, logged, heading_line.
  rewrite app_nil_r. reflexivity.
Qed.

(** X13: a failed fetch aborts a listing: the rows of the titled items
    before it have been written and their identifiers appended, the failed
    request is the last one, and the configuration file is not written. *)
Theorem listing_aborts_unsaved :
  forall env message before missing after items s e,
    Forall2 (fun id item => get_item env id = inr item) before items ->
    Forall (renderable env) (List.filter HackerNews.has_title items) ->
    get_item env missing = inl e ->
    let rendered := List.filter HackerNews.has_title items in
    HackerNews.print_items env message (before ++ missing :: after) s
    = (Raise e,
       mkState (item_ids s ++ List.map id_of rendered) (config_file s)
               (terminal s
                  ++ heading_line message
                  :: List.flat_map (row env) (numbered 1 rendered))
               (requests s ++ before ++ [missing])).
Proof.
  intros env message before missing after items s e Hfetch Hrender Hmiss rendered.
  rewrite print_items_loop. apply bind_raise.
  rewrite for_each_app.
  rewrite (bind_ok _ _ _ _ _ (listing_loop env before items 1 _ Hfetch Hrender)).
  simpl for_each. apply bind_raise. unfold list_item at 1. apply bind_raise.
  unfold HackerNews.api_get_item. rewrite Hmiss. fold rendered.
  unfold logged. simpl. rewrite !app_nil_r, <- !app_assoc. reflexivity.
Qed.

Lemma listing_aborts_unsaved_witness :
  HackerNews.print_items Demo.env "Top" [IdInt 42; IdInt 99; IdInt 5; IdInt 7]
    (HackerNews.init (Some "old"))
  = (Raise (Exc CollaboratorError "no such item: 5"),
     mkState [IdInt 42] (Some "old")
             (heading_line "Top" :: row Demo.env (1, Demo.story42))
             [IdInt 42; IdInt 99; IdInt 5]).
Proof.
  apply (listing_aborts_unsaved Demo.env "Top" [IdInt 42; IdInt 99] (IdInt 5)
           [IdInt 7] [Demo.story42; Demo.untitled99]
           (HackerNews.init (Some "old"))
           (Exc CollaboratorError "no such item: 5")).
  - repeat constructor.
  - simpl. repeat constructor; apply renderable_demo; discriminate.
  - reflexivity.
Defined.

(** X14: a listing writes the configuration file exactly when it returns:
    then the file holds the index as the object has it; when the listing
    does not return, the file is as it was. *)
Theorem listing_saves_iff_returns :
  forall env message ids s,
    let r := HackerNews.print_items env message ids s in
    (fst r = Ok tt
     /\ config_file (snd r) = Some (saved_text (item_ids (snd r))))
    \/ (fst r <> Ok tt /\ config_file (snd r) = config_file s).
Proof.
  intros env message ids s r. subst r. rewrite print_items_loop.
  pose proof (keeps_listing_loop
                same_file (fun s0 => eq_refl) same_file_trans
                (fun s0 out reqs => eq_refl) env (fun s0 id => eq_refl)
                ids 1 (logged s [heading_line message] [])) as Hloop.
  unfold same_file in Hloop. simpl config_file in Hloop.
  destruct (for_each ids 1 (list_item env) (logged s [heading_line message] []))
    as [[index | e |] s1] eqn:E; simpl snd in Hloop.
  - left. rewrite (bind_ok _ _ _ _ _ E). split; reflexivity.
  - right. rewrite (bind_raise _ _ _ _ _ E).
    split; [discriminate | exact Hloop].
  - right. rewrite (bind_out_of_fuel _ _ _ _ E).
    split; [discriminate | exact Hloop].
Qed.

(** X15: a titled item without an author raises a [TypeError] in the
    middle of its row, after the number, the title, the link and the score,
    and is not appended to the index; a listing that meets such an item
    stops there, with the index and the configuration file as they were. *)
Theorem row_without_author :
  (forall env item index s heading,
      title item = Some heading ->
      by_ item = None ->
      (forall link, url item = Some link -> exists host, netloc env link = inr host) ->
      HackerNews.print_formatted_item env item index s
      = (Raise (Exc TypeError "cannot concatenate 'str' and 'NoneType' objects"),
         logged s
                ([Secho ("  " ++ Py.str_int index ++ ". ") false "magenta";
                  Secho (heading ++ ". ") false "blue"]
                   ++ link_call env item
                   ++ [Secho ("     " ++ Py.str_int (score item) ++ " points ")
                             false "green"])
                []))
  /\ (forall env message id after item s,
         get_item env id = inr item ->
         HackerNews.has_title item = true ->
         by_ item = None ->
         (forall link, url item = Some link -> exists host, netloc env link = inr host) ->
         let s' := snd (HackerNews.print_items env message (id :: after) s) in
         fst (HackerNews.print_items env message (id :: after) s)
         = Raise (Exc TypeError "cannot concatenate 'str' and 'NoneType' objects")
         /\ item_ids s' = item_ids s
         /\ config_file s' = config_file s
         /\ requests s' = (requests s ++ [id])%list).
Proof.
  assert (Hrow : forall env item index s heading,
             title item = Some heading ->
             by_ item = None ->
             (forall link, url item = Some link ->
                           exists host, netloc env link = inr host) ->
             HackerNews.print_formatted_item env item index s
             = (Raise (Exc TypeError
                           "cannot concatenate 'str' and 'NoneType' objects"),
                logged s
                       ([Secho ("  " ++ Py.str_int index ++ ". ") false "magenta";
                         Secho (heading ++ ". ") false "blue"]
                          ++ link_call env item
                          ++ [Secho ("     " ++ Py.str_int (score item)
                                       ++ " points ") false "green"])
                       [])).
  { intros env item index s heading Htitle Hby Hurl.
    unfold HackerNews.print_formatted_item, link_call.
    rewrite Htitle, Hby.
    destruct (url item) as [link |] eqn:Eurl.
    - destruct (Hurl link eq_refl) as [host Ehost]. rewrite Ehost.
      unfold bind, plus_str, str_plus, lift, ret, raise, click_secho, logged.
      simpl. rewrite app_nil_r, <- !app_assoc. reflexivity.
    - unfold bind, plus_str, str_plus, lift, ret, raise, click_secho,
        click_echo, logged.
      simpl. rewrite app_nil_r, <- !app_assoc. reflexivity. }
  split; [exact Hrow |].
  intros env message id after item s Hfetch Htitle Hby Hurl s'.
  destruct (has_title_heading item Htitle) as [heading Eh].
  assert (Hrun : HackerNews.print_items env message (id :: after) s
                 = (Raise (Exc TypeError
                               "cannot concatenate 'str' and 'NoneType' objects"),
                    logged (logged (logged s [heading_line message] []) [] [id])
                           ([Secho ("  " ++ Py.str_int 1 ++ ". ") false "magenta";
                             Secho (heading ++ ". ") false "blue"]
                              ++ link_call env item
                              ++ [Secho ("     " ++ Py.str_int (score item)
                                           ++ " points ") false "green"])
                           [])).
  { rewrite print_items_loop. apply bind_raise. simpl for_each.
    apply bind_raise. unfold list_item.
    rewrite (bind_ok _ _ _ item (logged (logged s [heading_line message] []) [] [id])).
    2: { unfold HackerNews.api_get_item. rewrite Hfetch.
         unfold logged. simpl. rewrite !app_nil_r. reflexivity. }
    rewrite Htitle. apply bind_raise.
    apply (Hrow env item 1 _ heading Eh Hby Hurl). }
  subst s'. rewrite Hrun. simpl. rewrite !app_nil_r.
  repeat split; reflexivity.
Qed.

Lemma row_without_author_witness :
  HackerNews.print_formatted_item Worlds.strict Worlds.anonymous 1
    (HackerNews.init None)
  = (Raise (Exc TypeError "cannot concatenate 'str' and 'NoneType' objects"),
     logged (HackerNews.init None)
            [Secho "  1. " false "magenta"; Secho "Untold. " false "blue";
             Echo EmptyString; Secho "     3 points " false "green"]
            [])
  /\ (let s' := snd (HackerNews.print_items Worlds.strict "Top"
                       [IdInt 55; IdInt 7] (HackerNews.init (Some "old"))) in
      fst (HackerNews.print_items Worlds.strict "Top" [IdInt 55; IdInt 7]
             (HackerNews.init (Some "old")))
      = Raise (Exc TypeError "cannot concatenate 'str' and 'NoneType' objects")
      /\ item_ids s' = []
      /\ config_file s' = Some "old"
      /\ requests s' = [IdInt 55]).
Proof.
  destruct row_without_author as [Hrow Hlist].
  split.
  - apply (Hrow Worlds.strict Worlds.anonymous 1 (HackerNews.init None) "Untold");
      [reflexivity | reflexivity | intros link H; discriminate H].
  - apply (Hlist Worlds.strict "Top" (IdInt 55) [IdInt 7] Worlds.anonymous
                 (HackerNews.init (Some "old")));
      [reflexivity | reflexivity | reflexivity | intros link H; discriminate H].
Defined.

(** ** More on the labels *)

Lemma append_not_empty a c b : a ++ String c b <> EmptyString.
Proof. destruct a; discriminate. Qed.

Lemma table_label_nonempty n : age_label_table n <> EmptyString.
Proof.
  unfold age_label_table. cbv zeta.
  repeat match goal with
         | |- context [if ?b then _ else _] => destruct b
         end;
    first [discriminate | apply append_not_empty].
Qed.

(** X16: the label is empty exactly when the submission time is present
    and lies in the future. *)
Theorem label_empty_iff_future :
  forall now ft dt,
    pretty_date_time now ft dt = EmptyString
    <-> exists t, instant_of ft dt = Some t /\ now - t < 0.
Proof.
  intros now ft dt. split.
  - intros Hempty.
    destruct (instant_of ft dt) as [t |] eqn:Et.
    + exists t. split; [reflexivity |].
      destruct (Z.lt_ge_cases (now - t) 0) as [Hneg | Hpos]; [exact Hneg |].
      exfalso. rewrite (label_of_elapsed now ft dt t Et Hpos) in Hempty.
      exact (table_label_nonempty _ Hempty).
    + destruct dt; try discriminate Et.
      rewrite label_of_none in Hempty. discriminate Hempty.
  - intros [t [Et Hneg]]. apply (label_of_negative now ft dt t Et Hneg).
Qed.

(** ** The host shown in a row *)

Lemma www_prefix c0 c1 c2 rest :
  String.prefix "www" (String c0 (String c1 (String c2 rest)))
  = (Ascii.eqb c0 "w" && Ascii.eqb c1 "w" && Ascii.eqb c2 "w")%bool.
Proof.
  rewrite !prefix_cons, prefix_empty, andb_true_r.
  rewrite (Ascii.eqb_sym "w" c0), (Ascii.eqb_sym "w" c1), (Ascii.eqb_sym "w" c2).
  rewrite andb_assoc. reflexivity.
Qed.

Lemma re_sub_www_cons c0 s1 :
  re_sub_www (String c0 s1)
  = match s1 with
    | String c1 (String c2 (String c3 s4)) =>
        if (Ascii.eqb c0 "w" && Ascii.eqb c1 "w" && Ascii.eqb c2 "w"
            && negb (Ascii.eqb c3 Py.newline))%bool
        then re_sub_www s4
        else String c0 (re_sub_www s1)
    | _ => String c0 (re_sub_www s1)
    end.
Proof. destruct s1 as [| c1 [| c2 [| c3 s4]]]; reflexivity. Qed.

Lemma re_sub_www_without host :
  occurs_in "www" host = false -> re_sub_www host = host.
Proof.
  induction host as [| c0 s1 IH]; intros H; [reflexivity |].
  cbn [occurs_in] in H. apply orb_false_iff in H. destruct H as [Hp Hrest].
  rewrite re_sub_www_cons, (IH Hrest).
  destruct s1 as [| c1 [| c2 [| c3 s4]]]; try reflexivity.
  rewrite www_prefix in Hp. rewrite Hp. reflexivity.
Qed.

Lemma re_sub_www_length n :
  forall host,
    (String.length host <= n)%nat ->
    (String.length (re_sub_www host) <= String.length host)%nat.
Proof.
  induction n as [| n IH]; intros host Hn.
  - destruct host; [simpl; lia | simpl in Hn; lia].
  - destruct host as [| c0 s1]; [simpl; lia |].
    cbn [String.length] in Hn.
    assert (H1 : (String.length (re_sub_www s1) <= String.length s1)%nat)
      by (apply IH; lia).
    rewrite re_sub_www_cons.
    destruct s1 as [| c1 [| c2 [| c3 s4]]];
      try (cbn [String.length] in *; lia).
    destruct (Ascii.eqb c0 "w" && Ascii.eqb c1 "w" && Ascii.eqb c2 "w"
              && negb (Ascii.eqb c3 Py.newline))%bool.
    + assert (H4 : (String.length (re_sub_www s4) <= String.length s4)%nat)
        by (apply IH; cbn [String.length] in Hn; lia).
      cbn [String.length]. lia.
    + cbn [String.length] in *. lia.
Qed.

(** X17: a host in which "www" does not occur is shown unchanged, a
    leading "www." is removed, and the host shown is never longer than the
    host. *)
Theorem host_display :
  (forall host, occurs_in "www" host = false -> re_sub_www host = host)
  /\ (forall rest, re_sub_www ("www." ++ rest) = re_sub_www rest)
  /\ (forall host,
         (String.length (re_sub_www host) <= String.length host)%nat).
Proof.
  split; [exact re_sub_www_without | split].
  - intros rest. reflexivity.
  - intros host. apply (re_sub_www_length (String.length host)). lia.
Qed.

Lemma host_display_witness :
  re_sub_www "news.ycombinator.com" = "news.ycombinator.com".
Proof.
  apply (proj1 host_display). reflexivity.
Defined.

(** ** The index of a previous load, saved again *)

Lemma repr_char_numeral c :
  numeral_char c = true -> PyList.repr_char "'" c = String c EmptyString.
Proof.
  destruct c as [b0 b1 b2 b3 b4 b5 b6 b7].
  destruct b0, b1, b2, b3, b4, b5, b6, b7; intros H;
    first [discriminate H | reflexivity].
Qed.

Lemma repr_chars_numeral s :
  every numeral_char s = true -> PyList.repr_chars "'" s = s.
Proof.
  induction s as [| c s IH]; intros H; [reflexivity |].
  cbn [every] in H. apply andb_true_iff in H. destruct H as [Hc Hs].
  cbn [PyList.repr_chars]. rewrite (repr_char_numeral c Hc), (IH Hs).
  reflexivity.
Qed.

Lemma repr_numeral n :
  PyList.repr_str (Py.str_int n) = "'" ++ Py.str_int n ++ "'".
Proof.
  unfold PyList.repr_str.
  rewrite (numeral_without "'" n eq_refl). cbn [andb].
  rewrite (repr_chars_numeral _ (every_str_int n)). reflexivity.
Qed.

Lemma delete_app_any c a b :
  Py.replace (a ++ b) (String c EmptyString) EmptyString
  = Py.replace a (String c EmptyString) EmptyString
      ++ Py.replace b (String c EmptyString) EmptyString.
Proof.
  induction a as [| x a IH]; [reflexivity |].
  simpl append. unfold Py.replace in *. cbn [Py.replace_from].
  rewrite !prefix_char. destruct (Ascii.eqb c x).
  - simpl. exact IH.
  - simpl. rewrite IH. reflexivity.
Qed.

Lemma delete_join c l :
  Py.contains c ", " = false ->
  Py.replace (Py.join ", " l) (String c EmptyString) EmptyString
  = Py.join ", "
      (List.map (fun x => Py.replace x (String c EmptyString) EmptyString) l).
Proof.
  intros Hsep. induction l as [| x l IH]; [reflexivity |].
  destruct l as [| y l]; [reflexivity |].
  change (Py.join ", " (x :: y :: l)) with (x ++ ", " ++ Py.join ", " (y :: l)).
  rewrite !delete_app_any, IH, (replace_absent c _ ", " Hsep). reflexivity.
Qed.

Lemma numeric_repr_without c id :
  numeric id ->
  numeral_char c = false -> Ascii.eqb c "'" = false ->
  Py.contains c (PyList.repr_ident id) = false.
Proof.
  intros Hid Hc Hq. destruct id as [n | s]; cbn [PyList.repr_ident text_of].
  - apply numeral_without. exact Hc.
  - destruct Hid as [n ->]. rewrite repr_numeral.
    change ("'" ++ Py.str_int n ++ "'") with (String "'" (Py.str_int n ++ "'")).
    cbn [Py.contains]. rewrite contains_app, (numeral_without c n Hc), Hq.
    cbn [Py.contains]. rewrite Hq. reflexivity.
Qed.

Lemma numeric_body_without c ids :
  Forall numeric ids ->
  numeral_char c = false -> Ascii.eqb c "'" = false ->
  Py.contains c ", " = false ->
  Py.contains c (Py.join ", " (List.map PyList.repr_ident ids)) = false.
Proof.
  intros Hids Hc Hq Hsep. apply contains_join; [exact Hsep |].
  apply Forall_map. apply (Forall_impl _ (fun id H => numeric_repr_without c id H Hc Hq) Hids).
Qed.

Lemma unquote_ident id :
  numeric id ->
  Py.replace (PyList.repr_ident id) "'" EmptyString = text_of id.
Proof.
  intros Hid. destruct id as [n | s]; cbn [PyList.repr_ident text_of].
  - apply replace_absent. apply numeral_without. reflexivity.
  - destruct Hid as [n ->]. rewrite repr_numeral.
    change ("'" ++ Py.str_int n ++ "'") with (String "'" (Py.str_int n ++ "'")).
    rewrite delete_head, (delete_app "'" (Py.str_int n) "'").
    + change (Py.replace "'" "'" EmptyString) with EmptyString.
      apply append_empty_r.
    + apply numeral_without. reflexivity.
Qed.

Lemma text_without_comma id :
  numeric id -> Py.contains "," (text_of id) = false.
Proof.
  intros Hid. destruct id as [n | s]; cbn [PyList.repr_ident text_of].
  - apply numeral_without. reflexivity.
  - destruct Hid as [n ->]. apply numeral_without. reflexivity.
Qed.

Lemma parse_numeric ids :
  ids <> [] ->
  Forall numeric ids ->
  HackerNews.parse_item_ids (PyList.str_list ids)
  = List.map (fun id => IdStr (text_of id)) ids.
Proof.
  intros Hne Hids.
  unfold HackerNews.parse_item_ids, PyList.str_list.
  set (body := Py.join ", " (List.map PyList.repr_ident ids)).
  change ("[" ++ body ++ "]") with (String "[" (body ++ "]")).
  rewrite (strip_enclosed "[" body "]") by reflexivity.
  cbn [List.fold_left HackerNews.excludes].
  rewrite delete_head.
  rewrite (delete_app "[" body "]")
    by (apply numeric_body_without; [exact Hids | reflexivity ..]).
  change (Py.replace "]" "[" EmptyString) with "]".
  rewrite (delete_app "]" body "]")
    by (apply numeric_body_without; [exact Hids | reflexivity ..]).
  change (Py.replace "]" "]" EmptyString) with EmptyString.
  rewrite append_empty_r.
  unfold body. rewrite (delete_join "'" _ eq_refl), map_map.
  rewrite (map_ext_Forall _ text_of).
  2: { apply (Forall_impl _ unquote_ident Hids). }
  rewrite split_join.
  - rewrite map_map. reflexivity.
  - destruct ids; [contradiction | discriminate].
  - apply Forall_map. apply (Forall_impl _ text_without_comma Hids).
Qed.

Lemma numeric_one_line ids :
  Forall numeric ids ->
  Py.contains Py.newline (PyList.str_list ids) = false.
Proof.
  intros Hids. unfold PyList.str_list.
  change ("[" ++ Py.join ", " (List.map PyList.repr_ident ids) ++ "]")
    with (String "[" (Py.join ", " (List.map PyList.repr_ident ids) ++ "]")).
  cbn [Py.contains]. rewrite contains_app.
  rewrite numeric_body_without by (try exact Hids; reflexivity).
  reflexivity.
Qed.

(** X18: every non-empty index whose identifiers are ints or the decimal
    texts of a previous load is saved and loaded back as the texts of its
    identifiers, in order; the quotes [str] puts around a text are removed
    by the parse. *)
Theorem saved_index_loads_as_text :
  forall env ids s,
    ids <> [] ->
    Forall numeric ids ->
    item_ids s = ids ->
    let file := config_file (snd (HackerNews.save_item_ids s)) in
    (items_ids <- HackerNews.read_item_ids env ;;
     HackerNews.set_item_ids (HackerNews.parse_item_ids items_ids))
      (HackerNews.init file)
    = (Ok tt, mkState (List.map (fun id => IdStr (text_of id)) ids) file [] []).
Proof.
  intros env ids s Hne Hids Hs file.
  assert (Hfile : file = Some (saved_text ids)).
  { subst file. unfold HackerNews.save_item_ids. simpl. rewrite Hs. reflexivity. }
  assert (Hread : HackerNews.read_item_ids env (HackerNews.init file)
                  = (Ok (PyList.str_list ids), HackerNews.init file)).
  { unfold HackerNews.read_item_ids. simpl config_file. rewrite Hfile.
    rewrite readfp_saved.
    - reflexivity.
    - apply numeric_one_line. exact Hids.
    - apply numeric_body_without; [exact Hids | reflexivity ..]. }
  rewrite (bind_ok _ _ _ _ _ Hread).
  unfold HackerNews.set_item_ids. rewrite (parse_numeric ids Hne Hids).
  reflexivity.
Qed.

Lemma saved_index_loads_as_text_witness :
  let s := mkState [IdStr "42"; IdStr "7"; IdInt 8] None [] [] in
  let file := config_file (snd (HackerNews.save_item_ids s)) in
  file = Some ("[hncli]" ++ Py.nl ++ "item_ids = ['42', '7', 8]" ++ Py.nl ++ Py.nl)
  /\ (items_ids <- HackerNews.read_item_ids Demo.env ;;
      HackerNews.set_item_ids (HackerNews.parse_item_ids items_ids))
       (HackerNews.init file)
     = (Ok tt, mkState [IdStr "42"; IdStr "7"; IdStr "8"] file [] []).
Proof.
  intros s file. split; [reflexivity |].
  apply (saved_index_loads_as_text Demo.env [IdStr "42"; IdStr "7"; IdInt 8] s).
  - discriminate.
  - repeat constructor; [exists 42 | exists 7]; reflexivity.
  - reflexivity.
Defined.

Lemma view_keeps_file_witness :
  let s := HackerNews.init (Some (saved_text [IdInt 42; IdInt 7])) in
  item_ids (snd (HackerNews.view Demo.env 3%nat 5 EmptyString true s))
  = HackerNews.parse_item_ids "[42, 7]".
Proof.
  intros s.
  apply (proj2 view_keeps_file Demo.env 3%nat 5 EmptyString true s "[42, 7]").
  reflexivity.
Defined.

Lemma label_empty_iff_future_witness :
  pretty_date_time Demo.clock (fun t => t * 1000000) (DtInt 1000001)
  = EmptyString.
Proof.
  apply (proj2 (label_empty_iff_future Demo.clock (fun t => t * 1000000)
                                       (DtInt 1000001))).
  exists 1000001000000. split; [reflexivity | unfold Demo.clock; lia].
Defined.

(** ** Comments without an author, and comments under a filtered one *)

(** X19: a comment with a body but without an author aborts the traversal
    before anything of it is written: without a pattern the header cannot
    be built, with a pattern the search in the author raises first. *)
Theorem comment_without_author :
  (forall env fuel item depth s body,
      text item = Some body ->
      by_ item = None ->
      HackerNews.print_comments env (S fuel) item EmptyString depth s
      = (Raise (Exc TypeError "cannot concatenate 'str' and 'NoneType' objects"),
         s))
  /\ (forall env fuel item q depth s body,
         text item = Some body ->
         by_ item = None ->
         Py.truthy q = true ->
         re_error env q = None ->
         HackerNews.print_comments env (S fuel) item q depth s
         = (Raise (Exc TypeError "expected string or buffer"), s)).
Proof.
  split.
  - intros env fuel item depth s body Htext Hby.
    rewrite print_comments_step. apply bind_raise.
    unfold visit. rewrite Htext. cbn [Py.truthy String.eqb negb].
    rewrite (bind_ok _ _ s true s eq_refl).
    unfold HackerNews.print_formatted_comment. apply bind_raise.
    rewrite Hby. reflexivity.
  - intros env fuel item q depth s body Htext Hby Hq Hvalid.
    rewrite print_comments_step. apply bind_raise.
    unfold visit. rewrite Htext, Hq. apply bind_raise. apply bind_raise.
    apply (regex_match_absent env item q s Hvalid). left. exact Hby.
Qed.

Lemma comment_without_author_witness :
  let ghost := mkItem 9 None None None (Some "boo") 0 None DtNone None in
  HackerNews.print_comments Demo.env 1%nat ghost EmptyString 0
    (HackerNews.init None)
  = (Raise (Exc TypeError "cannot concatenate 'str' and 'NoneType' objects"),
     HackerNews.init None)
  /\ HackerNews.print_comments Demo.env 1%nat ghost "boo" 0
       (HackerNews.init None)
     = (Raise (Exc TypeError "expected string or buffer"), HackerNews.init None).
Proof.
  intros ghost. destruct comment_without_author as [Hplain Hfiltered].
  split.
  - apply (Hplain Demo.env 0%nat ghost 0 (HackerNews.init None) "boo");
      reflexivity.
  - apply (Hfiltered Demo.env 0%nat ghost "boo" 0 (HackerNews.init None) "boo");
      reflexivity.
Defined.

(** X20: the filter is applied to each comment on its own: in the
    traversal of a served tree a comment that passes the filter is rendered
    whether or not its ancestors pass it, and everything the traversal
    writes is the rendering of a comment that passes. *)
Theorem filter_is_per_comment :
  forall env fuel t q depth s,
    (height t <= fuel)%nat ->
    served env t ->
    well_signed (preorder depth t) ->
    valid_query env q ->
    let s' := snd (HackerNews.print_comments env fuel (root t) q depth s) in
    (forall node,
        In node (preorder depth t) ->
        shown env q node = true ->
        incl (rendering env node) (terminal s'))
    /\ (forall call,
           In call (terminal s') ->
           In call (terminal s)
           \/ exists node,
               In node (preorder depth t)
               /\ shown env q node = true
               /\ In call (rendering env node)).
Proof.
  intros env fuel t q depth s Hh Hserved Hsigned Hq s'.
  assert (Hout : terminal s'
                 = (terminal s
                      ++ List.flat_map (rendering env)
                           (List.filter (shown env q) (preorder depth t)))%list).
  { subst s'. rewrite (walk_ok env fuel t q depth s Hh Hserved Hsigned Hq).
    reflexivity. }
  rewrite Hout. split.
  - intros node Hin Hshown call Hcall.
    apply in_or_app. right. apply in_flat_map. exists node.
    split; [apply filter_In; split; assumption | exact Hcall].
  - intros call Hcall. apply in_app_or in Hcall.
    destruct Hcall as [Hold | Hnew]; [left; exact Hold | right].
    apply in_flat_map in Hnew. destruct Hnew as [node [Hnode Hcall]].
    apply filter_In in Hnode. destruct Hnode as [Hin Hshown].
    exists node. repeat split; assumption.
Qed.

Lemma filter_is_per_comment_witness :
  let s' := snd (HackerNews.print_comments Demo.env 3%nat (root Demo.treeA)
                   "nested" 0 (HackerNews.init None)) in
  shown Demo.env "nested" (Demo.commentB, 1) = false
  /\ incl (rendering Demo.env (Demo.commentD, 2)) (terminal s').
Proof.
  intros s'. split; [reflexivity |].
  destruct (filter_is_per_comment Demo.env 3%nat Demo.treeA "nested" 0
                                  (HackerNews.init None)) as [Hin _].
  - simpl. lia.
  - exact served_treeA.
  - exact well_signed_treeA.
  - intros _. reflexivity.
  - apply Hin.
    + simpl. right. right. left. reflexivity.
    + reflexivity.
Defined.
